(** * go-chat-kafka: the credential and session core

    A shallow embedding of the authentication service of the chat
    backend ([internal/service/auth_service.go]) together with the
    helpers it calls ([pkg/utils/jwt.go], [pkg/utils/password.go],
    [pkg/utils/uuid.go]) and the record types of [pkg/types/user.go].

    Go strings are byte strings: [len] counts bytes and [s[i:j]] slices
    bytes.  They are embedded as [String.string], whose characters are
    bytes as well, so that [String.length] is Go's [len].

    Go errors are embedded as values of the inductive type [error]; a
    function returning [(T, error)] returns a [result T], and a function
    returning only [error] returns an [option error] ([None] is [nil]). *)

From Stdlib Require Import String Ascii List ZArith Lia Bool.
Import ListNotations.
Local Open Scope string_scope.

Set Implicit Arguments.

(** ** Errors *)

(** The error values that flow through the service.  [fmt.Errorf] with a
    constant text is [ErrorfS]; with a trailing [%v] it is [ErrorfV]; with
    a trailing [%w] it is [ErrorfW], which keeps the wrapped error.  The
    text stored in [ErrorfV] and [ErrorfW] is the format string up to the
    verb. *)
Inductive error : Type :=
| ErrNoRows
    (* pgx.ErrNoRows, the sentinel the service compares against *)
| PgError (Severity Code Message : string)
    (* *pgconn.PgError, a failure reported by the database server *)
| LibError (msg : string)
    (* an error value of a library: driver, bcrypt, uuid, crypto/rand *)
| JwtError (sentinel : string) (message : string)
    (* golang-jwt's newError(message, sentinel) *)
| JwtErrorW (sentinel : string) (message : string) (cause : error)
    (* golang-jwt's newError(message, sentinel, cause) *)
| ErrorfS (text : string)
| ErrorfV (text : string) (v : string)
| ErrorfW (text : string) (wrapped : error).

(** The [Error()] method: the message a caller sees. *)
Fixpoint Error (e : error) : string :=
  match e with
  | ErrNoRows => "no rows in result set"
  | PgError sev code m => sev ++ ": " ++ m ++ " (SQLSTATE " ++ code ++ ")"
  | LibError m => m
  | JwtError s m => s ++ (if String.eqb m "" then "" else ": " ++ m)
  | JwtErrorW s m c =>
      s ++ (if String.eqb m "" then "" else ": " ++ m) ++ ": " ++ Error c
  | ErrorfS t => t
  | ErrorfV t v => t ++ v
  | ErrorfW t w => t ++ Error w
  end.

(** [err == pgx.ErrNoRows]: comparison with the sentinel. *)
Definition isErrNoRows (e : error) : bool :=
  match e with
  | ErrNoRows => true
  | _ => false
  end.

Inductive result (A : Type) : Type :=
| Ok (a : A)
| Err (e : error).

Arguments Ok {A} a.
Arguments Err {A} e.

Definition isOk {A} (r : result A) : bool :=
  match r with
  | Ok _ => true
  | Err _ => false
  end.

(** ** Strings *)

(** Go's [len(s)] as an [int]. *)
Definition len (s : string) : Z := Z.of_nat (String.length s).

(** Go's [s[i:j]] for [0 <= i <= j <= len(s)]; every slice taken by the
    code below is in range. *)
Definition slice (s : string) (i j : Z) : string :=
  substring (Z.to_nat i) (Z.to_nat (j - i)) s.

(** [sub] occurs in [s]. *)
Definition occurs_in (sub s : string) : Prop :=
  exists pre post : string, s = pre ++ sub ++ post.

(** ** [internal/service/auth_service.go]: the string helpers *)

(** The loop of [containsMiddle]: [i] is the loop variable and [fuel]
    the number of iterations left before [i <= len(s)-len(substr)]
    fails. *)
Fixpoint containsMiddle_from (s substr : string) (i : Z) (fuel : nat) : bool :=
  match fuel with
  | O => false
  | S fuel' =>
      if String.eqb (slice s i (i + len substr)) substr then true
      else containsMiddle_from s substr (i + 1) fuel'
  end.

Definition containsMiddle (s substr : string) : bool :=
  containsMiddle_from s substr 0 (Z.to_nat (len s - len substr + 1)).

Definition contains (s substr : string) : bool :=
  (0 <? len s)%Z && (0 <? len substr)%Z &&
  (len substr <=? len s)%Z && negb (String.eqb s substr) &&
  (String.eqb (slice s 0 (len substr)) substr
   || String.eqb (slice s (len s - len substr) (len s)) substr
   || (len substr <? len s)%Z && containsMiddle s substr).

(** ** Time, identifiers and database rows *)

(** [time.Time] and [time.Duration], both in nanoseconds. *)
Definition Time := Z.
Definition Duration := Z.

(** [pgtype.UUID]. *)
Module UUID.
Record t : Type := { Bytes : list Byte.byte; Valid : bool }.
Definition zero : t := {| Bytes := repeat Byte.x00 16; Valid := false |}.
Definition eqb (a b : t) : bool :=
  Bool.eqb (Valid a) (Valid b) &&
  (Nat.eqb (List.length (Bytes a)) (List.length (Bytes b)) &&
   forallb (fun p => Byte.eqb (fst p) (snd p)) (combine (Bytes a) (Bytes b))).
End UUID.

(** [pgtype.Timestamp], without the infinity modifier, which the service
    never sets. *)
Module Timestamp.
Record t : Type := { Time : Time; Valid : bool }.
End Timestamp.

(** [repository.User], the row type of the accounts table; its fields are
    the ones the service reads. *)
Module User.
Record t : Type := {
  ID : UUID.t;
  Username : string;
  Email : string;
  PasswordHash : string;
  CreatedAt : Timestamp.t
}.
End User.

(** [repository.RefreshToken], the row type of a refresh session. *)
Module RefreshRow.
Record t : Type := {
  ID : UUID.t;
  UserID : UUID.t;
  Token : string;
  ExpiresAt : Timestamp.t;
  CreatedAt : Timestamp.t
}.
End RefreshRow.

Module CreateUserParams.
Record t : Type := { Username : string; Email : string; PasswordHash : string }.
End CreateUserParams.

Module CreateRefreshTokenParams.
Record t : Type := { UserID : UUID.t; Token : string; ExpiresAt : Timestamp.t }.
End CreateRefreshTokenParams.

(** ** [pkg/types/user.go] *)

(** [jwt.RegisteredClaims], with the fields the code sets or reads: a
    [*NumericDate] is an optional time. *)
Module RegisteredClaims.
Record t : Type := {
  Subject : string;
  ExpiresAt : option Time;
  NotBefore : option Time;
  IssuedAt : option Time;
  ID : string
}.
End RegisteredClaims.

Module Claims.
Record t : Type := {
  UserID : string;
  Username : string;
  Email : string;
  Registered : RegisteredClaims.t
}.
End Claims.

Module TokenPair.
Record t : Type := { AccessToken : string; RefreshToken : string }.
End TokenPair.

Module UserResponse.
Record t : Type := {
  ID : string;
  Username : string;
  Email : string;
  CreatedAt : string
}.
End UserResponse.

Module AuthResponse.
Record t : Type := { User : UserResponse.t; Tokens : TokenPair.t }.
End AuthResponse.

Module RegisterInput.
Record t : Type := { Username : string; Email : string; Password : string }.
End RegisterInput.

Module LoginInput.
Record t : Type := { Email : string; Password : string }.
End LoginInput.

Module RefreshTokenInput.
Record t : Type := { RefreshToken : string }.
End RefreshTokenInput.

(** [config.JWTConfig]. *)
Module JWTConfig.
Record t : Type := {
  AccessSecret : string;
  RefreshSecret : string;
  AccessExpiration : Duration;
  RefreshExpiration : Duration
}.
End JWTConfig.

(** [validateRegisterInput]; [None] is [nil]. *)
Definition validateRegisterInput (input : RegisterInput.t) : option error :=
  if String.eqb (RegisterInput.Username input) "" then
    Some (ErrorfS "username é obrigatório")
  else if ((len (RegisterInput.Username input) <? 3)
           || (50 <? len (RegisterInput.Username input)))%Z then
    Some (ErrorfS "username deve ter entre 3 e 50 caracteres")
  else if String.eqb (RegisterInput.Email input) "" then
    Some (ErrorfS "email é obrigatório")
  else if negb (contains (RegisterInput.Email input) "@")
          || negb (contains (RegisterInput.Email input) ".") then
    Some (ErrorfS "email inválido")
  else if String.eqb (RegisterInput.Password input) "" then
    Some (ErrorfS "senha é obrigatória")
  else if (len (RegisterInput.Password input) <? 6)%Z then
    Some (ErrorfS "senha deve ter no mínimo 6 caracteres")
  else None.

(** ** The libraries the code calls

    The service is written against golang-jwt/jwt/v5, x/crypto/bcrypt,
    google/uuid, pgtype and the time package.  Their byte-level work
    (base64, JSON, HMAC, Blowfish, hexadecimal and date formatting) is
    taken as the fields of a record [Lib]; the control flow around it
    that the claims depend on is written out below. *)

(** The dynamic type of a [jwt.SigningMethod]. *)
Inductive MethodFamily : Type :=
| SigningMethodHMAC
| SigningMethodRSA
| SigningMethodRSAPSS
| SigningMethodECDSA
| SigningMethodEd25519
| signingMethodNone.

Module SigningMethod.
Record t : Type := { Alg : string; Family : MethodFamily }.
End SigningMethod.

Definition SigningMethodHS256 : SigningMethod.t :=
  {| SigningMethod.Alg := "HS256"; SigningMethod.Family := SigningMethodHMAC |}.

(** The methods the jwt package registers when it is loaded; the
    repository registers no other. *)
Definition registeredMethods : list (string * MethodFamily) :=
  [ ("HS256", SigningMethodHMAC); ("HS384", SigningMethodHMAC);
    ("HS512", SigningMethodHMAC);
    ("RS256", SigningMethodRSA); ("RS384", SigningMethodRSA);
    ("RS512", SigningMethodRSA);
    ("PS256", SigningMethodRSAPSS); ("PS384", SigningMethodRSAPSS);
    ("PS512", SigningMethodRSAPSS);
    ("ES256", SigningMethodECDSA); ("ES384", SigningMethodECDSA);
    ("ES512", SigningMethodECDSA);
    ("EdDSA", SigningMethodEd25519);
    ("none", signingMethodNone) ].

(** [jwt.GetSigningMethod]; [None] is the nil method. *)
Definition GetSigningMethod (alg : string) : option SigningMethod.t :=
  match find (fun p => String.eqb (fst p) alg) registeredMethods with
  | Some (a, f) => Some {| SigningMethod.Alg := a; SigningMethod.Family := f |}
  | None => None
  end.

(** What the parser has read from the three segments of a token before
    any verification: the [alg] entry of the header when it is a string,
    the claims, the text that was signed and the signature segment. *)
Module Segments.
Record t (C : Type) : Type := {
  alg : option string;
  claims : C;
  signingText : string;
  signature : string
}.
End Segments.

(** [jwt.Token], with claims of type [C]. *)
Module Token.
Record t (C : Type) : Type := {
  Raw : string;
  Method : SigningMethod.t;
  HeaderAlg : string;
  Claims : C;
  Signature : string;
  Valid : bool
}.
End Token.

Record Lib : Type := {
  (* golang-jwt: split the token, decode header and claims *)
  jwt_segmentsAccess : string -> result (Segments.t Claims.t);
  jwt_segmentsRefresh : string -> result (Segments.t RegisteredClaims.t);
  (* Parser.DecodeSegment on the signature segment *)
  jwt_DecodeSegment : string -> result string;
  (* SigningMethod.Verify(signingText, signature, key) *)
  jwt_Verify : SigningMethod.t -> string -> string -> string -> option error;
  (* Validator.Validate at the given time *)
  jwt_Validate : RegisteredClaims.t -> Time -> option error;
  (* Token.SignedString for each claims type *)
  jwt_SignedStringAccess : SigningMethod.t -> Claims.t -> string -> result string;
  jwt_SignedStringRefresh :
    SigningMethod.t -> RegisteredClaims.t -> string -> result string;
  (* bcrypt: the radix-64 text of a fresh salt *)
  bcrypt_base64Encode : string -> string;
  (* bcrypt: the digest text for a cost, a salt and the key stream that
     the Blowfish key schedule reads *)
  bcrypt_digest : Z -> string -> string -> result string;
  (* bcrypt: hashed.Hash(), the stored text of cost, salt and digest *)
  bcrypt_Hash : Z -> string -> string -> string;
  (* bcrypt: newFromHash, the inverse of Hash on what bcrypt produced *)
  bcrypt_newFromHash : string -> result (Z * string * string);
  bcrypt_newFromHash_Hash :
    forall cost salt key digest,
      bcrypt_digest cost salt key = Ok digest ->
      bcrypt_newFromHash (bcrypt_Hash cost salt digest)
      = Ok (cost, salt, digest);
  (* uuid.UUID.String *)
  uuid_String : list Byte.byte -> string;
  (* pgtype.UUID.Scan on a string *)
  pgtype_Scan : string -> result UUID.t;
  (* time.Time.Format(time.RFC3339) *)
  time_Format_RFC3339 : Time -> string
}.

(** ** Effects

    The service reads the clock, draws random bytes and queries the
    database through the generated [repository.Queries].  A program is a
    finite tree of such requests: [Vis e k] performs [e] and continues
    with [k] on its answer. *)

Inductive Event : Type -> Type :=
| GetUserByEmail (email : string) : Event (result User.t)
| GetUserByUsername (username : string) : Event (result User.t)
| GetUserByID (id : UUID.t) : Event (result User.t)
| CreateUser (arg : CreateUserParams.t) : Event (result User.t)
| CreateRefreshToken (arg : CreateRefreshTokenParams.t) :
    Event (result RefreshRow.t)
| GetRefreshToken (token : string) : Event (result RefreshRow.t)
| DeleteRefreshToken (token : string) : Event (option error)
| TimeNow : Event Time
| UUIDNew : Event (list Byte.byte)
| RandRead (n : nat) : Event (result string).

(** The requests that go to the database. *)
Definition isQuery {X} (e : Event X) : bool :=
  match e with
  | TimeNow | UUIDNew | RandRead _ => false
  | _ => true
  end.

Inductive Prog (A : Type) : Type :=
| Ret (a : A)
| Vis (X : Type) (e : Event X) (k : X -> Prog A).

Arguments Ret {A} a.
Arguments Vis {A X} e k.

Fixpoint bind {A B} (m : Prog A) (f : A -> Prog B) : Prog B :=
  match m with
  | Ret a => f a
  | Vis e k => Vis e (fun x => bind (k x) f)
  end.

Definition trigger {X} (e : Event X) : Prog X := Vis e (fun x => Ret x).

Notation "x <- m ;; k" := (bind m (fun x => k))
  (at level 61, m at next level, right associativity).

Section Code.

Variable lib : Lib.

(** ** golang-jwt: [ParseWithClaims] *)

Definition ErrTokenMalformed : string := "token is malformed".
Definition ErrTokenUnverifiable : string := "token is unverifiable".
Definition ErrTokenSignatureInvalid : string := "token signature is invalid".
Definition ErrTokenInvalidClaims : string := "token has invalid claims".

(** The parser of the library with its default options: read the
    segments, look the method up by the header's [alg], decode the
    signature, ask [keyFunc] for the key, verify the signature, validate
    the claims at the current time, and only then mark the token valid.
    [segments] and [registered] stand for the claims type the caller
    passes in. *)
Definition ParseWithClaims {C : Type}
    (segments : string -> result (Segments.t C))
    (registered : C -> RegisteredClaims.t)
    (tokenString : string)
    (keyFunc : Token.t C -> result string) : Prog (result (Token.t C)) :=
  match segments tokenString with
  | Err err => Ret (Err err)
  | Ok seg =>
    match Segments.alg seg with
    | None =>
        Ret (Err (JwtError ErrTokenUnverifiable
                    "signing method (alg) is unspecified"))
    | Some alg =>
      match GetSigningMethod alg with
      | None =>
          Ret (Err (JwtError ErrTokenUnverifiable
                      "signing method (alg) is unavailable"))
      | Some method =>
        match jwt_DecodeSegment lib (Segments.signature seg) with
        | Err err =>
            Ret (Err (JwtErrorW ErrTokenMalformed
                        "could not base64 decode signature" err))
        | Ok sig =>
          let token :=
            {| Token.Raw := tokenString; Token.Method := method;
               Token.HeaderAlg := alg; Token.Claims := Segments.claims seg;
               Token.Signature := sig; Token.Valid := false |} in
          match keyFunc token with
          | Err err =>
              Ret (Err (JwtErrorW ErrTokenUnverifiable
                          "error while executing keyfunc" err))
          | Ok key =>
            match jwt_Verify lib method (Segments.signingText seg) sig key with
            | Some err => Ret (Err (JwtErrorW ErrTokenSignatureInvalid "" err))
            | None =>
              now <- trigger TimeNow ;;
              match jwt_Validate lib (registered (Segments.claims seg)) now with
              | Some err => Ret (Err (JwtErrorW ErrTokenInvalidClaims "" err))
              | None =>
                  Ret (Ok {| Token.Raw := tokenString; Token.Method := method;
                             Token.HeaderAlg := alg;
                             Token.Claims := Segments.claims seg;
                             Token.Signature := sig; Token.Valid := true |})
              end
            end
          end
        end
      end
    end
  end.

(** ** [pkg/utils/jwt.go] *)

Definition second : Duration := 1000000000%Z.

(** [jwt.NewNumericDate]: the time truncated to the second. *)
Definition NewNumericDate (t : Time) : option Time :=
  Some (t / second * second)%Z.

Definition GenerateAccessToken (userID username email secret : string)
    (duration : Duration) : Prog (result string) :=
  t1 <- trigger TimeNow ;;
  t2 <- trigger TimeNow ;;
  t3 <- trigger TimeNow ;;
  id <- trigger UUIDNew ;;
  let claims :=
    {| Claims.UserID := userID;
       Claims.Username := username;
       Claims.Email := email;
       Claims.Registered :=
         {| RegisteredClaims.Subject := "";
            RegisteredClaims.ExpiresAt := NewNumericDate (t1 + duration)%Z;
            RegisteredClaims.NotBefore := NewNumericDate t3;
            RegisteredClaims.IssuedAt := NewNumericDate t2;
            RegisteredClaims.ID := uuid_String lib id |} |} in
  Ret (jwt_SignedStringAccess lib SigningMethodHS256 claims secret).

Definition GenerateRefreshToken (userID secret : string)
    (duration : Duration) : Prog (result string) :=
  t1 <- trigger TimeNow ;;
  t2 <- trigger TimeNow ;;
  id <- trigger UUIDNew ;;
  let claims :=
    {| RegisteredClaims.Subject := userID;
       RegisteredClaims.ExpiresAt := NewNumericDate (t1 + duration)%Z;
       RegisteredClaims.NotBefore := None;
       RegisteredClaims.IssuedAt := NewNumericDate t2;
       RegisteredClaims.ID := uuid_String lib id |} in
  Ret (jwt_SignedStringRefresh lib SigningMethodHS256 claims secret).

(** The key function both validators pass to the parser: the type
    assertion of [token.Method] to a pointer to [jwt.SigningMethodHMAC]. *)
Definition keyFunc {C : Type} (secret : string) (token : Token.t C)
    : result string :=
  match SigningMethod.Family (Token.Method token) with
  | SigningMethodHMAC => Ok secret
  | _ =>
      Err (ErrorfV "método de assinatura inesperado: " (Token.HeaderAlg token))
  end.

(** The claims of a parsed token are the value the caller passed in, so
    the type assertion on [token.Claims] holds and the test left is
    [token.Valid]. *)
Definition ValidateAccessToken (tokenString secret : string)
    : Prog (result Claims.t) :=
  r <- ParseWithClaims (jwt_segmentsAccess lib) Claims.Registered
         tokenString (keyFunc secret) ;;
  match r with
  | Err err => Ret (Err (ErrorfW "erro ao parsear token: " err))
  | Ok token =>
      if Token.Valid token then Ret (Ok (Token.Claims token))
      else Ret (Err (ErrorfS "token inválido"))
  end.

Definition ValidateRefreshToken (tokenString secret : string)
    : Prog (result string) :=
  r <- ParseWithClaims (jwt_segmentsRefresh lib) (fun c => c)
         tokenString (keyFunc secret) ;;
  match r with
  | Err err => Ret (Err (ErrorfW "erro ao parsear refresh token: " err))
  | Ok token =>
      if Token.Valid token
      then Ret (Ok (RegisteredClaims.Subject (Token.Claims token)))
      else Ret (Err (ErrorfS "refresh token inválido"))
  end.

(** ** [pkg/utils/uuid.go] *)

Definition UUIDToString (u : UUID.t) : string :=
  if negb (UUID.Valid u) then "" else uuid_String lib (UUID.Bytes u).

(** ** x/crypto/bcrypt *)

(** The Blowfish key schedule reads the key cyclically, [n] bytes from
    index [j] on, wrapping to index 0 at the end of the key. *)
Fixpoint keyBytes (key : string) (j n : nat) : string :=
  match n with
  | O => ""
  | S n' =>
      match String.get j key with
      | Some c =>
          String c
            (keyBytes key (if Nat.ltb (S j) (String.length key) then S j else O)
               n')
      | None => ""
      end
  end.

(** bcrypt appends a zero byte to the password and runs the key schedule
    on it: 18 words of 4 bytes are read. *)
Definition keyStream (password : string) : string :=
  keyBytes (password ++ String Ascii.zero "") 0 72.

Definition ErrPasswordTooLong : error :=
  LibError "bcrypt: password length exceeds 72 bytes".
Definition ErrMismatchedHashAndPassword : error :=
  LibError "crypto/bcrypt: hashedPassword is not the hash of the given password".

(** [bcrypt.GenerateFromPassword] for a cost in the accepted range. *)
Definition GenerateFromPassword (password : string) (cost : Z)
    : Prog (result string) :=
  if (72 <? len password)%Z then Ret (Err ErrPasswordTooLong)
  else
    r <- trigger (RandRead 16) ;;
    match r with
    | Err err => Ret (Err err)
    | Ok unencodedSalt =>
        let salt := bcrypt_base64Encode lib unencodedSalt in
        match bcrypt_digest lib cost salt (keyStream password) with
        | Err err => Ret (Err err)
        | Ok digest => Ret (Ok (bcrypt_Hash lib cost salt digest))
        end
    end.

(** [bcrypt.CompareHashAndPassword]: the digest is computed again with
    the cost and salt of the stored text and the two texts are compared. *)
Definition CompareHashAndPassword (hashedPassword password : string)
    : option error :=
  match bcrypt_newFromHash lib hashedPassword with
  | Err err => Some err
  | Ok (cost, salt, digest) =>
      match bcrypt_digest lib cost salt (keyStream password) with
      | Err err => Some err
      | Ok otherDigest =>
          if String.eqb (bcrypt_Hash lib cost salt digest)
                        (bcrypt_Hash lib cost salt otherDigest)
          then None
          else Some ErrMismatchedHashAndPassword
      end
  end.

(** ** [pkg/utils/password.go] *)

Definition HashPassword (password : string) : Prog (result string) :=
  r <- GenerateFromPassword password 12 ;;
  match r with
  | Err err => Ret (Err (ErrorfW "falha ao gerar hash: " err))
  | Ok bytes => Ret (Ok bytes)
  end.

Definition CheckPassword (password hash : string) : bool :=
  match CompareHashAndPassword hash password with
  | None => true
  | Some _ => false
  end.

(** ** [internal/service/auth_service.go] *)

(** The [JWT] part of [s.cfg], the only part the service reads. *)
Variable cfg : JWTConfig.t.

Definition generateTokens (userID : UUID.t) (username email : string)
    : Prog (result TokenPair.t) :=
  a <- GenerateAccessToken (UUIDToString userID) username email
         (JWTConfig.AccessSecret cfg) (JWTConfig.AccessExpiration cfg) ;;
  match a with
  | Err err => Ret (Err err)
  | Ok accessToken =>
      r <- GenerateRefreshToken (UUIDToString userID)
             (JWTConfig.RefreshSecret cfg) (JWTConfig.RefreshExpiration cfg) ;;
      match r with
      | Err err => Ret (Err err)
      | Ok refreshToken =>
          Ret (Ok {| TokenPair.AccessToken := accessToken;
                     TokenPair.RefreshToken := refreshToken |})
      end
  end.

Definition saveRefreshToken (userID : UUID.t) (token : string)
    : Prog (option error) :=
  now <- trigger TimeNow ;;
  let expiresAt :=
    {| Timestamp.Time := (now + JWTConfig.RefreshExpiration cfg)%Z;
       Timestamp.Valid := true |} in
  r <- trigger (CreateRefreshToken
                  {| CreateRefreshTokenParams.UserID := userID;
                     CreateRefreshTokenParams.Token := token;
                     CreateRefreshTokenParams.ExpiresAt := expiresAt |}) ;;
  match r with
  | Err err => Ret (Some err)
  | Ok _ => Ret None
  end.

Definition Register (input : RegisterInput.t) : Prog (result AuthResponse.t) :=
  match validateRegisterInput input with
  | Some err => Ret (Err err)
  | None =>
    byEmail <- trigger (GetUserByEmail (RegisterInput.Email input)) ;;
    match byEmail with
    | Ok _ => Ret (Err (ErrorfS "email já cadastrado"))
    | Err err =>
      if negb (isErrNoRows err)
      then Ret (Err (ErrorfW "erro ao verificar email: " err))
      else
        byName <- trigger (GetUserByUsername (RegisterInput.Username input)) ;;
        match byName with
        | Ok _ => Ret (Err (ErrorfS "username já cadastrado"))
        | Err err =>
          if negb (isErrNoRows err)
          then Ret (Err (ErrorfW "erro ao verificar username: " err))
          else
            h <- HashPassword (RegisterInput.Password input) ;;
            match h with
            | Err err => Ret (Err (ErrorfW "erro ao criar hash da senha: " err))
            | Ok passwordHash =>
              created <- trigger (CreateUser
                {| CreateUserParams.Username := RegisterInput.Username input;
                   CreateUserParams.Email := RegisterInput.Email input;
                   CreateUserParams.PasswordHash := passwordHash |}) ;;
              match created with
              | Err err => Ret (Err (ErrorfW "erro ao criar usuário: " err))
              | Ok user =>
                t <- generateTokens (User.ID user) (User.Username user)
                       (User.Email user) ;;
                match t with
                | Err err => Ret (Err (ErrorfW "erro ao gerar tokens: " err))
                | Ok tokens =>
                  saved <- saveRefreshToken (User.ID user)
                             (TokenPair.RefreshToken tokens) ;;
                  match saved with
                  | Some err =>
                      Ret (Err (ErrorfW "erro ao salvar refresh token: " err))
                  | None =>
                      Ret (Ok
                        {| AuthResponse.User :=
                             {| UserResponse.ID := UUIDToString (User.ID user);
                                UserResponse.Username := User.Username user;
                                UserResponse.Email := User.Email user;
                                UserResponse.CreatedAt :=
                                  time_Format_RFC3339 lib
                                    (Timestamp.Time (User.CreatedAt user)) |};
                           AuthResponse.Tokens := tokens |})
                  end
                end
              end
            end
        end
    end
  end.

Definition Login (input : LoginInput.t) : Prog (result AuthResponse.t) :=
  if String.eqb (LoginInput.Email input) ""
     || String.eqb (LoginInput.Password input) ""
  then Ret (Err (ErrorfS "email e senha são obrigatórios"))
  else
    found <- trigger (GetUserByEmail (LoginInput.Email input)) ;;
    match found with
    | Err err =>
        if isErrNoRows err then Ret (Err (ErrorfS "credenciais inválidas"))
        else Ret (Err (ErrorfW "erro ao buscar usuário: " err))
    | Ok user =>
        if negb (CheckPassword (LoginInput.Password input)
                   (User.PasswordHash user))
        then Ret (Err (ErrorfS "credenciais inválidas"))
        else
          t <- generateTokens (User.ID user) (User.Username user)
                 (User.Email user) ;;
          match t with
          | Err err => Ret (Err (ErrorfW "erro ao gerar tokens: " err))
          | Ok tokens =>
            saved <- saveRefreshToken (User.ID user)
                       (TokenPair.RefreshToken tokens) ;;
            match saved with
            | Some err =>
                Ret (Err (ErrorfW "erro ao salvar refresh token: " err))
            | None =>
                Ret (Ok
                  {| AuthResponse.User :=
                       {| UserResponse.ID := UUIDToString (User.ID user);
                          UserResponse.Username := User.Username user;
                          UserResponse.Email := User.Email user;
                          UserResponse.CreatedAt :=
                            time_Format_RFC3339 lib
                              (Timestamp.Time (User.CreatedAt user)) |};
                     AuthResponse.Tokens := tokens |})
            end
          end
    end.

Definition RefreshToken (input : RefreshTokenInput.t)
    : Prog (result TokenPair.t) :=
  if String.eqb (RefreshTokenInput.RefreshToken input) ""
  then Ret (Err (ErrorfS "refresh token é obrigatório"))
  else
    v <- ValidateRefreshToken (RefreshTokenInput.RefreshToken input)
           (JWTConfig.RefreshSecret cfg) ;;
    match v with
    | Err err => Ret (Err (ErrorfW "refresh token inválido: " err))
    | Ok userID =>
      t <- trigger (GetRefreshToken (RefreshTokenInput.RefreshToken input)) ;;
      match t with
      | Err err =>
          if isErrNoRows err
          then Ret (Err (ErrorfS "refresh token inválido ou expirado"))
          else Ret (Err (ErrorfW "erro ao buscar refresh token: " err))
      | Ok tokenRecord =>
        match pgtype_Scan lib userID with
        | Err err => Ret (Err (ErrorfW "userID inválido: " err))
        | Ok userUUID =>
          u <- trigger (GetUserByID userUUID) ;;
          match u with
          | Err err => Ret (Err (ErrorfW "usuário não encontrado: " err))
          | Ok user =>
            a <- GenerateAccessToken (UUIDToString (User.ID user))
                   (User.Username user) (User.Email user)
                   (JWTConfig.AccessSecret cfg)
                   (JWTConfig.AccessExpiration cfg) ;;
            match a with
            | Err err => Ret (Err (ErrorfW "erro ao gerar access token: " err))
            | Ok accessToken =>
                Ret (Ok {| TokenPair.AccessToken := accessToken;
                           TokenPair.RefreshToken :=
                             RefreshRow.Token tokenRecord |})
            end
          end
        end
      end
    end.

Definition Logout (refreshToken : string) : Prog (option error) :=
  if String.eqb refreshToken ""
  then Ret (Some (ErrorfS "refresh token é obrigatório"))
  else
    d <- trigger (DeleteRefreshToken refreshToken) ;;
    match d with
    | Some err => Ret (Some (ErrorfW "erro ao revogar token: " err))
    | None => Ret None
    end.

End Code.

(** ** The store and the environment

    Modelled from the spec: the generated package [repository] (the
    [Queries] type and the SQL of the accounts and refresh-session
    tables) is not among the sources.  The accounts table keeps username
    and email unique; the refresh-session table has no uniqueness
    constraint; lookups match the exact string; a delete removes the
    matching rows and, as an exec-style statement, reports no error when
    there is none.  A query can also fail for a reason of the storage
    itself (lost connection, a constraint violated by a concurrent
    writer): [faults] lists, for the queries to come, the failure each
    one meets, if any. *)
Module World.
Record t : Type := {
  users : list User.t;
  refresh_tokens : list RefreshRow.t;
  clock : Time;
  entropy : N;
  faults : list (option error)
}.
End World.

Definition nextFault (w : World.t) : option error :=
  match World.faults w with
  | [] => None
  | f :: _ => f
  end.

Definition afterQuery (w : World.t) : World.t :=
  {| World.users := World.users w;
     World.refresh_tokens := World.refresh_tokens w;
     World.clock := World.clock w;
     World.entropy := World.entropy w;
     World.faults := tl (World.faults w) |}.

(** Sixteen bytes drawn from the entropy counter, most significant
    first. *)
Definition bytesOfN (n : N) : list Byte.byte :=
  map (fun i =>
         match Byte.of_N (N.modulo (N.shiftr n (8 * N.of_nat (15 - i))) 256) with
         | Some b => b
         | None => Byte.x00
         end)
      (seq 0 16).

Definition freshUUID (w : World.t) : UUID.t :=
  {| UUID.Bytes := bytesOfN (World.entropy w); UUID.Valid := true |}.

Definition uniqueViolation : error :=
  PgError "ERROR" "23505" "duplicate key value violates unique constraint".

Definition userByEmail (email : string) (w : World.t) : option User.t :=
  find (fun u => String.eqb (User.Email u) email) (World.users w).

Definition userByUsername (username : string) (w : World.t) : option User.t :=
  find (fun u => String.eqb (User.Username u) username) (World.users w).

Definition userByID (id : UUID.t) (w : World.t) : option User.t :=
  find (fun u => UUID.eqb (User.ID u) id) (World.users w).

Definition sessionByToken (token : string) (w : World.t) : option RefreshRow.t :=
  find (fun r => String.eqb (RefreshRow.Token r) token) (World.refresh_tokens w).

Definition oneRow {A} (found : option A) : result A :=
  match found with
  | Some row => Ok row
  | None => Err ErrNoRows
  end.

(** The answer of the database to a query that meets no fault. *)
Definition answer {X} (e : Event X) (w : World.t) : X * World.t :=
  match e in Event X return X * World.t with
  | GetUserByEmail email => (oneRow (userByEmail email w), w)
  | GetUserByUsername username => (oneRow (userByUsername username w), w)
  | GetUserByID id => (oneRow (userByID id w), w)
  | CreateUser arg =>
      match userByEmail (CreateUserParams.Email arg) w,
            userByUsername (CreateUserParams.Username arg) w with
      | None, None =>
          let user :=
            {| User.ID := freshUUID w;
               User.Username := CreateUserParams.Username arg;
               User.Email := CreateUserParams.Email arg;
               User.PasswordHash := CreateUserParams.PasswordHash arg;
               User.CreatedAt :=
                 {| Timestamp.Time := World.clock w; Timestamp.Valid := true |} |} in
          (Ok user,
           {| World.users := World.users w ++ [user];
              World.refresh_tokens := World.refresh_tokens w;
              World.clock := World.clock w;
              World.entropy := N.succ (World.entropy w);
              World.faults := World.faults w |})
      | _, _ => (Err uniqueViolation, w)
      end
  | CreateRefreshToken arg =>
      let row :=
        {| RefreshRow.ID := freshUUID w;
           RefreshRow.UserID := CreateRefreshTokenParams.UserID arg;
           RefreshRow.Token := CreateRefreshTokenParams.Token arg;
           RefreshRow.ExpiresAt := CreateRefreshTokenParams.ExpiresAt arg;
           RefreshRow.CreatedAt :=
             {| Timestamp.Time := World.clock w; Timestamp.Valid := true |} |} in
      (Ok row,
       {| World.users := World.users w;
          World.refresh_tokens := World.refresh_tokens w ++ [row];
          World.clock := World.clock w;
          World.entropy := N.succ (World.entropy w);
          World.faults := World.faults w |})
  | GetRefreshToken token => (oneRow (sessionByToken token w), w)
  | DeleteRefreshToken token =>
      (None,
       {| World.users := World.users w;
          World.refresh_tokens :=
            filter (fun r => negb (String.eqb (RefreshRow.Token r) token))
                   (World.refresh_tokens w);
          World.clock := World.clock w;
          World.entropy := World.entropy w;
          World.faults := World.faults w |})
  | TimeNow =>
      (World.clock w,
       {| World.users := World.users w;
          World.refresh_tokens := World.refresh_tokens w;
          World.clock := (World.clock w + 1)%Z;
          World.entropy := World.entropy w;
          World.faults := World.faults w |})
  | UUIDNew =>
      (bytesOfN (World.entropy w),
       {| World.users := World.users w;
          World.refresh_tokens := World.refresh_tokens w;
          World.clock := World.clock w;
          World.entropy := N.succ (World.entropy w);
          World.faults := World.faults w |})
  | RandRead n =>
      (Ok (string_of_list_ascii
             (map (fun b => Ascii.ascii_of_byte b)
                  (firstn n (bytesOfN (World.entropy w))))),
       {| World.users := World.users w;
          World.refresh_tokens := World.refresh_tokens w;
          World.clock := World.clock w;
          World.entropy := N.succ (World.entropy w);
          World.faults := World.faults w |})
  end.

(** The failure answer of each query. *)
Definition failed {X} (e : Event X) (err : error) : option X :=
  match e in Event X return option X with
  | GetUserByEmail _ => Some (Err err)
  | GetUserByUsername _ => Some (Err err)
  | GetUserByID _ => Some (Err err)
  | CreateUser _ => Some (Err err)
  | CreateRefreshToken _ => Some (Err err)
  | GetRefreshToken _ => Some (Err err)
  | DeleteRefreshToken _ => Some (Some err)
  | TimeNow => None
  | UUIDNew => None
  | RandRead _ => None
  end.

(** One request: a query first consumes its entry of the fault list and
    fails with it if there is one, leaving the tables as they are. *)
Definition handle {X} (e : Event X) (w : World.t) : X * World.t :=
  if isQuery e then
    match nextFault w with
    | Some err =>
        match failed e err with
        | Some x => (x, afterQuery w)
        | None => answer e (afterQuery w)
        end
    | None => answer e (afterQuery w)
    end
  else answer e w.

Fixpoint run {A} (p : Prog A) (w : World.t) : A * World.t :=
  match p with
  | Ret a => (a, w)
  | Vis e k => let (x, w') := handle e w in run (k x) w'
  end.

(** * The message and user services

    [internal/service/message_service.go] and the user service, with the
    queries of [internal/database/queries/messages.sql] and
    [friendships.sql].  These services are written in state-passing style
    over a world of their own: the three tables they touch, the clock and
    entropy of the database, the fault schedule of the queries, what the
    Kafka producer has published, the failures its next sends meet, the
    lines printed to standard output, and the order the database will
    give to rows that [ORDER BY] does not tell apart.

    Of the user service the friendship operations are embedded.
    [GetUserByID], [GetUserByUsername] and [ListUsers] run statements on
    the accounts table whose SQL is not among the sources, and are left
    out.  The schema is not among the sources either: a statement that a
    constraint of the schema rejects is a failure of the fault schedule. *)

(** [repository.Message]. *)
Module Message.
Record t : Type := {
  ID : UUID.t;
  SenderID : UUID.t;
  ReceiverID : UUID.t;
  Content : string;
  Status : string;
  CreatedAt : Timestamp.t
}.
End Message.

(** [repository.Friendship]. *)
Module Friendship.
Record t : Type := {
  ID : UUID.t;
  UserID : UUID.t;
  FriendID : UUID.t;
  Status : string
}.
End Friendship.

(** ** [pkg/types/message.go], [pkg/types/http.go] and the inputs of the
    user service *)

Module MessageResponse.
Record t : Type := {
  ID : string;
  SenderID : string;
  ReceiverID : string;
  Content : string;
  Status : string;
  CreatedAt : string
}.
End MessageResponse.

Module SendMessageInput.
Record t : Type := { SenderID : string; ReceiverID : string; Content : string }.
End SendMessageInput.

(** Go's [int] fields are integers of 64 bits. *)
Module ListMessagesInput.
Record t : Type := { UserID : string; FriendID : string; Page : Z; PerPage : Z }.
End ListMessagesInput.

Module PaginationMeta.
Record t : Type := { Page : Z; PerPage : Z; Total : Z; TotalPages : Z }.
End PaginationMeta.

(** [Data] is an [interface{}] in the source; each function stores a
    slice of one response type in it. *)
Module PaginatedResponse.
Record t (A : Type) : Type := {
  Success : bool;
  Data : list A;
  Meta : PaginationMeta.t
}.
End PaginatedResponse.

Module AddFriendInput.
Record t : Type := { UserID : string; FriendID : string }.
End AddFriendInput.

Module AcceptFriendInput.
Record t : Type := { UserID : string; FriendID : string }.
End AcceptFriendInput.

(** The parameters of the generated queries. *)
Module CreateMessageParams.
Record t : Type := {
  SenderID : UUID.t; ReceiverID : UUID.t; Content : string; Status : string
}.
End CreateMessageParams.

Module ListMessagesBetweenUsersParams.
Record t : Type := {
  SenderID : UUID.t; ReceiverID : UUID.t; Limit : Z; Offset : Z
}.
End ListMessagesBetweenUsersParams.

Module UpdateMessageStatusParams.
Record t : Type := { ID : UUID.t; Status : string }.
End UpdateMessageStatusParams.

Module GetFriendshipParams.
Record t : Type := { UserID : UUID.t; FriendID : UUID.t }.
End GetFriendshipParams.

Module CreateFriendshipParams.
Record t : Type := { UserID : UUID.t; FriendID : UUID.t; Status : string }.
End CreateFriendshipParams.

Module UpdateFriendshipStatusParams.
Record t : Type := { ID : UUID.t; Status : string }.
End UpdateFriendshipStatusParams.

(** The map [SendMessage] serialises for Kafka. *)
Module KafkaMessage.
Record t : Type := {
  id : string;
  sender_id : string;
  receiver_id : string;
  content : string;
  timestamp : Z
}.
End KafkaMessage.

(** One call of [KafkaProducer.SendMessage]. *)
Module Published.
Record t : Type := { topic : string; key : string; value : string }.
End Published.

(** The libraries these services add to [Lib]: [uuid.Parse] and
    [json.Marshal] on the Kafka map. *)
Record ChatLib : Type := {
  uuid_Parse : string -> result (list Byte.byte);
  json_Marshal : KafkaMessage.t -> result string
}.

(** ** Machine integers *)

(** The value of a Go [int] expression: 64 bits, two's complement. *)
Definition int64 (z : Z) : Z :=
  ((z + 9223372036854775808) mod 18446744073709551616 - 9223372036854775808)%Z.

(** The conversion [int32(x)]. *)
Definition int32 (z : Z) : Z :=
  ((z + 2147483648) mod 4294967296 - 2147483648)%Z.

(** ** The world of the chat services *)
Module Chat.
Record t : Type := {
  users : list User.t;
  messages : list Message.t;
  friendships : list Friendship.t;
  clock : Time;
  entropy : N;
  faults : list (option error);
  published : list Published.t;
  sendFaults : list (option error);
  stdout : list string;
  tieOrders : list (Message.t -> Message.t -> bool)
}.
End Chat.

Definition chatFault (w : Chat.t) : option error :=
  match Chat.faults w with
  | [] => None
  | f :: _ => f
  end.

Definition chatAfterQuery (w : Chat.t) : Chat.t :=
  {| Chat.users := Chat.users w;
     Chat.messages := Chat.messages w;
     Chat.friendships := Chat.friendships w;
     Chat.clock := Chat.clock w;
     Chat.entropy := Chat.entropy w;
     Chat.faults := tl (Chat.faults w);
     Chat.published := Chat.published w;
     Chat.sendFaults := Chat.sendFaults w;
     Chat.stdout := Chat.stdout w;
     Chat.tieOrders := Chat.tieOrders w |}.

Definition withMessages (ms : list Message.t) (w : Chat.t) : Chat.t :=
  {| Chat.users := Chat.users w;
     Chat.messages := ms;
     Chat.friendships := Chat.friendships w;
     Chat.clock := Chat.clock w;
     Chat.entropy := N.succ (Chat.entropy w);
     Chat.faults := Chat.faults w;
     Chat.published := Chat.published w;
     Chat.sendFaults := Chat.sendFaults w;
     Chat.stdout := Chat.stdout w;
     Chat.tieOrders := Chat.tieOrders w |}.

Definition withFriendships (fs : list Friendship.t) (w : Chat.t) : Chat.t :=
  {| Chat.users := Chat.users w;
     Chat.messages := Chat.messages w;
     Chat.friendships := fs;
     Chat.clock := Chat.clock w;
     Chat.entropy := N.succ (Chat.entropy w);
     Chat.faults := Chat.faults w;
     Chat.published := Chat.published w;
     Chat.sendFaults := Chat.sendFaults w;
     Chat.stdout := Chat.stdout w;
     Chat.tieOrders := Chat.tieOrders w |}.

(** A query: its entry of the fault schedule first, then the statement. *)
Definition query {A : Type} (onFault : error -> A)
    (statement : Chat.t -> A * Chat.t) (w : Chat.t) : A * Chat.t :=
  match chatFault w with
  | Some err => (onFault err, chatAfterQuery w)
  | None => statement (chatAfterQuery w)
  end.

(** ** [messages.sql] *)

(** SQL's [=] on two [uuid] values: a comparison with [NULL] is not
    true. *)
Definition sameID (a b : UUID.t) : bool :=
  UUID.Valid a && UUID.Valid b && UUID.eqb a b.

(** [(sender_id = $1 AND receiver_id = $2) OR (sender_id = $2 AND
    receiver_id = $1)]. *)
Definition between (a b : UUID.t) (m : Message.t) : bool :=
  (sameID (Message.SenderID m) a && sameID (Message.ReceiverID m) b)
  || (sameID (Message.SenderID m) b && sameID (Message.ReceiverID m) a).

(** The order of rows of equal [created_at] under [ORDER BY created_at]
    is left open by SQL, and one query may settle it differently from
    the next.  The head of [Chat.tieOrders] settles it for the next such
    query: it tells, of two rows of equal time, whether the first comes
    before the second.  With none left the rows come in table order. *)
Definition chatTieOrder (w : Chat.t) : Message.t -> Message.t -> bool :=
  match Chat.tieOrders w with
  | [] => fun _ _ => true
  | first :: _ => first
  end.

Definition afterOrdering (w : Chat.t) : Chat.t :=
  {| Chat.users := Chat.users w;
     Chat.messages := Chat.messages w;
     Chat.friendships := Chat.friendships w;
     Chat.clock := Chat.clock w;
     Chat.entropy := Chat.entropy w;
     Chat.faults := Chat.faults w;
     Chat.published := Chat.published w;
     Chat.sendFaults := Chat.sendFaults w;
     Chat.stdout := Chat.stdout w;
     Chat.tieOrders := tl (Chat.tieOrders w) |}.

(** [ORDER BY created_at DESC], by insertion: a row goes before the
    first row that is older, or that is of the same time and comes after
    it by [first]. *)
Fixpoint insertNewest (first : Message.t -> Message.t -> bool)
    (m : Message.t) (sorted : list Message.t) : list Message.t :=
  match sorted with
  | [] => [m]
  | x :: rest =>
      if (Timestamp.Time (Message.CreatedAt x)
          <? Timestamp.Time (Message.CreatedAt m))%Z
         || ((Timestamp.Time (Message.CreatedAt x)
              =? Timestamp.Time (Message.CreatedAt m))%Z
             && first m x)
      then m :: x :: rest
      else x :: insertNewest first m rest
  end.

Definition newestFirst (first : Message.t -> Message.t -> bool)
    (ms : list Message.t) : list Message.t :=
  fold_right (insertNewest first) [] ms.

(** [-- name: CreateMessage :one].  The statement leaves [id] and
    [created_at] to the defaults of the table: a fresh identifier and the
    time of the insert. *)
Definition CreateMessage (arg : CreateMessageParams.t)
    : Chat.t -> result Message.t * Chat.t :=
  query Err (fun w =>
    let row :=
      {| Message.ID :=
           {| UUID.Bytes := bytesOfN (Chat.entropy w); UUID.Valid := true |};
         Message.SenderID := CreateMessageParams.SenderID arg;
         Message.ReceiverID := CreateMessageParams.ReceiverID arg;
         Message.Content := CreateMessageParams.Content arg;
         Message.Status := CreateMessageParams.Status arg;
         Message.CreatedAt :=
           {| Timestamp.Time := Chat.clock w; Timestamp.Valid := true |} |} in
    (Ok row, withMessages (Chat.messages w ++ [row]) w)).

(** [-- name: ListMessagesBetweenUsers :many]; PostgreSQL refuses a
    negative [LIMIT] or [OFFSET].  The rows of equal time come in the
    order this query settles. *)
Definition ListMessagesBetweenUsers (arg : ListMessagesBetweenUsersParams.t)
    : Chat.t -> result (list Message.t) * Chat.t :=
  query Err (fun w =>
    if (ListMessagesBetweenUsersParams.Limit arg <? 0)%Z then
      (Err (PgError "ERROR" "2201W" "LIMIT must not be negative"), w)
    else if (ListMessagesBetweenUsersParams.Offset arg <? 0)%Z then
      (Err (PgError "ERROR" "2201X" "OFFSET must not be negative"), w)
    else
      (Ok (firstn (Z.to_nat (ListMessagesBetweenUsersParams.Limit arg))
             (skipn (Z.to_nat (ListMessagesBetweenUsersParams.Offset arg))
                (newestFirst (chatTieOrder w)
                   (filter (between (ListMessagesBetweenUsersParams.SenderID arg)
                              (ListMessagesBetweenUsersParams.ReceiverID arg))
                      (Chat.messages w))))), afterOrdering w)).



(** ** [friendships.sql] *)

(** [(user_id = $1 AND friend_id = $2) OR (user_id = $2 AND friend_id =
    $1)]. *)
Definition joins (a b : UUID.t) (f : Friendship.t) : bool :=
  (sameID (Friendship.UserID f) a && sameID (Friendship.FriendID f) b)
  || (sameID (Friendship.UserID f) b && sameID (Friendship.FriendID f) a).

(** [-- name: CreateFriendship :one]; [id] is left to the default of the
    table. *)
Definition CreateFriendship (arg : CreateFriendshipParams.t)
    : Chat.t -> result Friendship.t * Chat.t :=
  query Err (fun w =>
    let row :=
      {| Friendship.ID :=
           {| UUID.Bytes := bytesOfN (Chat.entropy w); UUID.Valid := true |};
         Friendship.UserID := CreateFriendshipParams.UserID arg;
         Friendship.FriendID := CreateFriendshipParams.FriendID arg;
         Friendship.Status := CreateFriendshipParams.Status arg |} in
    (Ok row, withFriendships (Chat.friendships w ++ [row]) w)).

(** [-- name: GetFriendship :one]: the first row the statement yields. *)
Definition GetFriendship (arg : GetFriendshipParams.t)
    : Chat.t -> result Friendship.t * Chat.t :=
  query Err (fun w =>
    (oneRow (find (joins (GetFriendshipParams.UserID arg)
                     (GetFriendshipParams.FriendID arg))
               (Chat.friendships w)), w)).

Definition setFriendshipStatus (id : UUID.t) (status : string)
    (f : Friendship.t) : Friendship.t :=
  if sameID (Friendship.ID f) id then
    {| Friendship.ID := Friendship.ID f;
       Friendship.UserID := Friendship.UserID f;
       Friendship.FriendID := Friendship.FriendID f;
       Friendship.Status := status |}
  else f.

(** [-- name: UpdateFriendshipStatus :exec]. *)
Definition UpdateFriendshipStatus (arg : UpdateFriendshipStatusParams.t)
    : Chat.t -> option error * Chat.t :=
  query Some (fun w =>
    (None,
     {| Chat.users := Chat.users w;
        Chat.messages := Chat.messages w;
        Chat.friendships :=
          map (setFriendshipStatus (UpdateFriendshipStatusParams.ID arg)
                 (UpdateFriendshipStatusParams.Status arg))
              (Chat.friendships w);
        Chat.clock := Chat.clock w;
        Chat.entropy := Chat.entropy w;
        Chat.faults := Chat.faults w;
        Chat.published := Chat.published w;
        Chat.sendFaults := Chat.sendFaults w;
        Chat.stdout := Chat.stdout w;
        Chat.tieOrders := Chat.tieOrders w |})).

(** The join condition and filter of either branch of [ListUserFriends],
    for the account row [u] and the friendship row [f]. *)
Definition friendThrough (id : UUID.t) (u : User.t) (f : Friendship.t) : bool :=
  String.eqb (Friendship.Status f) "accepted"
  && ((sameID (User.ID u) (Friendship.FriendID f)
       && sameID (Friendship.UserID f) id)
      || (sameID (User.ID u) (Friendship.UserID f)
          && sameID (Friendship.FriendID f) id)).

(** [-- name: ListUserFriends :many].  [UNION] yields each account row
    once; the rows come in the order of the accounts table, which SQL
    leaves open. *)
Definition ListUserFriends (id : UUID.t)
    : Chat.t -> result (list User.t) * Chat.t :=
  query Err (fun w =>
    (Ok (filter (fun u => existsb (friendThrough id u) (Chat.friendships w))
           (Chat.users w)), w)).

(** ** The Kafka producer and standard output *)

(** [KafkaProducer.SendMessage]: the call is recorded, and fails when
    the schedule of the producer says so. *)
Definition producerSendMessage (topic key value : string) (w : Chat.t)
    : option error * Chat.t :=
  (match Chat.sendFaults w with
   | [] => None
   | f :: _ => f
   end,
   {| Chat.users := Chat.users w;
      Chat.messages := Chat.messages w;
      Chat.friendships := Chat.friendships w;
      Chat.clock := Chat.clock w;
      Chat.entropy := Chat.entropy w;
      Chat.faults := Chat.faults w;
      Chat.published :=
        Chat.published w
        ++ [{| Published.topic := topic;
               Published.key := key;
               Published.value := value |}];
      Chat.sendFaults := tl (Chat.sendFaults w);
      Chat.stdout := Chat.stdout w;
      Chat.tieOrders := Chat.tieOrders w |}).

(** [fmt.Printf] with the text already formatted. *)
Definition Printf (text : string) (w : Chat.t) : Chat.t :=
  {| Chat.users := Chat.users w;
     Chat.messages := Chat.messages w;
     Chat.friendships := Chat.friendships w;
     Chat.clock := Chat.clock w;
     Chat.entropy := Chat.entropy w;
     Chat.faults := Chat.faults w;
     Chat.published := Chat.published w;
     Chat.sendFaults := Chat.sendFaults w;
     Chat.stdout := Chat.stdout w ++ [text];
     Chat.tieOrders := Chat.tieOrders w |}.

Definition newline : string := String (ascii_of_nat 10) EmptyString.

Section Services.

Variable lib : Lib.
Variable clib : ChatLib.

(** ** [pkg/utils/uuid.go] *)

Definition StringToUUID (s : string) : result UUID.t :=
  match uuid_Parse clib s with
  | Err err => Err (ErrorfW "UUID inválido: " err)
  | Ok u => Ok {| UUID.Bytes := u; UUID.Valid := true |}
  end.

(** ** [internal/service/message_service.go] *)

Definition validateSendMessageInput (input : SendMessageInput.t)
    : option error :=
  if String.eqb (SendMessageInput.SenderID input) "" then
    Some (ErrorfS "sender_id é obrigatório")
  else if String.eqb (SendMessageInput.ReceiverID input) "" then
    Some (ErrorfS "receiver_id é obrigatório")
  else if String.eqb (SendMessageInput.SenderID input)
            (SendMessageInput.ReceiverID input) then
    Some (ErrorfS "não é possível enviar mensagem para si mesmo")
  else if String.eqb (SendMessageInput.Content input) "" then
    Some (ErrorfS "conteúdo da mensagem é obrigatório")
  else if (len (SendMessageInput.Content input) >? 5000)%Z then
    Some (ErrorfS "mensagem muito longa (máximo 5000 caracteres)")
  else None.

(** [producer] is [true] when the service holds a producer, [false] when
    the field is [nil]. *)
Definition SendMessage (producer : bool) (input : SendMessageInput.t)
    (w : Chat.t) : result MessageResponse.t * Chat.t :=
  match validateSendMessageInput input with
  | Some err => (Err err, w)
  | None =>
      match StringToUUID (SendMessageInput.SenderID input) with
      | Err err => (Err (ErrorfW "sender_id inválido: " err), w)
      | Ok senderUUID =>
          match StringToUUID (SendMessageInput.ReceiverID input) with
          | Err err => (Err (ErrorfW "receiver_id inválido: " err), w)
          | Ok receiverUUID =>
              let (created, w1) :=
                CreateMessage
                  {| CreateMessageParams.SenderID := senderUUID;
                     CreateMessageParams.ReceiverID := receiverUUID;
                     CreateMessageParams.Content :=
                       SendMessageInput.Content input;
                     CreateMessageParams.Status := "sent" |} w in
              match created with
              | Err err => (Err (ErrorfW "erro ao salvar mensagem: " err), w1)
              | Ok message =>
                  let kafkaMessage :=
                    {| KafkaMessage.id := UUIDToString lib (Message.ID message);
                       KafkaMessage.sender_id := SendMessageInput.SenderID input;
                       KafkaMessage.receiver_id :=
                         SendMessageInput.ReceiverID input;
                       KafkaMessage.content := SendMessageInput.Content input;
                       KafkaMessage.timestamp :=
                         (Timestamp.Time (Message.CreatedAt message)
                          / second)%Z |} in
                  match json_Marshal clib kafkaMessage with
                  | Err err =>
                      (Err (ErrorfW "erro ao serializar mensagem: " err), w1)
                  | Ok messageBytes =>
                      let w3 :=
                        if producer then
                          let (sent, w2) :=
                            producerSendMessage "chat-messages"
                              (SendMessageInput.ReceiverID input)
                              messageBytes w1 in
                          match sent with
                          | Some err =>
                              Printf ("WARN: Erro ao enviar para Kafka: "
                                      ++ Error err ++ newline) w2
                          | None => w2
                          end
                        else w1 in
                      (Ok {| MessageResponse.ID :=
                               UUIDToString lib (Message.ID message);
                             MessageResponse.SenderID :=
                               UUIDToString lib (Message.SenderID message);
                             MessageResponse.ReceiverID :=
                               UUIDToString lib (Message.ReceiverID message);
                             MessageResponse.Content := Message.Content message;
                             MessageResponse.Status := Message.Status message;
                             MessageResponse.CreatedAt :=
                               time_Format_RFC3339 lib
                                 (Timestamp.Time (Message.CreatedAt message)) |},
                       w3)
                  end
              end
          end
      end
  end.

Definition GetMessagesBetween (input : ListMessagesInput.t) (w : Chat.t)
    : result (PaginatedResponse.t MessageResponse.t) * Chat.t :=
  let page :=
    if (ListMessagesInput.Page input <? 1)%Z then 1%Z
    else ListMessagesInput.Page input in
  let perPage :=
    if (ListMessagesInput.PerPage input <? 1)%Z
       || (ListMessagesInput.PerPage input >? 100)%Z
    then 50%Z
    else ListMessagesInput.PerPage input in
  match StringToUUID (ListMessagesInput.UserID input) with
  | Err err => (Err (ErrorfW "user_id inválido: " err), w)
  | Ok userUUID =>
      match StringToUUID (ListMessagesInput.FriendID input) with
      | Err err => (Err (ErrorfW "friend_id inválido: " err), w)
      | Ok friendUUID =>
          let offset := int64 ((page - 1) * perPage) in
          let (listed, w1) :=
            ListMessagesBetweenUsers
              {| ListMessagesBetweenUsersParams.SenderID := userUUID;
                 ListMessagesBetweenUsersParams.ReceiverID := friendUUID;
                 ListMessagesBetweenUsersParams.Limit := int32 perPage;
                 ListMessagesBetweenUsersParams.Offset := int32 offset |} w in
          match listed with
          | Err err => (Err (ErrorfW "erro ao listar mensagens: " err), w1)
          | Ok messages =>
              (Ok {| PaginatedResponse.Success := true;
                     PaginatedResponse.Data :=
                       map (fun msg =>
                              {| MessageResponse.ID :=
                                   UUIDToString lib (Message.ID msg);
                                 MessageResponse.SenderID :=
                                   UUIDToString lib (Message.SenderID msg);
                                 MessageResponse.ReceiverID :=
                                   UUIDToString lib (Message.ReceiverID msg);
                                 MessageResponse.Content := Message.Content msg;
                                 MessageResponse.Status := Message.Status msg;
                                 MessageResponse.CreatedAt :=
                                   time_Format_RFC3339 lib
                                     (Timestamp.Time (Message.CreatedAt msg)) |})
                           messages;
                     PaginatedResponse.Meta :=
                       {| PaginationMeta.Page := page;
                          PaginationMeta.PerPage := perPage;
                          PaginationMeta.Total :=
                            Z.of_nat (List.length messages);
                          PaginationMeta.TotalPages := 0 |} |}, w1)
          end
      end
  end.



(** ** The user service: friendships *)

Definition AddFriend (input : AddFriendInput.t) (w : Chat.t)
    : option error * Chat.t :=
  if String.eqb (AddFriendInput.UserID input) (AddFriendInput.FriendID input)
  then (Some (ErrorfS "não é possível adicionar a si mesmo como amigo"), w)
  else
    match StringToUUID (AddFriendInput.UserID input) with
    | Err err => (Some (ErrorfW "ID de usuário inválido: " err), w)
    | Ok userUUID =>
        match StringToUUID (AddFriendInput.FriendID input) with
        | Err err => (Some (ErrorfW "ID de amigo inválido: " err), w)
        | Ok friendUUID =>
            let (existing, w1) :=
              GetFriendship
                {| GetFriendshipParams.UserID := userUUID;
                   GetFriendshipParams.FriendID := friendUUID |} w in
            match existing with
            | Ok _ => (Some (ErrorfS "solicitação de amizade já existe"), w1)
            | Err err =>
                if negb (isErrNoRows err) then
                  (Some (ErrorfW "erro ao verificar amizade: " err), w1)
                else
                  let (created, w2) :=
                    CreateFriendship
                      {| CreateFriendshipParams.UserID := userUUID;
                         CreateFriendshipParams.FriendID := friendUUID;
                         CreateFriendshipParams.Status := "pending" |} w1 in
                  match created with
                  | Err err =>
                      (Some (ErrorfW "erro ao criar solicitação de amizade: "
                               err), w2)
                  | Ok _ => (None, w2)
                  end
            end
        end
    end.

Definition AcceptFriend (input : AcceptFriendInput.t) (w : Chat.t)
    : option error * Chat.t :=
  match StringToUUID (AcceptFriendInput.UserID input) with
  | Err err => (Some (ErrorfW "ID de usuário inválido: " err), w)
  | Ok userUUID =>
      match StringToUUID (AcceptFriendInput.FriendID input) with
      | Err err => (Some (ErrorfW "ID de amigo inválido: " err), w)
      | Ok friendUUID =>
          let (found, w1) :=
            GetFriendship
              {| GetFriendshipParams.UserID := friendUUID;
                 GetFriendshipParams.FriendID := userUUID |} w in
          match found with
          | Err err =>
              if isErrNoRows err then
                (Some (ErrorfS "solicitação de amizade não encontrada"), w1)
              else (Some (ErrorfW "erro ao buscar amizade: " err), w1)
          | Ok friendship =>
              if String.eqb (Friendship.Status friendship) "accepted" then
                (Some (ErrorfS "amizade já aceita"), w1)
              else
                let (failed, w2) :=
                  UpdateFriendshipStatus
                    {| UpdateFriendshipStatusParams.ID :=
                         Friendship.ID friendship;
                       UpdateFriendshipStatusParams.Status := "accepted" |}
                    w1 in
                match failed with
                | Some err =>
                    (Some (ErrorfW "erro ao aceitar amizade: " err), w2)
                | None => (None, w2)
                end
          end
      end
  end.

Definition ListFriends (userID : string) (w : Chat.t)
    : result (list UserResponse.t) * Chat.t :=
  match StringToUUID userID with
  | Err err => (Err (ErrorfW "ID de usuário inválido: " err), w)
  | Ok uuid =>
      let (listed, w1) := ListUserFriends uuid w in
      match listed with
      | Err err => (Err (ErrorfW "erro ao listar amigos: " err), w1)
      | Ok friends =>
          (Ok (map (fun friend =>
                      {| UserResponse.ID := UUIDToString lib (User.ID friend);
                         UserResponse.Username := User.Username friend;
                         UserResponse.Email := User.Email friend;
                         UserResponse.CreatedAt :=
                           time_Format_RFC3339 lib
                             (Timestamp.Time (User.CreatedAt friend)) |})
                 friends), w1)
      end
  end.

End Services.

(** ** A sample installation

    A small executable instance of [Lib], a configuration and a world on
    which the service can be run.  The tokens it knows are genuine: their
    segments are the base64url text of the JSON shown next to them, and
    the HS256 signatures were computed with the listed secrets.  Every
    other text is reported as malformed.  The digest of the sample bcrypt
    is the radix-64 text of salt and key stream, which stands for a digest
    without collisions on the key stream. *)
Module Sample.

(* {alg:HS256,typ:JWT}, {alg:none,typ:JWT}, {alg:RS256,typ:JWT} *)
Definition headerHS256 : string := "eyJhbGciOiJIUzI1NiIsInR5cCI6IkpXVCJ9".
Definition headerNone : string := "eyJhbGciOiJub25lIiwidHlwIjoiSldUIn0".
Definition headerRS256 : string := "eyJhbGciOiJSUzI1NiIsInR5cCI6IkpXVCJ9".

Definition headers : list (string * string) :=
  [ (headerHS256, "HS256"); (headerNone, "none"); (headerRS256, "RS256") ].

Definition aliceID : string := "00000000-0000-0000-0000-000000000001".

(* {sub:aliceID,exp:2000000000,iat:1700000000,jti:6f1c...e5f6} *)
Definition payloadLive : string :=
  "eyJzdWIiOiIwMDAwMDAwMC0wMDAwLTAwMDAtMDAwMC0wMDAwMDAwMDAwMDEiLCJleHAiOjIwMDAwMDAwMDAsImlhdCI6MTcwMDAwMDAwMCwianRpIjoiNmYxYzJhM2UtMGIxZC00YzVlLThmOTAtYTFiMmMzZDRlNWY2In0".

(* {sub:aliceID,exp:1600000000,iat:1500000000,jti:6f1c...e5f7} *)
Definition payloadExpired : string :=
  "eyJzdWIiOiIwMDAwMDAwMC0wMDAwLTAwMDAtMDAwMC0wMDAwMDAwMDAwMDEiLCJleHAiOjE2MDAwMDAwMDAsImlhdCI6MTUwMDAwMDAwMCwianRpIjoiNmYxYzJhM2UtMGIxZC00YzVlLThmOTAtYTFiMmMzZDRlNWY3In0".

(* {user_id:aliceID,username:alice,email:alice@example.com,
    exp:1700003600,nbf:1700000000,iat:1700000000,jti:6f1c...e5f8} *)
Definition payloadAccess : string :=
  "eyJ1c2VyX2lkIjoiMDAwMDAwMDAtMDAwMC0wMDAwLTAwMDAtMDAwMDAwMDAwMDAxIiwidXNlcm5hbWUiOiJhbGljZSIsImVtYWlsIjoiYWxpY2VAZXhhbXBsZS5jb20iLCJleHAiOjE3MDAwMDM2MDAsIm5iZiI6MTcwMDAwMDAwMCwiaWF0IjoxNzAwMDAwMDAwLCJqdGkiOiI2ZjFjMmEzZS0wYjFkLTRjNWUtOGY5MC1hMWIyYzNkNGU1ZjgifQ".

Definition seconds (s : Z) : Time := (s * 1000000000)%Z.

Definition claimsLive : RegisteredClaims.t :=
  {| RegisteredClaims.Subject := aliceID;
     RegisteredClaims.ExpiresAt := Some (seconds 2000000000);
     RegisteredClaims.NotBefore := None;
     RegisteredClaims.IssuedAt := Some (seconds 1700000000);
     RegisteredClaims.ID := "6f1c2a3e-0b1d-4c5e-8f90-a1b2c3d4e5f6" |}.

Definition claimsExpired : RegisteredClaims.t :=
  {| RegisteredClaims.Subject := aliceID;
     RegisteredClaims.ExpiresAt := Some (seconds 1600000000);
     RegisteredClaims.NotBefore := None;
     RegisteredClaims.IssuedAt := Some (seconds 1500000000);
     RegisteredClaims.ID := "6f1c2a3e-0b1d-4c5e-8f90-a1b2c3d4e5f7" |}.

Definition claimsAccess : Claims.t :=
  {| Claims.UserID := aliceID;
     Claims.Username := "alice";
     Claims.Email := "alice@example.com";
     Claims.Registered :=
       {| RegisteredClaims.Subject := "";
          RegisteredClaims.ExpiresAt := Some (seconds 1700003600);
          RegisteredClaims.NotBefore := Some (seconds 1700000000);
          RegisteredClaims.IssuedAt := Some (seconds 1700000000);
          RegisteredClaims.ID := "6f1c2a3e-0b1d-4c5e-8f90-a1b2c3d4e5f8" |} |}.

(** The registered claims embedded in a payload of access claims: a
    refresh parser reading that payload keeps only these. *)
Definition refreshPayloads : list (string * RegisteredClaims.t) :=
  [ (payloadLive, claimsLive); (payloadExpired, claimsExpired);
    (payloadAccess, Claims.Registered claimsAccess) ].

Definition accessPayloads : list (string * Claims.t) :=
  [ (payloadAccess, claimsAccess) ].

Definition refreshSecret : string := "refresh-secret".
Definition accessSecret : string := "access-secret".

(** Signing text, key and HS256 signature. *)
Definition signatures : list (string * string * string) :=
  [ (headerHS256 ++ "." ++ payloadLive, refreshSecret,
     "Gnh4e0scLQ9gUjc8tWyleDIA8SIvcR12xi7OSp4JFMU");
    (headerHS256 ++ "." ++ payloadExpired, refreshSecret,
     "oechr_z0buH89E2urf7nPWPVaIRxqYvF4yUGjmhl6Is");
    (headerHS256 ++ "." ++ payloadLive, "attacker-secret",
     "2yCeLbAUDO4Z_fbGdMIvatDHkwhsvHKhV4FGltNRklk");
    (headerHS256 ++ "." ++ payloadAccess, accessSecret,
     "8NjYh7XVh76ZBCGVbDiQgR0-vbMkv5YbJI3mEWlad3Q") ].

(** The tokens used in the examples below. *)
Definition tokenLive : string :=
  headerHS256 ++ "." ++ payloadLive
    ++ ".Gnh4e0scLQ9gUjc8tWyleDIA8SIvcR12xi7OSp4JFMU".
Definition tokenExpired : string :=
  headerHS256 ++ "." ++ payloadExpired
    ++ ".oechr_z0buH89E2urf7nPWPVaIRxqYvF4yUGjmhl6Is".
Definition tokenForged : string :=
  headerHS256 ++ "." ++ payloadLive
    ++ ".2yCeLbAUDO4Z_fbGdMIvatDHkwhsvHKhV4FGltNRklk".
Definition tokenNone : string := headerNone ++ "." ++ payloadLive ++ ".".
Definition tokenRS256 : string :=
  headerRS256 ++ "." ++ payloadLive
    ++ ".6VycU0jN78qZ7FxucW9q_U96gHxLzOpoF7nt_YIcyg0".
Definition accessTokenLive : string :=
  headerHS256 ++ "." ++ payloadAccess
    ++ ".8NjYh7XVh76ZBCGVbDiQgR0-vbMkv5YbJI3mEWlad3Q".
Definition accessTokenNone : string := headerNone ++ "." ++ payloadAccess ++ ".".

(** The text between the dots. *)
Fixpoint splitDots (s : string) : list string :=
  match s with
  | EmptyString => [""]
  | String c rest =>
      if Ascii.eqb c "."%char then "" :: splitDots rest
      else match splitDots rest with
           | seg :: more => String c seg :: more
           | [] => [String c ""]
           end
  end.

Definition lookup {A} (key : string) (table : list (string * A)) : option A :=
  match find (fun p => String.eqb (fst p) key) table with
  | Some (_, a) => Some a
  | None => None
  end.

Definition segments {C} (payloads : list (string * C)) (tokenString : string)
    : result (Segments.t C) :=
  match splitDots tokenString with
  | [h; p; s] =>
      match lookup h headers with
      | None =>
          Err (JwtErrorW "token is malformed" "could not base64 decode header"
                 (LibError "illegal base64 data at input byte 0"))
      | Some alg =>
          match lookup p payloads with
          | None =>
              Err (JwtErrorW "token is malformed"
                     "could not base64 decode claim"
                     (LibError "illegal base64 data at input byte 0"))
          | Some c =>
              Ok {| Segments.alg := Some alg; Segments.claims := c;
                    Segments.signingText := h ++ "." ++ p;
                    Segments.signature := s |}
          end
      end
  | _ =>
      Err (JwtError "token is malformed"
             "token contains an invalid number of segments")
  end.

Definition Verify (m : SigningMethod.t) (text sig key : string) : option error :=
  match SigningMethod.Family m with
  | SigningMethodHMAC =>
      if existsb (fun e =>
                    String.eqb (fst (fst e)) text && String.eqb (snd (fst e)) key
                    && String.eqb (snd e) sig) signatures
      then None
      else Some (LibError "signature is invalid")
  | _ => Some (LibError "key is of invalid type")
  end.

Definition Validate (c : RegisteredClaims.t) (now : Time) : option error :=
  match RegisteredClaims.ExpiresAt c with
  | Some exp =>
      if (now <? exp)%Z then
        match RegisteredClaims.NotBefore c with
        | Some nbf =>
            if (now <? nbf)%Z then Some (LibError "token is not valid yet")
            else None
        | None => None
        end
      else Some (LibError "token is expired")
  | None =>
      match RegisteredClaims.NotBefore c with
      | Some nbf =>
          if (now <? nbf)%Z then Some (LibError "token is not valid yet")
          else None
      | None => None
      end
  end.

(** Minted tokens carry the token identifier as payload and a fixed
    signature text. *)
Definition SignedStringAccess (m : SigningMethod.t) (c : Claims.t)
    (key : string) : result string :=
  Ok (headerHS256 ++ "." ++ RegisteredClaims.ID (Claims.Registered c)
        ++ ".c2FtcGxl").

Definition SignedStringRefresh (m : SigningMethod.t) (c : RegisteredClaims.t)
    (key : string) : result string :=
  Ok (headerHS256 ++ "." ++ RegisteredClaims.ID c ++ ".c2FtcGxl").

(** bcrypt's radix-64 alphabet and its unpadded encoding. *)
Definition alphabet : string :=
  "./ABCDEFGHIJKLMNOPQRSTUVWXYZabcdefghijklmnopqrstuvwxyz0123456789".

Definition numberOf (s : string) : N :=
  fold_left (fun acc c => (acc * 256 + N_of_ascii c)%N) (list_ascii_of_string s) 0%N.

Definition base64Encode (src : string) : string :=
  let bits := (8 * String.length src)%nat in
  let pad := ((6 - bits mod 6) mod 6)%nat in
  let count := ((bits + pad) / 6)%nat in
  let v := N.shiftl (numberOf src) (N.of_nat pad) in
  string_of_list_ascii
    (map (fun i =>
            match String.get
                    (N.to_nat (N.modulo (N.shiftr v (6 * N.of_nat (count - 1 - i))) 64))
                    alphabet with
            | Some c => c
            | None => "."%char
            end)
         (seq 0 count)).

Definition digest (cost : Z) (salt key : string) : result string :=
  if ((4 <=? cost) && (cost <=? 31))%Z && Nat.eqb (String.length salt) 22
  then Ok (base64Encode (salt ++ key))
  else Err (LibError "crypto/bcrypt: invalid cost or salt").

Definition digitChar (d : Z) : ascii := ascii_of_nat (48 + Z.to_nat d).

(** [n] in decimal on [width] digits. *)
Fixpoint decimal (width : nat) (n : Z) : string :=
  match width with
  | O => ""
  | S w => decimal w (n / 10) ++ String (digitChar (n mod 10)) ""
  end.

Definition digitValue (c : ascii) : Z := Z.of_nat (nat_of_ascii c) - 48.

(** The stored text: version, two digits of cost, salt and digest. *)
Definition Hash (cost : Z) (salt dig : string) : string :=
  "$2a$" ++ decimal 2 cost ++ "$" ++ salt ++ dig.

Definition newFromHash (hashed : string) : result (Z * string * string) :=
  if (len hashed <? 59)%Z then
    Err (LibError
           "crypto/bcrypt: hashedSecret too short to be a bcrypted password")
  else if negb (String.eqb (substring 0 4 hashed) "$2a$") then
    Err (LibError "crypto/bcrypt: bcrypt algorithm version is not supported")
  else
    match String.get 4 hashed, String.get 5 hashed, String.get 6 hashed with
    | Some d1, Some d0, Some sep =>
        if Ascii.eqb sep "$"%char then
          Ok ((digitValue d1 * 10 + digitValue d0)%Z,
              substring 7 22 hashed,
              substring 29 (String.length hashed - 29) hashed)
        else Err (LibError "crypto/bcrypt: malformed hash")
    | _, _, _ => Err (LibError "crypto/bcrypt: malformed hash")
    end.

(** The canonical text of a UUID and its inverse. *)
Definition hexDigits : string := "0123456789abcdef".

Definition hexChar (n : N) : ascii :=
  match String.get (N.to_nat n) hexDigits with
  | Some c => c
  | None => "0"%char
  end.

Definition hexByte (b : Byte.byte) : string :=
  String (hexChar (N.div (Byte.to_N b) 16))
    (String (hexChar (N.modulo (Byte.to_N b) 16)) "").

Definition hexOf (bs : list Byte.byte) : string :=
  String.concat "" (map hexByte bs).

Definition uuidString (bs : list Byte.byte) : string :=
  hexOf (firstn 4 bs) ++ "-" ++ hexOf (firstn 2 (skipn 4 bs)) ++ "-"
    ++ hexOf (firstn 2 (skipn 6 bs)) ++ "-" ++ hexOf (firstn 2 (skipn 8 bs))
    ++ "-" ++ hexOf (skipn 10 bs).

Definition hexValue (c : ascii) : option N :=
  match index 0 (String c "") hexDigits with
  | Some i => Some (N.of_nat i)
  | None => None
  end.

Fixpoint hexBytes (cs : list ascii) : option (list Byte.byte) :=
  match cs with
  | [] => Some []
  | hi :: lo :: rest =>
      match hexValue hi, hexValue lo, hexBytes rest with
      | Some h, Some l, Some bs =>
          match Byte.of_N (h * 16 + l) with
          | Some b => Some (b :: bs)
          | None => None
          end
      | _, _, _ => None
      end
  | _ => None
  end.

Definition Scan (src : string) : result UUID.t :=
  if Nat.eqb (String.length src) 36 then
    match hexBytes (filter (fun c => negb (Ascii.eqb c "-"%char))
                      (list_ascii_of_string src)) with
    | Some bs =>
        if Nat.eqb (List.length bs) 16
        then Ok {| UUID.Bytes := bs; UUID.Valid := true |}
        else Err (LibError "cannot parse UUID")
    | None => Err (LibError "cannot parse UUID")
    end
  else Err (LibError "cannot parse UUID").

(** The UTC date and time of an instant, to the second. *)
Definition Format_RFC3339 (t : Time) : string :=
  let s := (t / 1000000000)%Z in
  let days := (s / 86400)%Z in
  let rest := (s mod 86400)%Z in
  let z := (days + 719468)%Z in
  let era := (z / 146097)%Z in
  let doe := (z - era * 146097)%Z in
  let yoe := ((doe - doe / 1460 + doe / 36524 - doe / 146096) / 365)%Z in
  let doy := (doe - (365 * yoe + yoe / 4 - yoe / 100))%Z in
  let mp := ((5 * doy + 2) / 153)%Z in
  let d := (doy - (153 * mp + 2) / 5 + 1)%Z in
  let m := (if (mp <? 10)%Z then mp + 3 else mp - 9)%Z in
  let y := (yoe + era * 400 + (if (m <=? 2)%Z then 1 else 0))%Z in
  decimal 4 y ++ "-" ++ decimal 2 m ++ "-" ++ decimal 2 d ++ "T"
    ++ decimal 2 (rest / 3600) ++ ":" ++ decimal 2 (rest mod 3600 / 60) ++ ":"
    ++ decimal 2 (rest mod 60) ++ "Z".

End Sample.

(** * Facts about strings *)

Unset Implicit Arguments.

Lemma length_app (a b : string) :
  String.length (a ++ b) = String.length a + String.length b.
Proof. induction a as [|c a IH]; simpl; [reflexivity | now rewrite IH]. Qed.

Lemma app_assoc_s (a b c : string) : (a ++ b) ++ c = a ++ b ++ c.
Proof. induction a as [|x a IH]; simpl; [reflexivity | now rewrite IH]. Qed.

Lemma app_empty_r (a : string) : a ++ "" = a.
Proof. induction a as [|x a IH]; simpl; [reflexivity | now rewrite IH]. Qed.

Lemma substring_prefix (a b : string) :
  substring 0 (String.length a) (a ++ b) = a.
Proof.
  induction a as [|c a IH]; simpl.
  - destruct b; reflexivity.
  - now rewrite IH.
Qed.

Lemma substring_skip (a b : string) (n : nat) :
  substring (String.length a) n (a ++ b) = substring 0 n b.
Proof. induction a as [|c a IH]; simpl; [reflexivity | exact IH]. Qed.

Lemma substring_length (s : string) (i n : nat) :
  i + n <= String.length s -> String.length (substring i n s) = n.
Proof.
  revert i n. induction s as [|c s IH]; intros i n H; simpl in H.
  - assert (i = 0) by lia. assert (n = 0) by lia. subst. reflexivity.
  - destruct i as [|i]; simpl.
    + destruct n as [|n]; simpl; [reflexivity|]. f_equal. apply IH. lia.
    + apply IH. lia.
Qed.

Lemma substring_split (s : string) (i n : nat) :
  i + n <= String.length s ->
  s = substring 0 i s ++ substring i n s
        ++ substring (i + n) (String.length s - (i + n)) s.
Proof.
  revert i n. induction s as [|c s IH]; intros i n H; simpl in H.
  - assert (i = 0) by lia. assert (n = 0) by lia. subst. reflexivity.
  - destruct i as [|i]; simpl.
    + destruct n as [|n]; simpl.
      * f_equal. rewrite (IH 0 0) at 1 by lia. simpl.
        replace (String.length s - 0) with (String.length s) by lia.
        destruct s; reflexivity.
      * f_equal. specialize (IH 0 n ltac:(lia)). simpl in IH.
        replace (substring 0 0 s) with "" in IH by (destruct s; reflexivity).
        exact IH.
    + f_equal. apply IH. lia.
Qed.

(** ** The substring helpers compute occurrence *)

Lemma slice_substring (s : string) (i n : nat) :
  slice s (Z.of_nat i) (Z.of_nat i + Z.of_nat n) = substring i n s.
Proof.
  unfold slice. rewrite Nat2Z.id.
  replace (Z.of_nat i + Z.of_nat n - Z.of_nat i)%Z with (Z.of_nat n) by lia.
  now rewrite Nat2Z.id.
Qed.

Lemma occurs_in_at (sub s : string) :
  occurs_in sub s <->
  exists i : nat,
    i + String.length sub <= String.length s /\
    substring i (String.length sub) s = sub.
Proof.
  split.
  - intros (pre & post & ->). exists (String.length pre). split.
    + rewrite !length_app. lia.
    + rewrite substring_skip. apply substring_prefix.
  - intros (i & Hle & Heq).
    exists (substring 0 i s),
      (substring (i + String.length sub)
         (String.length s - (i + String.length sub)) s).
    pose proof (substring_split s i (String.length sub) Hle) as Hs.
    rewrite Heq in Hs. exact Hs.
Qed.

Lemma containsMiddle_from_true (s sub : string) (fuel i : nat) :
  containsMiddle_from s sub (Z.of_nat i) fuel = true <->
  exists j : nat, i <= j < i + fuel /\ substring j (String.length sub) s = sub.
Proof.
  revert i. induction fuel as [|fuel IH]; intros i; simpl.
  - split; [discriminate | intros (j & Hj & _); lia].
  - unfold len. rewrite slice_substring.
    destruct (String.eqb_spec (substring i (String.length sub) s) sub) as [He|Hne].
    + split; [intros _ | reflexivity]. exists i. split; [lia | exact He].
    + replace (Z.of_nat i + 1)%Z with (Z.of_nat (S i)) by lia.
      rewrite IH. split; intros (j & Hj & He).
      * exists j. split; [lia | exact He].
      * exists j. split; [|exact He].
        assert (j <> i) by (intros ->; contradiction). lia.
Qed.

Lemma containsMiddle_true (s sub : string) :
  containsMiddle s sub = true <-> occurs_in sub s.
Proof.
  unfold containsMiddle. rewrite (containsMiddle_from_true s sub _ 0), occurs_in_at.
  unfold len. split; intros (j & Hj & He); exists j; (split; [|exact He]).
  - lia.
  - lia.
Qed.

Lemma occurs_in_same_length (sub s : string) :
  occurs_in sub s -> String.length s <= String.length sub -> s = sub.
Proof.
  intros (pre & post & ->) H. rewrite !length_app in H.
  destruct pre; [|simpl in H; lia]. destruct post; [|simpl in H; lia].
  simpl. apply app_empty_r.
Qed.

Lemma contains_true (s sub : string) :
  contains s sub = true <-> sub <> "" /\ s <> sub /\ occurs_in sub s.
Proof.
  unfold contains. rewrite !andb_true_iff, !orb_true_iff, andb_true_iff.
  rewrite negb_true_iff, containsMiddle_true.
  rewrite !Z.ltb_lt, Z.leb_le. unfold len.
  split.
  - intros ((((Hs & Hsub) & Hle) & Hne) & Hocc).
    split; [intros ->; simpl in Hsub; lia|].
    split; [intros ->; now rewrite String.eqb_refl in Hne|].
    destruct Hocc as [[Hp | Hq] | [_ Hm]]; [| |exact Hm].
    + apply String.eqb_eq in Hp. apply occurs_in_at. exists 0. split; [lia|].
      unfold slice in Hp. rewrite Z.sub_0_r, Nat2Z.id in Hp. exact Hp.
    + apply String.eqb_eq in Hq. apply occurs_in_at.
      exists (String.length s - String.length sub). split; [lia|].
      unfold slice in Hq.
      replace (Z.to_nat (Z.of_nat (String.length s) - Z.of_nat (String.length sub)))
        with (String.length s - String.length sub) in Hq by lia.
      replace (Z.to_nat (Z.of_nat (String.length s)
                 - (Z.of_nat (String.length s) - Z.of_nat (String.length sub))))
        with (String.length sub) in Hq by lia.
      exact Hq.
  - intros (Hsub & Hne & Hocc).
    assert (Hlen : String.length sub < String.length s).
    { destruct (Nat.lt_ge_cases (String.length sub) (String.length s)) as [H|H];
        [exact H|]. exfalso. apply Hne. now apply occurs_in_same_length. }
    assert (0 < String.length sub) by (destruct sub; [contradiction | simpl; lia]).
    repeat split; try lia.
    + now apply String.eqb_neq.
    + right. split; [lia | exact Hocc].
Qed.

(** ** The sample bcrypt text can be read back *)

Lemma sextets_bound (n : nat) :
  22 <= n -> 30 <= (8 * n + (6 - (8 * n) mod 6) mod 6) / 6.
Proof.
  intros H.
  pose proof (Nat.mod_upper_bound (8 * n) 6 ltac:(lia)) as Hr.
  pose proof (Nat.div_mod_eq (8 * n) 6) as Hq.
  remember ((8 * n) mod 6) as r. remember ((8 * n) / 6) as q.
  assert (Hc : r = 0 \/ r = 1 \/ r = 2 \/ r = 3 \/ r = 4 \/ r = 5) by lia.
  destruct Hc as [-> | [-> | [-> | [-> | [-> | ->]]]]];
    cbn [Nat.sub Nat.modulo Nat.divmod fst snd];
    apply Nat.div_le_lower_bound; lia.
Qed.

Lemma length_string_of_list (l : list ascii) :
  String.length (string_of_list_ascii l) = List.length l.
Proof. induction l as [|c l IH]; simpl; [reflexivity | now rewrite IH]. Qed.

Lemma length_base64Encode (src : string) :
  String.length (Sample.base64Encode src)
  = (8 * String.length src + (6 - (8 * String.length src) mod 6) mod 6) / 6.
Proof.
  unfold Sample.base64Encode. cbv zeta.
  now rewrite length_string_of_list, length_map, length_seq.
Qed.

Lemma digitValue_digitChar (d : Z) :
  (0 <= d <= 9)%Z -> Sample.digitValue (Sample.digitChar d) = d.
Proof.
  intros H. unfold Sample.digitValue, Sample.digitChar.
  rewrite nat_ascii_embedding by lia. lia.
Qed.

Lemma decimal_two (n : Z) :
  Sample.decimal 2 n
  = String (Sample.digitChar (n / 10 mod 10)) (String (Sample.digitChar (n mod 10)) "").
Proof. reflexivity. Qed.

Lemma substring_whole (s : string) : substring 0 (String.length s) s = s.
Proof. rewrite <- (app_empty_r s) at 2. apply substring_prefix. Qed.

Lemma newFromHash_Hash (cost : Z) (salt key dig : string) :
  Sample.digest cost salt key = Ok dig ->
  Sample.newFromHash (Sample.Hash cost salt dig) = Ok (cost, salt, dig).
Proof.
  unfold Sample.digest.
  destruct ((4 <=? cost)%Z && (cost <=? 31)%Z) eqn:Hc; [|discriminate].
  destruct (Nat.eqb (String.length salt) 22) eqn:Hs; [|discriminate].
  cbn [andb]. intros [= <-].
  apply andb_true_iff in Hc. destruct Hc as [Hlo Hhi].
  apply Z.leb_le in Hlo, Hhi. apply Nat.eqb_eq in Hs.
  assert (Hd : 30 <= String.length (Sample.base64Encode (salt ++ key))).
  { rewrite length_base64Encode. apply sextets_bound.
    rewrite length_app. lia. }
  generalize dependent (Sample.base64Encode (salt ++ key)). intros dig Hd.
  assert (H1 : Sample.digitValue (Sample.digitChar (cost / 10 mod 10)) = (cost / 10 mod 10)%Z)
    by (apply digitValue_digitChar;
        pose proof (Z.mod_pos_bound (cost / 10) 10 ltac:(lia)); lia).
  assert (H0 : Sample.digitValue (Sample.digitChar (cost mod 10)) = (cost mod 10)%Z)
    by (apply digitValue_digitChar;
        pose proof (Z.mod_pos_bound cost 10 ltac:(lia)); lia).
  assert (Hcost : (cost / 10 mod 10 * 10 + cost mod 10)%Z = cost).
  { rewrite (Z.mod_small (cost / 10) 10).
    - pose proof (Z.div_mod cost 10 ltac:(lia)). lia.
    - split; [apply Z.div_pos; lia | apply Z.div_lt_upper_bound; lia]. }
  unfold Sample.newFromHash, Sample.Hash. rewrite decimal_two.
  generalize dependent (Sample.digitChar (cost / 10 mod 10)). intros d1 H1.
  generalize dependent (Sample.digitChar (cost mod 10)). intros d0 H0.
  replace (len _ <? 59)%Z with false.
  2:{ symmetry. apply Z.ltb_ge. unfold len. cbn [append String.length].
      rewrite length_app. lia. }
  cbn [append substring get String.eqb Ascii.eqb Bool.eqb negb String.length Nat.sub].
  rewrite H1, H0, Hcost, length_app.
  rewrite <- Hs at 1. rewrite substring_prefix.
  rewrite <- Hs at 1. rewrite substring_skip.
  replace (String.length salt + String.length dig - 22) with (String.length dig) by lia.
  now rewrite substring_whole.
Qed.

(** ** The sample installation, assembled *)

Definition sampleLib : Lib :=
  {| jwt_segmentsAccess := Sample.segments Sample.accessPayloads;
     jwt_segmentsRefresh := Sample.segments Sample.refreshPayloads;
     jwt_DecodeSegment := fun s => Ok s;
     jwt_Verify := Sample.Verify;
     jwt_Validate := Sample.Validate;
     jwt_SignedStringAccess := Sample.SignedStringAccess;
     jwt_SignedStringRefresh := Sample.SignedStringRefresh;
     bcrypt_base64Encode := Sample.base64Encode;
     bcrypt_digest := Sample.digest;
     bcrypt_Hash := Sample.Hash;
     bcrypt_newFromHash := Sample.newFromHash;
     bcrypt_newFromHash_Hash := newFromHash_Hash;
     uuid_String := Sample.uuidString;
     pgtype_Scan := Sample.Scan;
     time_Format_RFC3339 := Sample.Format_RFC3339 |}.

Definition sampleCfg : JWTConfig.t :=
  {| JWTConfig.AccessSecret := Sample.accessSecret;
     JWTConfig.RefreshSecret := Sample.refreshSecret;
     JWTConfig.AccessExpiration := Sample.seconds 3600;
     JWTConfig.RefreshExpiration := Sample.seconds 604800 |}.

(** A database with no rows, at 2023-11-14T22:13:20Z. *)
Definition emptyWorld : World.t :=
  {| World.users := [];
     World.refresh_tokens := [];
     World.clock := Sample.seconds 1700000000;
     World.entropy := 1;
     World.faults := [] |}.

Definition aliceInput : RegisterInput.t :=
  {| RegisterInput.Username := "alice";
     RegisterInput.Email := "alice@example.com";
     RegisterInput.Password := "secret123" |}.

(** The stored text of alice's password under the sample bcrypt. *)
Definition aliceHash : string :=
  match fst (run (HashPassword sampleLib "secret123") emptyWorld) with
  | Ok h => h
  | Err _ => ""
  end.

Definition alice : User.t :=
  {| User.ID := {| UUID.Bytes := bytesOfN 1; UUID.Valid := true |};
     User.Username := "alice";
     User.Email := "alice@example.com";
     User.PasswordHash := aliceHash;
     User.CreatedAt :=
       {| Timestamp.Time := Sample.seconds 1690000000; Timestamp.Valid := true |} |}.

Definition aliceSession : RefreshRow.t :=
  {| RefreshRow.ID := {| UUID.Bytes := bytesOfN 2; UUID.Valid := true |};
     RefreshRow.UserID := User.ID alice;
     RefreshRow.Token := Sample.tokenLive;
     RefreshRow.ExpiresAt :=
       {| Timestamp.Time := Sample.seconds 2000000000; Timestamp.Valid := true |};
     RefreshRow.CreatedAt :=
       {| Timestamp.Time := Sample.seconds 1700000000; Timestamp.Valid := true |} |}.

(** Alice is registered and has one live refresh session. *)
Definition sampleWorld : World.t :=
  {| World.users := [alice];
     World.refresh_tokens := [aliceSession];
     World.clock := Sample.seconds 1700000100;
     World.entropy := 100;
     World.faults := [] |}.

(** The world with the given failures scheduled for the next queries. *)
Definition withFaults (fs : list (option error)) (w : World.t) : World.t :=
  {| World.users := World.users w;
     World.refresh_tokens := World.refresh_tokens w;
     World.clock := World.clock w;
     World.entropy := World.entropy w;
     World.faults := fs |}.

(** * Running programs *)

Lemma run_bind {A B} (m : Prog A) (f : A -> Prog B) (w : World.t) :
  run (bind m f) w = let (a, w') := run m w in run (f a) w'.
Proof.
  revert w. induction m as [a | X e k IH]; intros w; simpl.
  - reflexivity.
  - destruct (handle e w) as [x w']. apply IH.
Qed.

(** The tables and the fault schedule are the same in both worlds: what a
    run that sends no query leaves as it found it. *)
Definition sameTables (w w' : World.t) : Prop :=
  World.users w' = World.users w /\
  World.refresh_tokens w' = World.refresh_tokens w /\
  World.faults w' = World.faults w.

Ltac break_match :=
  match goal with
  | |- context [match ?x with _ => _ end] => destruct x eqn:?
  end.

Lemma sameTables_refl (w : World.t) : sameTables w w.
Proof. unfold sameTables; auto. Qed.

Lemma sameTables_trans (w1 w2 w3 : World.t) :
  sameTables w1 w2 -> sameTables w2 w3 -> sameTables w1 w3.
Proof. unfold sameTables; intros (a & b & c) (d & e & f); repeat split; congruence. Qed.

Lemma ValidateRefreshToken_frame (lib : Lib) (t secret : string) (w : World.t) :
  sameTables w (snd (run (ValidateRefreshToken lib t secret) w)).
Proof.
  unfold ValidateRefreshToken, ParseWithClaims, sameTables.
  repeat (break_match; cbn); auto.
Qed.

Lemma ValidateAccessToken_frame (lib : Lib) (t secret : string) (w : World.t) :
  sameTables w (snd (run (ValidateAccessToken lib t secret) w)).
Proof.
  unfold ValidateAccessToken, ParseWithClaims, sameTables.
  repeat (break_match; cbn); auto.
Qed.

Lemma GenerateAccessToken_frame (lib : Lib) (uid name email secret : string)
    (d : Duration) (w : World.t) :
  sameTables w (snd (run (GenerateAccessToken lib uid name email secret d) w)).
Proof. unfold GenerateAccessToken, sameTables; cbn; auto. Qed.

Lemma GenerateRefreshToken_frame (lib : Lib) (uid secret : string)
    (d : Duration) (w : World.t) :
  sameTables w (snd (run (GenerateRefreshToken lib uid secret d) w)).
Proof. unfold GenerateRefreshToken, sameTables; cbn; auto. Qed.

Lemma HashPassword_frame (lib : Lib) (password : string) (w : World.t) :
  sameTables w (snd (run (HashPassword lib password) w)).
Proof.
  unfold HashPassword, GenerateFromPassword, sameTables.
  destruct (72 <? len password)%Z; [cbn; auto|].
  cbn -[keyStream bytesOfN].
  destruct (bcrypt_digest lib 12 _ (keyStream password)); cbn; auto.
Qed.

(** * The substring helper of the e-mail check *)

(** C10: [contains] is documented as the substring test, yet on two equal
    strings it answers [false] although the string occurs in itself; the
    e-mail [@] checked against [@] is the instance [Register] can meet. *)
Theorem contains_equal_strings_false (s : string) :
  contains s s = false /\ occurs_in s s /\ contains "@" "@" = false.
Proof.
  split; [|split].
  - unfold contains. rewrite String.eqb_refl. cbn [negb].
    now rewrite !andb_false_r.
  - exists "", "". cbn. now rewrite app_empty_r.
  - reflexivity.
Qed.

(** * Validation of a registration *)

(** The characters of a text in UTF-8: the bytes that start a code
    point, which are all but the continuation bytes [10xxxxxx]. *)
Definition continuation (c : ascii) : bool :=
  (128 <=? nat_of_ascii c)%nat && (nat_of_ascii c <? 192)%nat.

Fixpoint characters (s : string) : Z :=
  match s with
  | EmptyString => 0
  | String c rest => (if continuation c then 0 else 1) + characters rest
  end.

(** The shape rules in the words of the specification: the lengths of
    the username and of the password are counted in characters. *)
Definition malformed (input : RegisterInput.t) : Prop :=
  RegisterInput.Username input = "" \/
  (characters (RegisterInput.Username input) < 3)%Z \/
  (50 < characters (RegisterInput.Username input))%Z \/
  ~ occurs_in "@" (RegisterInput.Email input) \/
  ~ occurs_in "." (RegisterInput.Email input) \/
  RegisterInput.Password input = "" \/
  (characters (RegisterInput.Password input) < 6)%Z.

(** The same rules with the lengths in bytes, which is what Go's [len]
    measures and what [validateRegisterInput] compares. *)
Definition malformedInBytes (input : RegisterInput.t) : Prop :=
  RegisterInput.Username input = "" \/
  (len (RegisterInput.Username input) < 3)%Z \/
  (50 < len (RegisterInput.Username input))%Z \/
  ~ occurs_in "@" (RegisterInput.Email input) \/
  ~ occurs_in "." (RegisterInput.Email input) \/
  RegisterInput.Password input = "" \/
  (len (RegisterInput.Password input) < 6)%Z.

(** A username of two letters, each of two bytes. *)
Definition twoLetters : RegisterInput.t :=
  {| RegisterInput.Username := "éé";
     RegisterInput.Email := "ee@example.com";
     RegisterInput.Password := "secret123" |}.

(** A username of twenty-six letters, each of two bytes. *)
Definition twentySixLetters : RegisterInput.t :=
  {| RegisterInput.Username := "абвгдежзийклмнопрстуфхцчшщ";
     RegisterInput.Email := "abc@example.com";
     RegisterInput.Password := "secret123" |}.

Lemma occurs_in_dec (sub s : string) : {occurs_in sub s} + {~ occurs_in sub s}.
Proof.
  destruct (containsMiddle s sub) eqn:E.
  - left. now apply containsMiddle_true.
  - right. intros H. apply containsMiddle_true in H. congruence.
Qed.

Lemma email_checks (email : string) :
  contains email "@" && contains email "." = true <->
  occurs_in "@" email /\ occurs_in "." email.
Proof.
  rewrite andb_true_iff, !contains_true. split.
  - intros ((_ & _ & Ha) & (_ & _ & Hd)). now split.
  - intros (Ha & Hd). repeat split; try discriminate; try assumption.
    + intros ->. apply occurs_in_same_length in Hd; [discriminate | cbn; lia].
    + intros ->. apply occurs_in_same_length in Ha; [discriminate | cbn; lia].
Qed.

Lemma validateRegisterInput_None (input : RegisterInput.t) :
  validateRegisterInput input = None <-> ~ malformedInBytes input.
Proof.
  unfold validateRegisterInput, malformedInBytes.
  pose proof (email_checks (RegisterInput.Email input)) as He.
  destruct (String.eqb_spec (RegisterInput.Username input) "") as [Hu|Hu].
  { split; [discriminate | tauto]. }
  destruct (len (RegisterInput.Username input) <? 3)%Z eqn:H3.
  { apply Z.ltb_lt in H3. cbn. split; [discriminate | tauto]. }
  destruct (50 <? len (RegisterInput.Username input))%Z eqn:H50.
  { apply Z.ltb_lt in H50. cbn. split; [discriminate | tauto]. }
  apply Z.ltb_ge in H3, H50. cbn [orb].
  destruct (String.eqb_spec (RegisterInput.Email input) "") as [Hm|Hm].
  { split; [discriminate|]. intros H. exfalso. apply H.
    do 3 right. left. rewrite Hm. intros (pre & post & Hp).
    destruct pre; discriminate. }
  destruct (contains (RegisterInput.Email input) "@") eqn:Hat;
    destruct (contains (RegisterInput.Email input) ".") eqn:Hdot; cbn [negb orb andb] in *;
    try (split; [discriminate|]; intros H; exfalso; apply H;
         destruct (occurs_in_dec "@" (RegisterInput.Email input));
         destruct (occurs_in_dec "." (RegisterInput.Email input));
         try tauto;
         assert (false = true) by (apply He; tauto); discriminate).
  destruct He as [He _]. specialize (He eq_refl). destruct He as [Ha Hd].
  destruct (String.eqb_spec (RegisterInput.Password input) "") as [Hp|Hp].
  { split; [discriminate | tauto]. }
  destruct (len (RegisterInput.Password input) <? 6)%Z eqn:H6.
  { apply Z.ltb_lt in H6. split; [discriminate | tauto]. }
  apply Z.ltb_ge in H6. split; [|reflexivity]. intros _ H'.
  repeat (destruct H' as [H'|H']); try contradiction; lia.
Qed.

(** [Register] is the leaf [Ret (Err err)], a program that sends no
    request to the store or to anything else, exactly when the input
    breaks a shape rule with the lengths in bytes; the error is then the
    one [validateRegisterInput] reports. *)
Lemma Register_rejects_exactly_malformedInBytes
    (lib : Lib) (cfg : JWTConfig.t) (input : RegisterInput.t) :
  ((exists err, Register lib cfg input = Ret (Err err))
   <-> malformedInBytes input)
  /\ (forall err, Register lib cfg input = Ret (Err err) <->
                  validateRegisterInput input = Some err).
Proof.
  assert (Hleaf : forall err, Register lib cfg input = Ret (Err err) <->
                              validateRegisterInput input = Some err).
  { intros err. unfold Register.
    destruct (validateRegisterInput input) as [e|]; cbn.
    - split; intros [= ->]; reflexivity.
    - split; discriminate. }
  pose proof (validateRegisterInput_None input) as Hnone.
  split; [|exact Hleaf].
  split.
  - intros (err & H). apply Hleaf in H.
    destruct (validateRegisterInput input) eqn:E; [|discriminate].
    unfold malformedInBytes.
    destruct (String.eqb_spec (RegisterInput.Username input) ""); [tauto|].
    destruct (Z.lt_ge_cases (len (RegisterInput.Username input)) 3); [tauto|].
    destruct (Z.lt_ge_cases 50 (len (RegisterInput.Username input))); [tauto|].
    destruct (occurs_in_dec "@" (RegisterInput.Email input)); [|tauto].
    destruct (occurs_in_dec "." (RegisterInput.Email input)); [|tauto].
    destruct (String.eqb_spec (RegisterInput.Password input) ""); [tauto|].
    destruct (Z.lt_ge_cases (len (RegisterInput.Password input)) 6); [tauto|].
    exfalso. assert (Hn : Some e = None); [|discriminate].
    apply Hnone. unfold malformedInBytes. intros H'.
    repeat (destruct H' as [H'|H']); try contradiction; lia.
  - intros Hm. destruct (validateRegisterInput input) as [e|] eqn:E.
    + exists e. now apply Hleaf.
    + exfalso. exact (proj1 Hnone eq_refl Hm).
Qed.

(** C5: the claim states the shape rules in characters, and so do the
    messages of [validateRegisterInput]; the code compares [len], which
    counts bytes.  A username of two letters that take four bytes is not
    refused although it is malformed, and [Register] goes on to the
    store; a username of twenty-six letters that take fifty-two bytes is
    refused, with the message about 3 to 50 characters, although it is
    not malformed.  What [Register] refuses without any request is
    exactly the input that breaks a rule with the lengths in bytes; where
    username and password have as many characters as bytes that is
    exactly the malformed input. *)
Theorem Register_counts_bytes_not_characters (lib : Lib) (cfg : JWTConfig.t) :
  (characters (RegisterInput.Username twoLetters) = 2%Z /\
   malformed twoLetters /\
   validateRegisterInput twoLetters = None /\
   forall err, Register lib cfg twoLetters <> Ret (Err err)) /\
  (characters (RegisterInput.Username twentySixLetters) = 26%Z /\
   ~ malformed twentySixLetters /\
   Register lib cfg twentySixLetters
   = Ret (Err (ErrorfS "username deve ter entre 3 e 50 caracteres"))) /\
  (forall input : RegisterInput.t,
     (exists err, Register lib cfg input = Ret (Err err))
     <-> malformedInBytes input) /\
  (forall input : RegisterInput.t,
     characters (RegisterInput.Username input)
       = len (RegisterInput.Username input) ->
     characters (RegisterInput.Password input)
       = len (RegisterInput.Password input) ->
     ((exists err, Register lib cfg input = Ret (Err err))
      <-> malformed input)).
Proof.
  split; [|split; [|split]].
  - split; [reflexivity|]. split; [right; left; reflexivity|].
    split; [reflexivity|].
    intros err H.
    apply (Register_rejects_exactly_malformedInBytes lib cfg twoLetters) in H.
    discriminate.
  - split; [reflexivity|]. split; [|reflexivity].
    intros [H|[H|[H|[H|[H|[H|H]]]]]]; try discriminate.
    + apply H. exists "abc", "example.com". reflexivity.
    + apply H. exists "abc@example", "com". reflexivity.
  - intros input.
    apply (Register_rejects_exactly_malformedInBytes lib cfg input).
  - intros input Hu Hp.
    rewrite (proj1 (Register_rejects_exactly_malformedInBytes lib cfg input)).
    unfold malformed, malformedInBytes. rewrite Hu, Hp. reflexivity.
Qed.

(** * Revocation: logout, then refresh *)

Definition refreshInput (t : string) : RefreshTokenInput.t :=
  {| RefreshTokenInput.RefreshToken := t |}.

Lemma sessionByToken_filter (t : string) (rows : list RefreshRow.t) :
  find (fun r => String.eqb (RefreshRow.Token r) t)
       (filter (fun r => negb (String.eqb (RefreshRow.Token r) t)) rows) = None.
Proof.
  induction rows as [|r rows IH]; simpl; [reflexivity|].
  destruct (String.eqb (RefreshRow.Token r) t) eqn:E; simpl; [exact IH|].
  now rewrite E.
Qed.


Lemma Logout_success (t : string) (w w' : World.t) :
  run (Logout t) w = (None, w') ->
  t <> "" /\ nextFault w = None /\
  World.users w' = World.users w /\
  World.refresh_tokens w'
  = filter (fun r => negb (String.eqb (RefreshRow.Token r) t))
           (World.refresh_tokens w).
Proof.
  unfold Logout. destruct (String.eqb_spec t "") as [->|Hne]; cbn; [discriminate|].
  unfold handle; cbn. destruct (nextFault w) eqn:Hf; cbn; [discriminate|].
  intros [= <-]. cbn. auto.
Qed.

Lemma RefreshToken_needs_session (lib : Lib) (cfg : JWTConfig.t) (t : string)
    (w : World.t) :
  t <> "" ->
  sessionByToken t w = None ->
  (exists err, fst (run (RefreshToken lib cfg (refreshInput t)) w) = Err err) /\
  (forall sub w1,
     run (ValidateRefreshToken lib t (JWTConfig.RefreshSecret cfg)) w
     = (Ok sub, w1) ->
     nextFault w = None ->
     fst (run (RefreshToken lib cfg (refreshInput t)) w)
     = Err (ErrorfS "refresh token inválido ou expirado")).
Proof.
  intros Ht Hnone. unfold RefreshToken, refreshInput.
  cbn [RefreshTokenInput.RefreshToken].
  pose proof (ValidateRefreshToken_frame lib t (JWTConfig.RefreshSecret cfg) w)
    as Hfr.
  apply String.eqb_neq in Ht. rewrite Ht. rewrite run_bind.
  destruct (run (ValidateRefreshToken lib t (JWTConfig.RefreshSecret cfg)) w)
    as [[sub|err] w1]; [|split; [cbn; eauto | discriminate]].
  cbn in Hfr. destruct Hfr as (Hu & Hr & Hf).
  assert (Hnf : nextFault w1 = nextFault w) by (unfold nextFault; now rewrite Hf).
  split.
  - cbn. unfold handle; cbn.
    destruct (nextFault w1); cbn.
    + destruct (isErrNoRows e); cbn; eauto.
    + unfold sessionByToken in *. cbn. rewrite Hr, Hnone. cbn. eauto.
  - intros sub' w1' _ Hno. cbn. unfold handle; cbn. rewrite Hnf, Hno. cbn.
    unfold sessionByToken in *. cbn. rewrite Hr, Hnone. reflexivity.
Qed.

(** C1: once [Logout t] has completed successfully, no session row carries
    [t], and [RefreshToken t] returns an error, hence no token pair; when
    the token itself still verifies (signature and expiry) and the store
    answers, the error is the one of the store lookup. *)
Theorem RefreshToken_fails_after_Logout (lib : Lib) (cfg : JWTConfig.t)
    (t : string) (w w' : World.t) :
  run (Logout t) w = (None, w') ->
  sessionByToken t w' = None /\
  (exists err, fst (run (RefreshToken lib cfg (refreshInput t)) w') = Err err) /\
  (forall sub w1,
     run (ValidateRefreshToken lib t (JWTConfig.RefreshSecret cfg)) w'
     = (Ok sub, w1) ->
     nextFault w' = None ->
     fst (run (RefreshToken lib cfg (refreshInput t)) w')
     = Err (ErrorfS "refresh token inválido ou expirado")).
Proof.
  intros Hl. apply Logout_success in Hl. destruct Hl as (Ht & _ & _ & Hrows).
  assert (Hnone : sessionByToken t w' = None).
  { unfold sessionByToken. rewrite Hrows. apply sessionByToken_filter. }
  split; [exact Hnone|]. now apply RefreshToken_needs_session.
Qed.

Lemma RefreshToken_fails_after_Logout_witness :
  sessionByToken Sample.tokenLive (snd (run (Logout Sample.tokenLive) sampleWorld))
  = None /\
  (exists err,
     fst (run (RefreshToken sampleLib sampleCfg (refreshInput Sample.tokenLive))
            (snd (run (Logout Sample.tokenLive) sampleWorld))) = Err err) /\
  (forall sub w1,
     run (ValidateRefreshToken sampleLib Sample.tokenLive
            (JWTConfig.RefreshSecret sampleCfg))
         (snd (run (Logout Sample.tokenLive) sampleWorld)) = (Ok sub, w1) ->
     nextFault (snd (run (Logout Sample.tokenLive) sampleWorld)) = None ->
     fst (run (RefreshToken sampleLib sampleCfg (refreshInput Sample.tokenLive))
            (snd (run (Logout Sample.tokenLive) sampleWorld)))
     = Err (ErrorfS "refresh token inválido ou expirado")).
Proof.
  apply (RefreshToken_fails_after_Logout sampleLib sampleCfg Sample.tokenLive
           sampleWorld).
  vm_compute. reflexivity.
Defined.

Example refresh_before_and_after_logout :
  isOk (fst (run (RefreshToken sampleLib sampleCfg (refreshInput Sample.tokenLive))
               sampleWorld)) = true /\
  fst (run (RefreshToken sampleLib sampleCfg (refreshInput Sample.tokenLive))
         (snd (run (Logout Sample.tokenLive) sampleWorld)))
  = Err (ErrorfS "refresh token inválido ou expirado").
Proof. split; vm_compute; reflexivity. Qed.

(** * Refresh leaves the session as it is *)

Lemma find_token_eq (t : string) (rows : list RefreshRow.t) (row : RefreshRow.t) :
  find (fun r => String.eqb (RefreshRow.Token r) t) rows = Some row ->
  RefreshRow.Token row = t.
Proof.
  intros H. apply find_some in H. destruct H as [_ H].
  now apply String.eqb_eq in H.
Qed.

(** C7: a successful [RefreshToken t] returns [t] itself as the refresh
    token, leaves the session table and the accounts table exactly as they
    were, so the row of [t] is still the one found before, and the access
    token it returns is one the signer has just produced with the access
    secret. *)
Theorem RefreshToken_does_not_rotate (lib : Lib) (cfg : JWTConfig.t)
    (t : string) (w w' : World.t) (pair : TokenPair.t) :
  run (RefreshToken lib cfg (refreshInput t)) w = (Ok pair, w') ->
  TokenPair.RefreshToken pair = t /\
  World.refresh_tokens w' = World.refresh_tokens w /\
  World.users w' = World.users w /\
  (exists row, sessionByToken t w = Some row /\ sessionByToken t w' = Some row) /\
  (exists claims,
     jwt_SignedStringAccess lib SigningMethodHS256 claims
       (JWTConfig.AccessSecret cfg) = Ok (TokenPair.AccessToken pair)).
Proof.
  unfold RefreshToken, refreshInput. cbn [RefreshTokenInput.RefreshToken].
  destruct (String.eqb t ""); [cbn; discriminate|].
  rewrite run_bind.
  pose proof (ValidateRefreshToken_frame lib t (JWTConfig.RefreshSecret cfg) w)
    as Hfr.
  destruct (run (ValidateRefreshToken lib t (JWTConfig.RefreshSecret cfg)) w)
    as [[sub|err] w1]; [|cbn; discriminate].
  cbn in Hfr. destruct Hfr as (Hu & Hr & Hf).
  cbn -[NewNumericDate bytesOfN].
  destruct (nextFault w1); cbn -[NewNumericDate bytesOfN].
  { destruct (isErrNoRows e); cbn; discriminate. }
  destruct (find _ (World.refresh_tokens w1)) as [row|] eqn:Hrow;
    cbn -[NewNumericDate bytesOfN]; [|discriminate].
  destruct (pgtype_Scan lib sub) as [uid|err]; cbn -[NewNumericDate bytesOfN];
    [|discriminate].
  destruct (nextFault (afterQuery w1)); cbn -[NewNumericDate bytesOfN];
    [discriminate|].
  destruct (find _ (World.users w1)) as [user|];
    cbn -[NewNumericDate bytesOfN]; [|discriminate].
  match goal with
  | |- context [jwt_SignedStringAccess lib ?m ?c ?k] =>
      destruct (jwt_SignedStringAccess lib m c k) as [a|err] eqn:Hsign
  end; cbn; [|discriminate].
  intros [= <- <-]. cbn.
  rewrite Hr in Hrow.
  split; [now apply find_token_eq in Hrow|].
  split; [exact Hr|]. split; [exact Hu|]. split.
  - exists row. unfold sessionByToken. cbn. now rewrite Hr.
  - eexists. exact Hsign.
Qed.

Lemma RefreshToken_does_not_rotate_witness :
  TokenPair.RefreshToken
    {| TokenPair.AccessToken :=
         Sample.headerHS256 ++ ".00000000-0000-0000-0000-000000000064.c2FtcGxl";
       TokenPair.RefreshToken := Sample.tokenLive |} = Sample.tokenLive /\
  World.refresh_tokens
    (snd (run (RefreshToken sampleLib sampleCfg (refreshInput Sample.tokenLive))
            sampleWorld)) = World.refresh_tokens sampleWorld /\
  World.users
    (snd (run (RefreshToken sampleLib sampleCfg (refreshInput Sample.tokenLive))
            sampleWorld)) = World.users sampleWorld /\
  (exists row,
     sessionByToken Sample.tokenLive sampleWorld = Some row /\
     sessionByToken Sample.tokenLive
       (snd (run (RefreshToken sampleLib sampleCfg (refreshInput Sample.tokenLive))
               sampleWorld)) = Some row) /\
  (exists claims,
     jwt_SignedStringAccess sampleLib SigningMethodHS256 claims
       (JWTConfig.AccessSecret sampleCfg)
     = Ok (TokenPair.AccessToken
             {| TokenPair.AccessToken :=
                  Sample.headerHS256
                    ++ ".00000000-0000-0000-0000-000000000064.c2FtcGxl";
                TokenPair.RefreshToken := Sample.tokenLive |})).
Proof.
  apply (RefreshToken_does_not_rotate sampleLib sampleCfg Sample.tokenLive
           sampleWorld).
  vm_compute. reflexivity.
Defined.

(** * Logout of an unknown token *)



(** * Login does not tell an unknown account from a wrong password *)

Definition invalidCredentials : error := ErrorfS "credenciais inválidas".

Lemma Login_unknown_account (lib : Lib) (cfg : JWTConfig.t)
    (input : LoginInput.t) (w : World.t) :
  LoginInput.Email input <> "" -> LoginInput.Password input <> "" ->
  nextFault w = None ->
  userByEmail (LoginInput.Email input) w = None ->
  run (Login lib cfg input) w = (Err invalidCredentials, afterQuery w).
Proof.
  intros He Hp Hf Hu. unfold Login.
  apply String.eqb_neq in He, Hp. rewrite He, Hp. cbn.
  unfold handle. cbn. rewrite Hf.
  unfold userByEmail in Hu. cbn. rewrite Hu. reflexivity.
Qed.

Lemma Login_wrong_password (lib : Lib) (cfg : JWTConfig.t)
    (input : LoginInput.t) (w : World.t) (user : User.t) :
  LoginInput.Email input <> "" -> LoginInput.Password input <> "" ->
  nextFault w = None ->
  userByEmail (LoginInput.Email input) w = Some user ->
  CheckPassword lib (LoginInput.Password input) (User.PasswordHash user) = false ->
  run (Login lib cfg input) w = (Err invalidCredentials, afterQuery w).
Proof.
  intros He Hp Hf Hu Hc. unfold Login.
  apply String.eqb_neq in He, Hp. rewrite He, Hp. cbn -[CheckPassword].
  unfold handle. cbn -[CheckPassword]. rewrite Hf.
  unfold userByEmail in Hu. cbn -[CheckPassword]. rewrite Hu.
  cbn -[CheckPassword]. rewrite Hc. reflexivity.
Qed.

(** C3: a login with an e-mail that no account has and a login with the
    e-mail of an account but a password that fails verification both fail,
    with the same error value, whose message is [credenciais inválidas];
    neither changes a table.  Both inputs are non-empty, as [Login] asks
    before it looks anything up, and both look-ups are answered. *)
Theorem Login_unknown_and_wrong_password_alike (lib : Lib) (cfg : JWTConfig.t)
    (unknown wrong : LoginInput.t) (w1 w2 : World.t) (user : User.t) :
  LoginInput.Email unknown <> "" -> LoginInput.Password unknown <> "" ->
  LoginInput.Email wrong <> "" -> LoginInput.Password wrong <> "" ->
  nextFault w1 = None -> nextFault w2 = None ->
  userByEmail (LoginInput.Email unknown) w1 = None ->
  userByEmail (LoginInput.Email wrong) w2 = Some user ->
  CheckPassword lib (LoginInput.Password wrong) (User.PasswordHash user) = false ->
  fst (run (Login lib cfg unknown) w1) = fst (run (Login lib cfg wrong) w2) /\
  (exists err,
     fst (run (Login lib cfg unknown) w1) = Err err /\
     fst (run (Login lib cfg wrong) w2) = Err err /\
     Error err = "credenciais inválidas") /\
  World.refresh_tokens (snd (run (Login lib cfg unknown) w1))
  = World.refresh_tokens w1 /\
  World.refresh_tokens (snd (run (Login lib cfg wrong) w2))
  = World.refresh_tokens w2.
Proof.
  intros He1 Hp1 He2 Hp2 Hf1 Hf2 Hu1 Hu2 Hc.
  rewrite (Login_unknown_account lib cfg unknown w1) by assumption.
  rewrite (Login_wrong_password lib cfg wrong w2 user) by assumption.
  cbn. repeat split. exists invalidCredentials. repeat split.
Qed.

Definition loginNobody : LoginInput.t :=
  {| LoginInput.Email := "nobody@example.com";
     LoginInput.Password := "secret123" |}.

Definition loginAliceWrong : LoginInput.t :=
  {| LoginInput.Email := "alice@example.com"; LoginInput.Password := "wrong" |}.

Lemma Login_unknown_and_wrong_password_alike_witness :
  fst (run (Login sampleLib sampleCfg loginNobody) sampleWorld)
  = fst (run (Login sampleLib sampleCfg loginAliceWrong) sampleWorld) /\
  (exists err,
     fst (run (Login sampleLib sampleCfg loginNobody) sampleWorld) = Err err /\
     fst (run (Login sampleLib sampleCfg loginAliceWrong) sampleWorld) = Err err /\
     Error err = "credenciais inválidas") /\
  World.refresh_tokens (snd (run (Login sampleLib sampleCfg loginNobody) sampleWorld))
  = World.refresh_tokens sampleWorld /\
  World.refresh_tokens
    (snd (run (Login sampleLib sampleCfg loginAliceWrong) sampleWorld))
  = World.refresh_tokens sampleWorld.
Proof.
  apply (Login_unknown_and_wrong_password_alike sampleLib sampleCfg
           loginNobody loginAliceWrong sampleWorld sampleWorld alice);
    try discriminate; vm_compute; reflexivity.
Defined.

(** * A uniqueness violation at the insert *)

Definition emailConflict : error := ErrorfS "email já cadastrado".
Definition usernameConflict : error := ErrorfS "username já cadastrado".

(** The world in which a concurrent registration of the same name commits
    between the look-ups and the insert: both look-ups find nothing and
    the insert meets the uniqueness violation. *)
Definition racedWorld : World.t :=
  withFaults [None; None; Some uniqueViolation] emptyWorld.

(** C2, as stated, fails: in [racedWorld] the registration of alice passes
    validation and both look-ups, its insert fails with the uniqueness
    violation, and the error returned is the creation failure wrapping the
    storage error, which is neither of the two conflict errors. *)
Lemma Register_insert_violation_is_not_conflict :
  validateRegisterInput aliceInput = None /\
  userByEmail (RegisterInput.Email aliceInput) racedWorld = None /\
  userByUsername (RegisterInput.Username aliceInput) racedWorld = None /\
  fst (run (Register sampleLib sampleCfg aliceInput) racedWorld)
  = Err (ErrorfW "erro ao criar usuário: " uniqueViolation) /\
  fst (run (Register sampleLib sampleCfg aliceInput) racedWorld)
  <> Err emailConflict /\
  fst (run (Register sampleLib sampleCfg aliceInput) racedWorld)
  <> Err usernameConflict.
Proof. repeat split; try (vm_compute; reflexivity); vm_compute; discriminate. Qed.

(** C2, amended: when validation and both look-ups pass and the password
    is hashed, a failure [e] of the insert, a uniqueness violation
    included, comes back as the creation failure that wraps [e]; its
    message is that of [e] behind a fixed prefix and differs from both
    conflict messages, and no table is changed. *)
Theorem Register_insert_failure_is_wrapped (lib : Lib) (cfg : JWTConfig.t)
    (input : RegisterInput.t) (w wh : World.t) (e : error)
    (rest : list (option error)) (hash : string) :
  validateRegisterInput input = None ->
  World.faults w = None :: None :: Some e :: rest ->
  userByEmail (RegisterInput.Email input) w = None ->
  userByUsername (RegisterInput.Username input) w = None ->
  run (HashPassword lib (RegisterInput.Password input))
      (afterQuery (afterQuery w)) = (Ok hash, wh) ->
  fst (run (Register lib cfg input) w)
  = Err (ErrorfW "erro ao criar usuário: " e) /\
  Error (ErrorfW "erro ao criar usuário: " e) = "erro ao criar usuário: " ++ Error e /\
  Error (ErrorfW "erro ao criar usuário: " e) <> Error emailConflict /\
  Error (ErrorfW "erro ao criar usuário: " e) <> Error usernameConflict /\
  World.users (snd (run (Register lib cfg input) w)) = World.users w /\
  World.refresh_tokens (snd (run (Register lib cfg input) w))
  = World.refresh_tokens w.
Proof.
  intros Hv Hf Hue Hun Hh.
  pose proof (HashPassword_frame lib (RegisterInput.Password input)
                (afterQuery (afterQuery w))) as Hfr.
  rewrite Hh in Hfr. cbn in Hfr. destruct Hfr as (Hu & Hr & Hfl).
  unfold afterQuery in Hu, Hr, Hfl. cbn in Hu, Hr, Hfl.
  rewrite Hf in Hfl. cbn in Hfl.
  assert (Hrun : run (Register lib cfg input) w
                 = (Err (ErrorfW "erro ao criar usuário: " e), afterQuery wh)).
  { unfold Register. rewrite Hv. cbn -[HashPassword].
    unfold handle. cbn -[HashPassword]. unfold nextFault at 1. rewrite Hf.
    unfold userByEmail in Hue. cbn -[HashPassword]. rewrite Hue.
    cbn -[HashPassword]. unfold nextFault at 1. cbn -[HashPassword].
    rewrite Hf. cbn -[HashPassword].
    unfold userByUsername in Hun. rewrite Hun. cbn -[HashPassword].
    rewrite run_bind.
    replace {| World.users := World.users w;
               World.refresh_tokens := World.refresh_tokens w;
               World.clock := World.clock w;
               World.entropy := World.entropy w;
               World.faults := Some e :: rest |}
      with (afterQuery (afterQuery w))
      by (unfold afterQuery; cbn; now rewrite Hf).
    rewrite Hh. cbn. unfold nextFault. rewrite Hfl. reflexivity. }
  rewrite Hrun. cbn -[Error]. repeat split; try assumption.
  - cbn. discriminate.
  - cbn. discriminate.
Qed.

Lemma Register_insert_failure_is_wrapped_witness :
  fst (run (Register sampleLib sampleCfg aliceInput) racedWorld)
  = Err (ErrorfW "erro ao criar usuário: " uniqueViolation) /\
  Error (ErrorfW "erro ao criar usuário: " uniqueViolation)
  = "erro ao criar usuário: " ++ Error uniqueViolation /\
  Error (ErrorfW "erro ao criar usuário: " uniqueViolation) <> Error emailConflict /\
  Error (ErrorfW "erro ao criar usuário: " uniqueViolation)
  <> Error usernameConflict /\
  World.users (snd (run (Register sampleLib sampleCfg aliceInput) racedWorld))
  = World.users racedWorld /\
  World.refresh_tokens
    (snd (run (Register sampleLib sampleCfg aliceInput) racedWorld))
  = World.refresh_tokens racedWorld.
Proof.
  apply (Register_insert_failure_is_wrapped sampleLib sampleCfg aliceInput
           racedWorld
           (snd (run (HashPassword sampleLib (RegisterInput.Password aliceInput))
                   (afterQuery (afterQuery racedWorld))))
           uniqueViolation [] aliceHash);
    vm_compute; reflexivity.
Defined.

(** * Verification failures at the refresh boundary *)

(** C4, as stated, fails: a text without three segments and an expired
    token are both refused by the verification step of [RefreshToken], and
    the two errors returned differ, each message ending in the reason the
    parser gave. *)
Lemma RefreshToken_verification_errors_differ :
  fst (run (RefreshToken sampleLib sampleCfg (refreshInput "abc")) sampleWorld)
  = Err (ErrorfW "refresh token inválido: "
           (ErrorfW "erro ao parsear refresh token: "
              (JwtError "token is malformed"
                 "token contains an invalid number of segments"))) /\
  fst (run (RefreshToken sampleLib sampleCfg (refreshInput Sample.tokenExpired))
         sampleWorld)
  = Err (ErrorfW "refresh token inválido: "
           (ErrorfW "erro ao parsear refresh token: "
              (JwtErrorW "token has invalid claims" ""
                 (LibError "token is expired")))) /\
  fst (run (RefreshToken sampleLib sampleCfg (refreshInput "abc")) sampleWorld)
  <> fst (run (RefreshToken sampleLib sampleCfg (refreshInput Sample.tokenExpired))
            sampleWorld) /\
  Error (ErrorfW "refresh token inválido: "
           (ErrorfW "erro ao parsear refresh token: "
              (JwtError "token is malformed"
                 "token contains an invalid number of segments")))
  <> Error (ErrorfW "refresh token inválido: "
              (ErrorfW "erro ao parsear refresh token: "
                 (JwtErrorW "token has invalid claims" ""
                    (LibError "token is expired")))).
Proof.
  repeat split; try (vm_compute; reflexivity); vm_compute; discriminate.
Qed.

Lemma ValidateRefreshToken_error_shape (lib : Lib) (t secret : string)
    (w w1 : World.t) (e : error) :
  run (ValidateRefreshToken lib t secret) w = (Err e, w1) ->
  exists cause, e = ErrorfW "erro ao parsear refresh token: " cause.
Proof.
  unfold ValidateRefreshToken, ParseWithClaims.
  repeat (break_match; cbn); intros [= <- <-]; eauto.
Qed.

(** C4, amended: when the verification step of [RefreshToken] fails with
    [e], the error returned wraps [e] behind one fixed prefix; [e] itself
    is always the parse failure wrapping the reason the library gave, so
    the message a caller reads is the two fixed prefixes followed by that
    reason, and no table is changed. *)
Theorem RefreshToken_wraps_verification_error (lib : Lib) (cfg : JWTConfig.t)
    (t : string) (w w1 : World.t) (e : error) :
  t <> "" ->
  run (ValidateRefreshToken lib t (JWTConfig.RefreshSecret cfg)) w = (Err e, w1) ->
  run (RefreshToken lib cfg (refreshInput t)) w
  = (Err (ErrorfW "refresh token inválido: " e), w1) /\
  Error (ErrorfW "refresh token inválido: " e)
  = "refresh token inválido: " ++ Error e /\
  (exists cause,
     e = ErrorfW "erro ao parsear refresh token: " cause /\
     Error (ErrorfW "refresh token inválido: " e)
     = "refresh token inválido: erro ao parsear refresh token: " ++ Error cause) /\
  sameTables w w1.
Proof.
  intros Ht Hv.
  pose proof (ValidateRefreshToken_frame lib t (JWTConfig.RefreshSecret cfg) w)
    as Hfr.
  pose proof (ValidateRefreshToken_error_shape _ _ _ _ _ _ Hv) as Hs.
  rewrite Hv in Hfr. cbn in Hfr.
  unfold RefreshToken, refreshInput. cbn [RefreshTokenInput.RefreshToken].
  apply String.eqb_neq in Ht. rewrite Ht, run_bind, Hv. cbn -[Error].
  repeat split; try apply Hfr.
  destruct Hs as (cause & Hs).
  exists cause. split; [exact Hs|]. subst e. reflexivity.
Qed.

Lemma RefreshToken_wraps_verification_error_witness :
  run (RefreshToken sampleLib sampleCfg (refreshInput Sample.tokenForged))
      sampleWorld
  = (Err (ErrorfW "refresh token inválido: "
            (ErrorfW "erro ao parsear refresh token: "
               (JwtErrorW "token signature is invalid" ""
                  (LibError "signature is invalid")))), sampleWorld) /\
  Error (ErrorfW "refresh token inválido: "
           (ErrorfW "erro ao parsear refresh token: "
              (JwtErrorW "token signature is invalid" ""
                 (LibError "signature is invalid"))))
  = "refresh token inválido: "
      ++ Error (ErrorfW "erro ao parsear refresh token: "
                  (JwtErrorW "token signature is invalid" ""
                     (LibError "signature is invalid"))) /\
  (exists cause,
     ErrorfW "erro ao parsear refresh token: "
       (JwtErrorW "token signature is invalid" "" (LibError "signature is invalid"))
     = ErrorfW "erro ao parsear refresh token: " cause /\
     Error (ErrorfW "refresh token inválido: "
              (ErrorfW "erro ao parsear refresh token: "
                 (JwtErrorW "token signature is invalid" ""
                    (LibError "signature is invalid"))))
     = "refresh token inválido: erro ao parsear refresh token: " ++ Error cause) /\
  sameTables sampleWorld sampleWorld.
Proof.
  apply (RefreshToken_wraps_verification_error sampleLib sampleCfg
           Sample.tokenForged sampleWorld sampleWorld).
  - discriminate.
  - vm_compute. reflexivity.
Defined.

(** * Algorithm confusion *)

(** The names of the HMAC family. *)
Definition hmacNames : list string := ["HS256"; "HS384"; "HS512"].

(** The header of the token, as the parser reads it, names an algorithm
    that is not of the HMAC family. *)
Definition declaresNonHMAC {C : Type} (r : result (Segments.t C)) : Prop :=
  exists seg alg,
    r = Ok seg /\ Segments.alg seg = Some alg /\ ~ In alg hmacNames.

Lemma GetSigningMethod_HMAC (alg : string) (m : SigningMethod.t) :
  GetSigningMethod alg = Some m ->
  SigningMethod.Family m = SigningMethodHMAC -> In alg hmacNames.
Proof.
  unfold GetSigningMethod, registeredMethods, hmacNames. cbn [find fst].
  repeat match goal with
         | |- context [String.eqb ?a alg] =>
             destruct (String.eqb_spec a alg) as [<-|?]
         end;
    intros [= <-]; cbn; intros Hf; try discriminate; auto.
Qed.

Lemma ParseWithClaims_rejects_non_HMAC {C : Type} (lib : Lib)
    (segments : string -> result (Segments.t C))
    (registered : C -> RegisteredClaims.t) (tokenString secret : string) :
  declaresNonHMAC (segments tokenString) ->
  exists err,
    ParseWithClaims lib segments registered tokenString (keyFunc secret)
    = Ret (Err err).
Proof.
  intros (seg & alg & Hseg & Halg & Hnot).
  unfold ParseWithClaims. rewrite Hseg, Halg.
  destruct (GetSigningMethod alg) as [m|] eqn:Hm; [|eauto].
  destruct (jwt_DecodeSegment lib (Segments.signature seg)); [|eauto].
  unfold keyFunc. cbn [Token.Method Token.HeaderAlg].
  destruct (SigningMethod.Family m) eqn:Hfam; eauto.
  exfalso. apply Hnot. exact (GetSigningMethod_HMAC alg m Hm Hfam).
Qed.

(** C6: a token whose header names an algorithm outside the HMAC family is
    refused by both validators, whatever its payload, signature and
    expiry: each returns an error at once, before the signature is looked
    at or the clock is read, and so in every world. *)
Theorem non_HMAC_token_is_rejected (lib : Lib) (tokenString secret : string) :
  (declaresNonHMAC (jwt_segmentsAccess lib tokenString) ->
   exists err,
     ValidateAccessToken lib tokenString secret = Ret (Err err) /\
     forall w, run (ValidateAccessToken lib tokenString secret) w = (Err err, w))
  /\
  (declaresNonHMAC (jwt_segmentsRefresh lib tokenString) ->
   exists err,
     ValidateRefreshToken lib tokenString secret = Ret (Err err) /\
     forall w, run (ValidateRefreshToken lib tokenString secret) w = (Err err, w)).
Proof.
  split; intros H.
  - destruct (ParseWithClaims_rejects_non_HMAC lib (jwt_segmentsAccess lib)
                Claims.Registered tokenString secret H) as (err & Hp).
    unfold ValidateAccessToken. rewrite Hp. cbn.
    eexists. split; [reflexivity | intros w; reflexivity].
  - destruct (ParseWithClaims_rejects_non_HMAC lib (jwt_segmentsRefresh lib)
                (fun c => c) tokenString secret H) as (err & Hp).
    unfold ValidateRefreshToken. rewrite Hp. cbn.
    eexists. split; [reflexivity | intros w; reflexivity].
Qed.

Lemma non_HMAC_token_is_rejected_witness :
  (exists err,
     ValidateAccessToken sampleLib Sample.accessTokenNone Sample.accessSecret
     = Ret (Err err) /\
     forall w,
       run (ValidateAccessToken sampleLib Sample.accessTokenNone
              Sample.accessSecret) w = (Err err, w))
  /\
  (exists err,
     ValidateRefreshToken sampleLib Sample.accessTokenNone Sample.accessSecret
     = Ret (Err err) /\
     forall w,
       run (ValidateRefreshToken sampleLib Sample.accessTokenNone
              Sample.accessSecret) w = (Err err, w)).
Proof.
  split.
  - apply (proj1 (non_HMAC_token_is_rejected sampleLib Sample.accessTokenNone
                    Sample.accessSecret)).
    eexists. exists "none". split; [vm_compute; reflexivity|].
    split; [reflexivity|].
    cbn. intros [H|[H|[H|[]]]]; discriminate.
  - apply (proj2 (non_HMAC_token_is_rejected sampleLib Sample.accessTokenNone
                    Sample.accessSecret)).
    eexists. exists "none". split; [vm_compute; reflexivity|].
    split; [reflexivity|].
    cbn. intros [H|[H|[H|[]]]]; discriminate.
Defined.

(** * Password hashing and verification *)

Lemma HashPassword_Ok (lib : Lib) (p h : string) (w w' : World.t) :
  run (HashPassword lib p) w = (Ok h, w') ->
  exists salt digest,
    bcrypt_digest lib 12 salt (keyStream p) = Ok digest /\
    h = bcrypt_Hash lib 12 salt digest.
Proof.
  intros H. unfold HashPassword, GenerateFromPassword in H.
  destruct (72 <? len p)%Z; [cbn in H; discriminate|].
  cbn -[keyStream bytesOfN firstn] in H.
  match type of H with
  | context [bcrypt_digest lib 12 ?s (keyStream p)] =>
      remember s as salt eqn:Hsalt; clear Hsalt
  end.
  remember (keyStream p) as key eqn:Hkey.
  destruct (bcrypt_digest lib 12 salt key) as [d|e] eqn:Hd;
    cbn in H; [|discriminate].
  injection H as Hh _. exists salt, d. split; [exact Hd | now symmetry].
Qed.

Lemma CheckPassword_same_keyStream (lib : Lib) (p q h : string) (w w' : World.t) :
  run (HashPassword lib p) w = (Ok h, w') ->
  keyStream q = keyStream p ->
  CheckPassword lib q h = true.
Proof.
  intros Hh Hk. apply HashPassword_Ok in Hh.
  destruct Hh as (salt & digest & Hd & ->).
  unfold CheckPassword, CompareHashAndPassword.
  rewrite (@bcrypt_newFromHash_Hash lib 12 salt (keyStream p) digest Hd).
  rewrite Hk, Hd, String.eqb_refl. reflexivity.
Qed.

(** A password of 72 bytes and the same password with one more byte. *)
Definition password72 : string :=
  "aaaaaaaaaaaaaaaaaaaaaaaaaaaaaaaaaaaaaaaaaaaaaaaaaaaaaaaaaaaaaaaaaaaaaaaa".
Definition password73 : string := password72 ++ "b".

(** C8, as stated, fails: [password73] differs from [password72], yet it
    verifies against every digest that hashing [password72] produces,
    whatever the library's digest function, salt and world; and hashing
    [password72] does produce a digest. *)
Lemma CheckPassword_accepts_another_password :
  password73 <> password72 /\
  (forall (lib : Lib) (w w' : World.t) (h : string),
     run (HashPassword lib password72) w = (Ok h, w') ->
     CheckPassword lib password73 h = true) /\
  isOk (fst (run (HashPassword sampleLib password72) emptyWorld)) = true.
Proof.
  split; [discriminate|]. split.
  - intros lib w w' h Hh.
    apply (CheckPassword_same_keyStream lib password72 password73 h w w' Hh).
    vm_compute. reflexivity.
  - vm_compute. reflexivity.
Qed.

(** C8, amended: when hashing [p] succeeds with the stored text [h],
    verifying [p] against [h] is true; verifying [q] against [h] is true
    exactly when the digest computed for the key stream of [q], with the
    cost and salt stored in [h], gives the same stored text, which is the
    case for every [q] with the key stream of [p]; and verification is a
    boolean in every case: a mismatch or a failure of the library for [q]
    gives [false]. *)
Theorem CheckPassword_after_HashPassword (lib : Lib) (p h : string)
    (w w' : World.t) :
  run (HashPassword lib p) w = (Ok h, w') ->
  CheckPassword lib p h = true /\
  (forall q, keyStream q = keyStream p -> CheckPassword lib q h = true) /\
  (exists salt digest,
     h = bcrypt_Hash lib 12 salt digest /\
     forall q,
       CheckPassword lib q h = true <->
       exists other,
         bcrypt_digest lib 12 salt (keyStream q) = Ok other /\
         bcrypt_Hash lib 12 salt other = h) /\
  (forall q, CheckPassword lib q h = false <->
             CompareHashAndPassword lib h q <> None).
Proof.
  intros Hh. split; [|split; [|split]].
  - exact (CheckPassword_same_keyStream lib p p h w w' Hh eq_refl).
  - intros q Hq. exact (CheckPassword_same_keyStream lib p q h w w' Hh Hq).
  - destruct (HashPassword_Ok lib p h w w' Hh) as (salt & digest & Hd & ->).
    exists salt, digest. split; [reflexivity|]. intros q.
    unfold CheckPassword, CompareHashAndPassword.
    rewrite (@bcrypt_newFromHash_Hash lib 12 salt (keyStream p) digest Hd).
    destruct (bcrypt_digest lib 12 salt (keyStream q)) as [other|e].
    + destruct (String.eqb_spec (bcrypt_Hash lib 12 salt digest)
                  (bcrypt_Hash lib 12 salt other)) as [He|Hne].
      * split; [intros _; exists other; split; congruence | reflexivity].
      * split; [discriminate|]. intros (o & [= <-] & Ho). congruence.
    + split; [discriminate|]. intros (o & Ho & _). discriminate.
  - intros q. unfold CheckPassword.
    destruct (CompareHashAndPassword lib h q); split; congruence.
Qed.

Lemma CheckPassword_after_HashPassword_witness :
  CheckPassword sampleLib "secret123" aliceHash = true /\
  (forall q, keyStream q = keyStream "secret123" ->
             CheckPassword sampleLib q aliceHash = true) /\
  (exists salt digest,
     aliceHash = bcrypt_Hash sampleLib 12 salt digest /\
     forall q,
       CheckPassword sampleLib q aliceHash = true <->
       exists other,
         bcrypt_digest sampleLib 12 salt (keyStream q) = Ok other /\
         bcrypt_Hash sampleLib 12 salt other = aliceHash) /\
  (forall q, CheckPassword sampleLib q aliceHash = false <->
             CompareHashAndPassword sampleLib aliceHash q <> None).
Proof.
  apply (CheckPassword_after_HashPassword sampleLib "secret123" aliceHash
           emptyWorld
           (snd (run (HashPassword sampleLib "secret123") emptyWorld))).
  vm_compute. reflexivity.
Defined.

Example wrong_password_is_false :
  CheckPassword sampleLib "wrong" aliceHash = false /\
  CheckPassword sampleLib "secret123" "not a bcrypt text" = false.
Proof. split; vm_compute; reflexivity. Qed.

(** * Further properties of the session operations *)

Lemma find_filter_other (t t' : string) (rows : list RefreshRow.t) :
  t' <> t ->
  find (fun r => String.eqb (RefreshRow.Token r) t')
       (filter (fun r => negb (String.eqb (RefreshRow.Token r) t)) rows)
  = find (fun r => String.eqb (RefreshRow.Token r) t') rows.
Proof.
  intros Hne. induction rows as [|r rows IH]; simpl; [reflexivity|].
  destruct (String.eqb_spec (RefreshRow.Token r) t) as [Ht|Ht]; simpl.
  - destruct (String.eqb_spec (RefreshRow.Token r) t') as [Ht'|Ht'];
      [congruence | exact IH].
  - now rewrite IH.
Qed.


(** X1: a successful [Logout t] revokes the sessions of [t] and nothing
    else: the session found for any other token is the one found before,
    every row left was there before, and the accounts are untouched. *)
Theorem Logout_revokes_only_its_token (t : string) (w w' : World.t) :
  run (Logout t) w = (None, w') ->
  sessionByToken t w' = None /\
  (forall t', t' <> t -> sessionByToken t' w' = sessionByToken t' w) /\
  (forall row, In row (World.refresh_tokens w') ->
               In row (World.refresh_tokens w) /\ RefreshRow.Token row <> t) /\
  World.users w' = World.users w.
Proof.
  intros H. apply Logout_success in H. destruct H as (Ht & _ & Hu & Hr).
  unfold sessionByToken. rewrite Hr. split; [apply sessionByToken_filter|].
  split; [intros t' Hne; now apply find_filter_other|].
  split; [|exact Hu].
  intros row Hin. apply filter_In in Hin. destruct Hin as [Hin Hb].
  split; [exact Hin|]. apply negb_true_iff in Hb. now apply String.eqb_neq.
Qed.

(** The second session of alice, under the expired sample token. *)
Definition aliceOldSession : RefreshRow.t :=
  {| RefreshRow.ID := {| UUID.Bytes := bytesOfN 3; UUID.Valid := true |};
     RefreshRow.UserID := User.ID alice;
     RefreshRow.Token := Sample.tokenExpired;
     RefreshRow.ExpiresAt :=
       {| Timestamp.Time := Sample.seconds 1600000000; Timestamp.Valid := true |};
     RefreshRow.CreatedAt :=
       {| Timestamp.Time := Sample.seconds 1500000000; Timestamp.Valid := true |} |}.

Definition twoSessions : World.t :=
  {| World.users := [alice];
     World.refresh_tokens := [aliceOldSession; aliceSession];
     World.clock := Sample.seconds 1700000100;
     World.entropy := 100;
     World.faults := [] |}.

Lemma Logout_revokes_only_its_token_witness :
  sessionByToken Sample.tokenLive (snd (run (Logout Sample.tokenLive) twoSessions))
  = None /\
  (forall t', t' <> Sample.tokenLive ->
     sessionByToken t' (snd (run (Logout Sample.tokenLive) twoSessions))
     = sessionByToken t' twoSessions) /\
  (forall row,
     In row (World.refresh_tokens (snd (run (Logout Sample.tokenLive) twoSessions))) ->
     In row (World.refresh_tokens twoSessions) /\
     RefreshRow.Token row <> Sample.tokenLive) /\
  World.users (snd (run (Logout Sample.tokenLive) twoSessions))
  = World.users twoSessions.
Proof.
  apply (Logout_revokes_only_its_token Sample.tokenLive twoSessions).
  vm_compute. reflexivity.
Defined.



(** * Running the service step by step *)

(** The accounts and the sessions are the same in both worlds. *)
Definition sameRows (w w' : World.t) : Prop :=
  World.users w' = World.users w /\
  World.refresh_tokens w' = World.refresh_tokens w.

Lemma sameRows_refl (w : World.t) : sameRows w w.
Proof. split; reflexivity. Qed.

Lemma sameRows_trans (w1 w2 w3 : World.t) :
  sameRows w1 w2 -> sameRows w2 w3 -> sameRows w1 w3.
Proof. intros [a b] [c d]. split; congruence. Qed.

Lemma sameRows_afterQuery (w : World.t) : sameRows w (afterQuery w).
Proof. split; reflexivity. Qed.

Lemma sameTables_sameRows (w w' : World.t) : sameTables w w' -> sameRows w w'.
Proof. intros (a & b & _). now split. Qed.

(** The answer to a look-up: the pending fault, or the row found. *)
Definition lookedUp {A : Type} (found : option A) (w : World.t) : result A :=
  match nextFault w with
  | Some err => Err err
  | None => oneRow found
  end.

Lemma run_GetUserByEmail {A} (email : string) (k : result User.t -> Prog A)
    (w : World.t) :
  run (Vis (GetUserByEmail email) k) w
  = run (k (lookedUp (userByEmail email w) w)) (afterQuery w).
Proof.
  cbn. unfold handle, lookedUp. cbn. destruct (nextFault w); reflexivity.
Qed.

Lemma run_GetUserByUsername {A} (name : string) (k : result User.t -> Prog A)
    (w : World.t) :
  run (Vis (GetUserByUsername name) k) w
  = run (k (lookedUp (userByUsername name w) w)) (afterQuery w).
Proof.
  cbn. unfold handle, lookedUp. cbn. destruct (nextFault w); reflexivity.
Qed.

Lemma run_GetUserByID {A} (id : UUID.t) (k : result User.t -> Prog A)
    (w : World.t) :
  run (Vis (GetUserByID id) k) w
  = run (k (lookedUp (userByID id w) w)) (afterQuery w).
Proof.
  cbn. unfold handle, lookedUp. cbn. destruct (nextFault w); reflexivity.
Qed.

Lemma run_GetRefreshToken {A} (t : string) (k : result RefreshRow.t -> Prog A)
    (w : World.t) :
  run (Vis (GetRefreshToken t) k) w
  = run (k (lookedUp (sessionByToken t w) w)) (afterQuery w).
Proof.
  cbn. unfold handle, lookedUp. cbn. destruct (nextFault w); reflexivity.
Qed.

Lemma lookedUp_Ok {A : Type} (found : option A) (w : World.t) (row : A) :
  lookedUp found w = Ok row -> found = Some row /\ nextFault w = None.
Proof.
  unfold lookedUp. destruct (nextFault w); [discriminate|].
  destruct found; cbn; [intros [= ->]; auto | discriminate].
Qed.

(** The insert of an account: what a success means. *)
Lemma handle_CreateUser_Ok (arg : CreateUserParams.t) (w w' : World.t)
    (user : User.t) :
  handle (CreateUser arg) w = (Ok user, w') ->
  userByEmail (CreateUserParams.Email arg) w = None /\
  userByUsername (CreateUserParams.Username arg) w = None /\
  World.users w' = (World.users w ++ [user])%list /\
  World.refresh_tokens w' = World.refresh_tokens w /\
  User.Username user = CreateUserParams.Username arg /\
  User.Email user = CreateUserParams.Email arg /\
  User.PasswordHash user = CreateUserParams.PasswordHash arg.
Proof.
  unfold handle. cbn -[bytesOfN]. destruct (nextFault w); [discriminate|].
  unfold userByEmail, userByUsername. cbn -[bytesOfN].
  destruct (find _ (World.users w)); [discriminate|].
  destruct (find _ (World.users w)); [discriminate|].
  intros [= <- <-]. cbn. repeat split.
Qed.

Lemma handle_CreateUser_Err (arg : CreateUserParams.t) (w w' : World.t)
    (err : error) :
  handle (CreateUser arg) w = (Err err, w') -> sameRows w w'.
Proof.
  unfold handle. cbn -[bytesOfN]. destruct (nextFault w).
  - intros [= _ <-]. apply sameRows_afterQuery.
  - unfold userByEmail, userByUsername. cbn -[bytesOfN].
    destruct (find _ (World.users w)); [intros [= _ <-]; apply sameRows_afterQuery|].
    destruct (find _ (World.users w)); [intros [= _ <-]; apply sameRows_afterQuery|].
    discriminate.
Qed.

Lemma generateTokens_frame (lib : Lib) (cfg : JWTConfig.t) (uid : UUID.t)
    (name email : string) (w : World.t) :
  sameTables w (snd (run (generateTokens lib cfg uid name email) w)).
Proof.
  unfold generateTokens, GenerateAccessToken, GenerateRefreshToken, sameTables.
  cbn -[NewNumericDate bytesOfN].
  repeat (break_match; cbn -[NewNumericDate bytesOfN]); auto.
Qed.

(** [saveRefreshToken]: on success one row is appended, with the owner and
    the token given; on failure nothing is. *)
Lemma saveRefreshToken_run (cfg : JWTConfig.t) (uid : UUID.t) (token : string)
    (w : World.t) :
  (exists row,
     fst (run (saveRefreshToken cfg uid token) w) = None /\
     nextFault w = None /\
     World.refresh_tokens (snd (run (saveRefreshToken cfg uid token) w))
     = (World.refresh_tokens w ++ [row])%list /\
     World.users (snd (run (saveRefreshToken cfg uid token) w)) = World.users w /\
     RefreshRow.UserID row = uid /\ RefreshRow.Token row = token /\
     Timestamp.Time (RefreshRow.ExpiresAt row)
     = (World.clock w + JWTConfig.RefreshExpiration cfg)%Z) \/
  (exists err,
     fst (run (saveRefreshToken cfg uid token) w) = Some err /\
     nextFault w = Some err /\
     sameRows w (snd (run (saveRefreshToken cfg uid token) w))).
Proof.
  unfold saveRefreshToken, handle, nextFault. cbn -[bytesOfN].
  destruct (World.faults w) as [|[err|] fs]; cbn -[bytesOfN].
  - left. eexists. repeat split.
  - right. exists err. repeat split.
  - left. eexists. repeat split.
Qed.

(** The public view of an account row that [Register] and [Login] return:
    every column but the password hash. *)
Definition userResponseOf (lib : Lib) (user : User.t) : UserResponse.t :=
  {| UserResponse.ID := UUIDToString lib (User.ID user);
     UserResponse.Username := User.Username user;
     UserResponse.Email := User.Email user;
     UserResponse.CreatedAt :=
       time_Format_RFC3339 lib (Timestamp.Time (User.CreatedAt user)) |}.

Lemma Register_Ok (lib : Lib) (cfg : JWTConfig.t) (input : RegisterInput.t)
    (w w' : World.t) (resp : AuthResponse.t) :
  run (Register lib cfg input) w = (Ok resp, w') ->
  exists user row,
    validateRegisterInput input = None /\
    userByEmail (RegisterInput.Email input) w = None /\
    userByUsername (RegisterInput.Username input) w = None /\
    World.users w' = (World.users w ++ [user])%list /\
    World.refresh_tokens w' = (World.refresh_tokens w ++ [row])%list /\
    User.Username user = RegisterInput.Username input /\
    User.Email user = RegisterInput.Email input /\
    CheckPassword lib (RegisterInput.Password input) (User.PasswordHash user) = true /\
    RefreshRow.UserID row = User.ID user /\
    RefreshRow.Token row = TokenPair.RefreshToken (AuthResponse.Tokens resp) /\
    AuthResponse.User resp = userResponseOf lib user.
Proof.
  intros H. unfold Register in H.
  destruct (validateRegisterInput input) as [e|] eqn:Hv; [cbn in H; discriminate|].
  cbn [bind trigger] in H.
  rewrite run_GetUserByEmail in H.
  destruct (lookedUp _ w) as [u|e1]; [cbn in H; discriminate|].
  destruct (isErrNoRows e1); cbn [negb] in H; [|cbn in H; discriminate].
  rewrite run_GetUserByUsername in H.
  destruct (lookedUp _ (afterQuery w)) as [u|e2]; [cbn in H; discriminate|].
  destruct (isErrNoRows e2); cbn [negb] in H; [|cbn in H; discriminate].
  rewrite run_bind in H.
  pose proof (HashPassword_frame lib (RegisterInput.Password input)
                (afterQuery (afterQuery w))) as Hfr.
  destruct (run (HashPassword lib (RegisterInput.Password input))
              (afterQuery (afterQuery w))) as [[hash|e3] w3] eqn:Hh;
    [|cbn in H; discriminate].
  apply sameTables_sameRows in Hfr. cbn [snd] in Hfr.
  cbn [run] in H.
  destruct (handle (CreateUser _) w3) as [[user|e4] w4] eqn:Hc;
    [|cbn in H; discriminate].
  apply handle_CreateUser_Ok in Hc. cbn in Hc.
  destruct Hc as (Hce & Hcu & Hu4 & Hr4 & Hname & Hmail & Hhash).
  rewrite run_bind in H.
  pose proof (generateTokens_frame lib cfg (User.ID user) (User.Username user)
                (User.Email user) w4) as Hg.
  destruct (run (generateTokens lib cfg (User.ID user) (User.Username user)
                   (User.Email user)) w4) as [[tokens|e5] w5];
    [|cbn in H; discriminate].
  apply sameTables_sameRows in Hg. cbn [snd] in Hg.
  rewrite run_bind in H.
  destruct (saveRefreshToken_run cfg (User.ID user)
              (TokenPair.RefreshToken tokens) w5)
    as [(row & Hs & _ & Hr6 & Hu6 & Hrow1 & Hrow2 & _) | (e6 & Hs & _)];
    destruct (run (saveRefreshToken cfg (User.ID user)
                     (TokenPair.RefreshToken tokens)) w5) as [saved w6];
    cbn [fst snd] in *; subst saved; [|cbn in H; discriminate].
  cbn in H. injection H as <- <-.
  destruct Hfr as [Hu3 Hr3]. destruct Hg as [Hu5 Hr5].
  unfold userByEmail, userByUsername in *. rewrite Hu3 in Hce, Hcu.
  exists user, row. cbn.
  repeat split; try assumption; try congruence.
  - rewrite Hu6, Hu5, Hu4, Hu3. reflexivity.
  - rewrite Hr6, Hr5, Hr4, Hr3. reflexivity.
  - rewrite Hhash.
    apply (CheckPassword_same_keyStream lib (RegisterInput.Password input)
             (RegisterInput.Password input) hash _ _ Hh eq_refl).
Qed.

Lemma find_app_none {A} (f : A -> bool) (l1 l2 : list A) :
  find f l1 = None -> find f (l1 ++ l2)%list = find f l2.
Proof.
  induction l1 as [|a l1 IH]; cbn; [reflexivity|].
  destruct (f a); [discriminate | exact IH].
Qed.

Lemma lookedUp_found {A : Type} (found : option A) (w : World.t) :
  nextFault w = None -> lookedUp found w = oneRow found.
Proof. unfold lookedUp. now intros ->. Qed.

Lemma Register_email_taken (lib : Lib) (cfg : JWTConfig.t)
    (input : RegisterInput.t) (w : World.t) (u : User.t) :
  validateRegisterInput input = None ->
  nextFault w = None ->
  userByEmail (RegisterInput.Email input) w = Some u ->
  run (Register lib cfg input) w = (Err emailConflict, afterQuery w).
Proof.
  intros Hv Hf Hu. unfold Register. rewrite Hv. cbn [bind trigger].
  rewrite run_GetUserByEmail, (lookedUp_found _ w Hf), Hu. reflexivity.
Qed.

Lemma Register_username_taken (lib : Lib) (cfg : JWTConfig.t)
    (input : RegisterInput.t) (w : World.t) (u : User.t) :
  validateRegisterInput input = None ->
  nextFault w = None -> nextFault (afterQuery w) = None ->
  userByEmail (RegisterInput.Email input) w = None ->
  userByUsername (RegisterInput.Username input) w = Some u ->
  run (Register lib cfg input) w
  = (Err usernameConflict, afterQuery (afterQuery w)).
Proof.
  intros Hv Hf Hf2 He Hu. unfold Register. rewrite Hv. cbn [bind trigger].
  rewrite run_GetUserByEmail, (lookedUp_found _ w Hf), He. cbn [oneRow isErrNoRows negb].
  rewrite run_GetUserByUsername, (lookedUp_found _ _ Hf2).
  change (userByUsername (RegisterInput.Username input) (afterQuery w))
    with (userByUsername (RegisterInput.Username input) w).
  rewrite Hu. reflexivity.
Qed.

(** After a successful registration the new account is the one found
    under its e-mail and under its username. *)
Lemma Register_Ok_found (lib : Lib) (cfg : JWTConfig.t) (input : RegisterInput.t)
    (w w' : World.t) (resp : AuthResponse.t) :
  run (Register lib cfg input) w = (Ok resp, w') ->
  exists user,
    userByEmail (RegisterInput.Email input) w' = Some user /\
    userByUsername (RegisterInput.Username input) w' = Some user /\
    CheckPassword lib (RegisterInput.Password input) (User.PasswordHash user)
    = true /\
    AuthResponse.User resp = userResponseOf lib user /\
    RegisterInput.Email input <> "" /\ RegisterInput.Password input <> "".
Proof.
  intros H. apply Register_Ok in H.
  destruct H as (user & row & Hv & He & Hn & Hu & _ & Hname & Hmail & Hck & _ & _ & Hresp).
  exists user. unfold userByEmail, userByUsername in *. rewrite Hu.
  rewrite (find_app_none _ _ _ He), (find_app_none _ _ _ Hn). cbn.
  rewrite Hname, Hmail, !String.eqb_refl.
  repeat split; try assumption.
  - intros Hempty. apply validateRegisterInput_None in Hv. apply Hv.
    do 3 right. left. rewrite Hempty. intros (pre & post & Hp).
    destruct pre; discriminate.
  - intros Hempty. apply validateRegisterInput_None in Hv. apply Hv.
    do 5 right. now left.
Qed.

Lemma Login_known_account (lib : Lib) (cfg : JWTConfig.t) (input : LoginInput.t)
    (w : World.t) (user : User.t) :
  LoginInput.Email input <> "" -> LoginInput.Password input <> "" ->
  nextFault w = None ->
  userByEmail (LoginInput.Email input) w = Some user ->
  CheckPassword lib (LoginInput.Password input) (User.PasswordHash user) = true ->
  (exists resp,
     fst (run (Login lib cfg input) w) = Ok resp /\
     AuthResponse.User resp = userResponseOf lib user) \/
  (exists cause,
     fst (run (Login lib cfg input) w) = Err (ErrorfW "erro ao gerar tokens: " cause)) \/
  (exists cause,
     fst (run (Login lib cfg input) w)
     = Err (ErrorfW "erro ao salvar refresh token: " cause)).
Proof.
  intros He Hp Hf Hu Hck. unfold Login.
  apply String.eqb_neq in He, Hp. rewrite He, Hp. cbn [orb bind trigger].
  rewrite run_GetUserByEmail, (lookedUp_found _ w Hf), Hu. cbn [oneRow].
  rewrite Hck. cbn [negb]. rewrite run_bind.
  destruct (run (generateTokens lib cfg (User.ID user) (User.Username user)
                   (User.Email user)) (afterQuery w)) as [[tokens|e5] w5];
    [|right; left; exists e5; reflexivity].
  rewrite run_bind.
  destruct (run (saveRefreshToken cfg (User.ID user)
                   (TokenPair.RefreshToken tokens)) w5) as [[e6|] w6].
  - right. right. exists e6. reflexivity.
  - left. eexists. split; reflexivity.
Qed.

(** X3: a successful [Register] has passed validation and found neither
    the e-mail nor the username taken; it appends one account row with the
    name and e-mail of the input and a stored hash that verifies the
    password, appends one session row owned by that account whose token is
    the refresh token returned, and returns the public view of the new
    row. *)
Theorem Register_creates_account_and_session (lib : Lib) (cfg : JWTConfig.t)
    (input : RegisterInput.t) (w w' : World.t) (resp : AuthResponse.t) :
  run (Register lib cfg input) w = (Ok resp, w') ->
  exists user row,
    validateRegisterInput input = None /\
    userByEmail (RegisterInput.Email input) w = None /\
    userByUsername (RegisterInput.Username input) w = None /\
    World.users w' = (World.users w ++ [user])%list /\
    World.refresh_tokens w' = (World.refresh_tokens w ++ [row])%list /\
    User.Username user = RegisterInput.Username input /\
    User.Email user = RegisterInput.Email input /\
    CheckPassword lib (RegisterInput.Password input) (User.PasswordHash user) = true /\
    RefreshRow.UserID row = User.ID user /\
    RefreshRow.Token row = TokenPair.RefreshToken (AuthResponse.Tokens resp) /\
    AuthResponse.User resp = userResponseOf lib user /\
    UserResponse.Username (AuthResponse.User resp) = RegisterInput.Username input /\
    UserResponse.Email (AuthResponse.User resp) = RegisterInput.Email input.
Proof.
  intros H. apply Register_Ok in H.
  destruct H as (user & row & Hv & He & Hn & Hu & Hr & Hname & Hmail & Hck
                 & Hown & Htok & Hresp).
  exists user, row. repeat split; try assumption.
  - rewrite Hresp. cbn. exact Hname.
  - rewrite Hresp. cbn. exact Hmail.
Qed.

(** The answer of the sample installation to alice's registration. *)
Definition aliceResponse : AuthResponse.t :=
  {| AuthResponse.User :=
       {| UserResponse.ID := "00000000-0000-0000-0000-000000000002";
          UserResponse.Username := "alice";
          UserResponse.Email := "alice@example.com";
          UserResponse.CreatedAt := "2023-11-14T22:13:20Z" |};
     AuthResponse.Tokens :=
       {| TokenPair.AccessToken :=
            Sample.headerHS256 ++ ".00000000-0000-0000-0000-000000000003.c2FtcGxl";
          TokenPair.RefreshToken :=
            Sample.headerHS256 ++ ".00000000-0000-0000-0000-000000000004.c2FtcGxl" |} |}.

Definition afterAlice : World.t :=
  snd (run (Register sampleLib sampleCfg aliceInput) emptyWorld).

Lemma Register_alice :
  run (Register sampleLib sampleCfg aliceInput) emptyWorld
  = (Ok aliceResponse, afterAlice).
Proof. vm_compute. reflexivity. Qed.

Lemma Register_creates_account_and_session_witness :
  exists user row,
    validateRegisterInput aliceInput = None /\
    userByEmail (RegisterInput.Email aliceInput) emptyWorld = None /\
    userByUsername (RegisterInput.Username aliceInput) emptyWorld = None /\
    World.users afterAlice = (World.users emptyWorld ++ [user])%list /\
    World.refresh_tokens afterAlice
    = (World.refresh_tokens emptyWorld ++ [row])%list /\
    User.Username user = RegisterInput.Username aliceInput /\
    User.Email user = RegisterInput.Email aliceInput /\
    CheckPassword sampleLib (RegisterInput.Password aliceInput)
      (User.PasswordHash user) = true /\
    RefreshRow.UserID row = User.ID user /\
    RefreshRow.Token row = TokenPair.RefreshToken (AuthResponse.Tokens aliceResponse) /\
    AuthResponse.User aliceResponse = userResponseOf sampleLib user /\
    UserResponse.Username (AuthResponse.User aliceResponse)
    = RegisterInput.Username aliceInput /\
    UserResponse.Email (AuthResponse.User aliceResponse)
    = RegisterInput.Email aliceInput.
Proof.
  apply (Register_creates_account_and_session sampleLib sampleCfg aliceInput
           emptyWorld afterAlice aliceResponse).
  vm_compute. reflexivity.
Defined.

(** X4: a failed [Register] never adds a session; it leaves the accounts
    as they were unless the failure came after the insert (from the token
    generation or from saving the session), in which case the new account
    row stays in the table although the caller got an error. *)
Theorem Register_failure_effects (lib : Lib) (cfg : JWTConfig.t)
    (input : RegisterInput.t) (w w' : World.t) (err : error) :
  run (Register lib cfg input) w = (Err err, w') ->
  World.refresh_tokens w' = World.refresh_tokens w /\
  (World.users w' = World.users w \/
   exists user cause,
     World.users w' = (World.users w ++ [user])%list /\
     User.Username user = RegisterInput.Username input /\
     User.Email user = RegisterInput.Email input /\
     (err = ErrorfW "erro ao gerar tokens: " cause \/
      err = ErrorfW "erro ao salvar refresh token: " cause)).
Proof.
  intros H. unfold Register in H.
  destruct (validateRegisterInput input) as [e|] eqn:Hv;
    [cbn in H; injection H as _ <-; auto|].
  cbn [bind trigger] in H.
  rewrite run_GetUserByEmail in H.
  destruct (lookedUp _ w) as [u|e1]; [cbn in H; injection H as _ <-; auto|].
  destruct (isErrNoRows e1); cbn [negb] in H;
    [|cbn in H; injection H as _ <-; auto].
  rewrite run_GetUserByUsername in H.
  destruct (lookedUp _ (afterQuery w)) as [u|e2];
    [cbn in H; injection H as _ <-; auto|].
  destruct (isErrNoRows e2); cbn [negb] in H;
    [|cbn in H; injection H as _ <-; auto].
  rewrite run_bind in H.
  pose proof (HashPassword_frame lib (RegisterInput.Password input)
                (afterQuery (afterQuery w))) as Hfr.
  destruct (run (HashPassword lib (RegisterInput.Password input))
              (afterQuery (afterQuery w))) as [[hash|e3] w3] eqn:Hh;
    apply sameTables_sameRows in Hfr; cbn [snd] in Hfr;
    destruct Hfr as [Hu3 Hr3]; change (World.users w3 = World.users w) in Hu3;
    change (World.refresh_tokens w3 = World.refresh_tokens w) in Hr3;
    [|cbn in H; injection H as _ <-; auto].
  cbn [run] in H.
  destruct (handle (CreateUser _) w3) as [[user|e4] w4] eqn:Hc.
  2:{ apply handle_CreateUser_Err in Hc. destruct Hc as [Hu4 Hr4].
      cbn in H. injection H as _ <-. split; [congruence | left; congruence]. }
  apply handle_CreateUser_Ok in Hc. cbn in Hc.
  destruct Hc as (_ & _ & Hu4 & Hr4 & Hname & Hmail & _).
  rewrite run_bind in H.
  pose proof (generateTokens_frame lib cfg (User.ID user) (User.Username user)
                (User.Email user) w4) as Hg.
  destruct (run (generateTokens lib cfg (User.ID user) (User.Username user)
                   (User.Email user)) w4) as [[tokens|e5] w5];
    apply sameTables_sameRows in Hg; cbn [snd] in Hg; destruct Hg as [Hu5 Hr5].
  2:{ cbn in H. injection H as <- <-. split; [congruence|].
      right. exists user, e5. repeat split; try assumption; [congruence | now left]. }
  rewrite run_bind in H.
  destruct (saveRefreshToken_run cfg (User.ID user)
              (TokenPair.RefreshToken tokens) w5)
    as [(row & Hs & _) | (e6 & Hs & _ & Hu6 & Hr6)];
    destruct (run (saveRefreshToken cfg (User.ID user)
                     (TokenPair.RefreshToken tokens)) w5) as [saved w6];
    cbn [fst snd] in *; subst saved; [cbn in H; discriminate|].
  cbn in H. injection H as <- <-. split; [congruence|].
  right. exists user, e6. repeat split; try assumption; [congruence | now right].
Qed.

(** The store loses its connection after the insert of the account. *)
Definition connectionLost : error := LibError "conn closed".
Definition lostAfterInsert : World.t :=
  withFaults [None; None; None; Some connectionLost] emptyWorld.

Lemma Register_failure_effects_witness :
  World.refresh_tokens
    (snd (run (Register sampleLib sampleCfg aliceInput) lostAfterInsert))
  = World.refresh_tokens lostAfterInsert /\
  (World.users (snd (run (Register sampleLib sampleCfg aliceInput) lostAfterInsert))
   = World.users lostAfterInsert \/
   exists user cause,
     World.users (snd (run (Register sampleLib sampleCfg aliceInput) lostAfterInsert))
     = (World.users lostAfterInsert ++ [user])%list /\
     User.Username user = RegisterInput.Username aliceInput /\
     User.Email user = RegisterInput.Email aliceInput /\
     (ErrorfW "erro ao salvar refresh token: " connectionLost
      = ErrorfW "erro ao gerar tokens: " cause \/
      ErrorfW "erro ao salvar refresh token: " connectionLost
      = ErrorfW "erro ao salvar refresh token: " cause)).
Proof.
  apply (Register_failure_effects sampleLib sampleCfg aliceInput lostAfterInsert).
  vm_compute. reflexivity.
Defined.

Example Register_leaves_account_behind :
  fst (run (Register sampleLib sampleCfg aliceInput) lostAfterInsert)
  = Err (ErrorfW "erro ao salvar refresh token: " connectionLost) /\
  List.length
    (World.users (snd (run (Register sampleLib sampleCfg aliceInput) lostAfterInsert)))
  = 1 /\
  fst (run (Register sampleLib sampleCfg aliceInput)
         (snd (run (Register sampleLib sampleCfg aliceInput) lostAfterInsert)))
  = Err emailConflict.
Proof. repeat split; vm_compute; reflexivity. Qed.

(** X5: after a successful registration, a second valid registration
    with the same e-mail fails with the e-mail conflict, and one with
    another, unused e-mail but the same username fails with the username
    conflict; in both cases nothing is written.  The store answers the
    look-ups. *)
Theorem Register_again_conflicts (lib : Lib) (cfg : JWTConfig.t)
    (first second : RegisterInput.t) (w w1 : World.t) (resp : AuthResponse.t) :
  run (Register lib cfg first) w = (Ok resp, w1) ->
  validateRegisterInput second = None ->
  nextFault w1 = None ->
  (RegisterInput.Email second = RegisterInput.Email first ->
   run (Register lib cfg second) w1 = (Err emailConflict, afterQuery w1)) /\
  (RegisterInput.Username second = RegisterInput.Username first ->
   userByEmail (RegisterInput.Email second) w1 = None ->
   nextFault (afterQuery w1) = None ->
   run (Register lib cfg second) w1
   = (Err usernameConflict, afterQuery (afterQuery w1))).
Proof.
  intros H Hv Hf. apply Register_Ok_found in H.
  destruct H as (user & He & Hn & _). split.
  - intros Heq. apply (Register_email_taken lib cfg second w1 user Hv Hf).
    now rewrite Heq.
  - intros Heq Hfree Hf2.
    apply (Register_username_taken lib cfg second w1 user Hv Hf Hf2 Hfree).
    now rewrite Heq.
Qed.

Definition aliceAgain : RegisterInput.t :=
  {| RegisterInput.Username := "alice2";
     RegisterInput.Email := "alice@example.com";
     RegisterInput.Password := "another-secret" |}.

Definition aliceOtherMail : RegisterInput.t :=
  {| RegisterInput.Username := "alice";
     RegisterInput.Email := "alice@example.org";
     RegisterInput.Password := "another-secret" |}.

Lemma Register_again_conflicts_witness :
  run (Register sampleLib sampleCfg aliceAgain) afterAlice
  = (Err emailConflict, afterQuery afterAlice) /\
  run (Register sampleLib sampleCfg aliceOtherMail) afterAlice
  = (Err usernameConflict, afterQuery (afterQuery afterAlice)).
Proof.
  split.
  - apply (proj1 (Register_again_conflicts sampleLib sampleCfg aliceInput
                    aliceAgain emptyWorld afterAlice aliceResponse
                    Register_alice eq_refl eq_refl)).
    reflexivity.
  - apply (proj2 (Register_again_conflicts sampleLib sampleCfg aliceInput
                    aliceOtherMail emptyWorld afterAlice aliceResponse
                    Register_alice eq_refl eq_refl)).
    + reflexivity.
    + vm_compute. reflexivity.
    + reflexivity.
Defined.

(** X6: the credentials of a successful registration log in: [Login]
    with the registered e-mail and password finds the account and accepts
    the password, so it either succeeds, returning the same public view of
    the account as [Register] did, or fails for a reason of the
    infrastructure (token generation or saving the session), never with
    the input or credentials error. *)
Theorem Login_after_Register (lib : Lib) (cfg : JWTConfig.t)
    (input : RegisterInput.t) (w w1 : World.t) (resp : AuthResponse.t) :
  run (Register lib cfg input) w = (Ok resp, w1) ->
  nextFault w1 = None ->
  (exists again,
     fst (run (Login lib cfg
                 {| LoginInput.Email := RegisterInput.Email input;
                    LoginInput.Password := RegisterInput.Password input |}) w1)
     = Ok again /\
     AuthResponse.User again = AuthResponse.User resp) \/
  (exists cause,
     fst (run (Login lib cfg
                 {| LoginInput.Email := RegisterInput.Email input;
                    LoginInput.Password := RegisterInput.Password input |}) w1)
     = Err (ErrorfW "erro ao gerar tokens: " cause)) \/
  (exists cause,
     fst (run (Login lib cfg
                 {| LoginInput.Email := RegisterInput.Email input;
                    LoginInput.Password := RegisterInput.Password input |}) w1)
     = Err (ErrorfW "erro ao salvar refresh token: " cause)).
Proof.
  intros H Hf. apply Register_Ok_found in H.
  destruct H as (user & He & _ & Hck & Hresp & Hmail & Hpw).
  rewrite Hresp.
  apply (Login_known_account lib cfg _ w1 user); assumption.
Qed.

Definition aliceLogin : LoginInput.t :=
  {| LoginInput.Email := RegisterInput.Email aliceInput;
     LoginInput.Password := RegisterInput.Password aliceInput |}.

Lemma Login_after_Register_witness :
  (exists again,
     fst (run (Login sampleLib sampleCfg aliceLogin) afterAlice) = Ok again /\
     AuthResponse.User again = AuthResponse.User aliceResponse) \/
  (exists cause,
     fst (run (Login sampleLib sampleCfg aliceLogin) afterAlice)
     = Err (ErrorfW "erro ao gerar tokens: " cause)) \/
  (exists cause,
     fst (run (Login sampleLib sampleCfg aliceLogin) afterAlice)
     = Err (ErrorfW "erro ao salvar refresh token: " cause)).
Proof.
  exact (Login_after_Register sampleLib sampleCfg aliceInput emptyWorld
           afterAlice aliceResponse Register_alice eq_refl).
Defined.

Example Login_after_Register_succeeds :
  isOk (fst (run (Login sampleLib sampleCfg aliceLogin) afterAlice)) = true.
Proof. vm_compute. reflexivity. Qed.

(** X7: a successful [Login] has found the account of the e-mail and
    verified the password against its stored hash; it changes no account,
    keeps every session there was and appends exactly one, owned by the
    account, whose token is the refresh token returned. *)
Theorem Login_adds_one_session (lib : Lib) (cfg : JWTConfig.t)
    (input : LoginInput.t) (w w' : World.t) (resp : AuthResponse.t) :
  run (Login lib cfg input) w = (Ok resp, w') ->
  exists user row,
    LoginInput.Email input <> "" /\ LoginInput.Password input <> "" /\
    userByEmail (LoginInput.Email input) w = Some user /\
    CheckPassword lib (LoginInput.Password input) (User.PasswordHash user) = true /\
    World.users w' = World.users w /\
    World.refresh_tokens w' = (World.refresh_tokens w ++ [row])%list /\
    RefreshRow.UserID row = User.ID user /\
    RefreshRow.Token row = TokenPair.RefreshToken (AuthResponse.Tokens resp) /\
    AuthResponse.User resp = userResponseOf lib user.
Proof.
  intros H. unfold Login in H.
  destruct (String.eqb_spec (LoginInput.Email input) "") as [He|He];
    [cbn in H; discriminate|].
  destruct (String.eqb_spec (LoginInput.Password input) "") as [Hp|Hp];
    [cbn in H; discriminate|].
  cbn [orb bind trigger] in H.
  rewrite run_GetUserByEmail in H.
  destruct (lookedUp _ w) as [user|e1] eqn:Hl.
  2:{ destruct (isErrNoRows e1); cbn in H; discriminate. }
  apply lookedUp_Ok in Hl. destruct Hl as [Hfound _].
  destruct (CheckPassword lib (LoginInput.Password input) (User.PasswordHash user))
    eqn:Hck; cbn [negb] in H; [|cbn in H; discriminate].
  rewrite run_bind in H.
  pose proof (generateTokens_frame lib cfg (User.ID user) (User.Username user)
                (User.Email user) (afterQuery w)) as Hg.
  destruct (run (generateTokens lib cfg (User.ID user) (User.Username user)
                   (User.Email user)) (afterQuery w)) as [[tokens|e5] w5];
    [|cbn in H; discriminate].
  apply sameTables_sameRows in Hg. cbn [snd] in Hg. destruct Hg as [Hu5 Hr5].
  rewrite run_bind in H.
  destruct (saveRefreshToken_run cfg (User.ID user)
              (TokenPair.RefreshToken tokens) w5)
    as [(row & Hs & _ & Hr6 & Hu6 & Hrow1 & Hrow2 & _) | (e6 & Hs & _)];
    destruct (run (saveRefreshToken cfg (User.ID user)
                     (TokenPair.RefreshToken tokens)) w5) as [saved w6];
    cbn [fst snd] in *; subst saved; [|cbn in H; discriminate].
  cbn in H. injection H as <- <-.
  exists user, row. cbn. repeat split; try assumption.
  - rewrite Hu6, Hu5. reflexivity.
  - rewrite Hr6, Hr5. reflexivity.
Qed.

Definition loginAlice : LoginInput.t :=
  {| LoginInput.Email := "alice@example.com"; LoginInput.Password := "secret123" |}.

Definition aliceLoggedIn : AuthResponse.t :=
  {| AuthResponse.User := userResponseOf sampleLib alice;
     AuthResponse.Tokens :=
       {| TokenPair.AccessToken :=
            Sample.headerHS256 ++ ".00000000-0000-0000-0000-000000000064.c2FtcGxl";
          TokenPair.RefreshToken :=
            Sample.headerHS256 ++ ".00000000-0000-0000-0000-000000000065.c2FtcGxl" |} |}.

Lemma Login_adds_one_session_witness :
  exists user row,
    LoginInput.Email loginAlice <> "" /\ LoginInput.Password loginAlice <> "" /\
    userByEmail (LoginInput.Email loginAlice) sampleWorld = Some user /\
    CheckPassword sampleLib (LoginInput.Password loginAlice)
      (User.PasswordHash user) = true /\
    World.users (snd (run (Login sampleLib sampleCfg loginAlice) sampleWorld))
    = World.users sampleWorld /\
    World.refresh_tokens (snd (run (Login sampleLib sampleCfg loginAlice) sampleWorld))
    = (World.refresh_tokens sampleWorld ++ [row])%list /\
    RefreshRow.UserID row = User.ID user /\
    RefreshRow.Token row
    = TokenPair.RefreshToken (AuthResponse.Tokens aliceLoggedIn) /\
    AuthResponse.User aliceLoggedIn = userResponseOf sampleLib user.
Proof.
  apply (Login_adds_one_session sampleLib sampleCfg loginAlice sampleWorld).
  vm_compute. reflexivity.
Defined.

(** X8: [RefreshToken] never writes: whatever its input and outcome,
    the accounts and the sessions are the same after the call. *)
Theorem RefreshToken_never_writes (lib : Lib) (cfg : JWTConfig.t)
    (input : RefreshTokenInput.t) (w : World.t) :
  World.users (snd (run (RefreshToken lib cfg input) w)) = World.users w /\
  World.refresh_tokens (snd (run (RefreshToken lib cfg input) w))
  = World.refresh_tokens w.
Proof.
  change (sameRows w (snd (run (RefreshToken lib cfg input) w))).
  unfold RefreshToken.
  destruct (String.eqb (RefreshTokenInput.RefreshToken input) "");
    [apply sameRows_refl|].
  rewrite run_bind.
  pose proof (ValidateRefreshToken_frame lib
                (RefreshTokenInput.RefreshToken input)
                (JWTConfig.RefreshSecret cfg) w) as Hv.
  destruct (run (ValidateRefreshToken lib _ _) w) as [[sub|e] w1];
    apply sameTables_sameRows in Hv; cbn [snd] in Hv; [|exact Hv].
  cbn [bind trigger].
  rewrite run_GetRefreshToken.
  assert (Ha : sameRows w (afterQuery w1)) by exact Hv.
  assert (Hb : sameRows w (afterQuery (afterQuery w1))) by exact Hv.
  destruct (lookedUp _ w1) as [row|e].
  2:{ destruct (isErrNoRows e); cbn; exact Hv. }
  destruct (pgtype_Scan lib sub) as [uid|e]; [|cbn; exact Hv].
  rewrite run_GetUserByID.
  destruct (lookedUp _ (afterQuery w1)) as [user|e]; [|cbn; exact Hv].
  rewrite run_bind.
  pose proof (GenerateAccessToken_frame lib (UUIDToString lib (User.ID user))
                (User.Username user) (User.Email user)
                (JWTConfig.AccessSecret cfg) (JWTConfig.AccessExpiration cfg)
                (afterQuery (afterQuery w1))) as Hg.
  destruct (run (GenerateAccessToken lib _ _ _ _ _) (afterQuery (afterQuery w1)))
    as [[a|e] w2]; apply sameTables_sameRows in Hg; cbn [snd] in Hg;
    cbn; exact (sameRows_trans _ _ _ Hb Hg).
Qed.

(** * What the validators accept *)

Lemma GetSigningMethod_Alg (alg : string) (m : SigningMethod.t) :
  GetSigningMethod alg = Some m -> SigningMethod.Alg m = alg.
Proof.
  unfold GetSigningMethod.
  destruct (find _ registeredMethods) as [[a f]|] eqn:Hfind; [|discriminate].
  apply find_some in Hfind. destruct Hfind as [_ Heq]. cbn in Heq.
  apply String.eqb_eq in Heq. intros [= <-]. exact Heq.
Qed.

Lemma GetSigningMethod_of_HMAC (alg : string) :
  In alg hmacNames ->
  GetSigningMethod alg
  = Some {| SigningMethod.Alg := alg; SigningMethod.Family := SigningMethodHMAC |}.
Proof.
  intros [<- | [<- | [<- | []]]]; reflexivity.
Qed.

(** The moment after one reading of the clock. *)
Definition afterClock (w : World.t) : World.t := snd (handle TimeNow w).

(** A token is accepted at time [now] with claims [c]: its segments
    decode, its header names an HMAC algorithm, its signature verifies
    under [secret] with that algorithm, and its registered claims are
    valid at [now]. *)
Definition accepted {C : Type} (lib : Lib)
    (segments : string -> result (Segments.t C))
    (registered : C -> RegisteredClaims.t)
    (tokenString secret : string) (now : Time) (c : C) : Prop :=
  exists seg alg sig,
    segments tokenString = Ok seg /\
    Segments.alg seg = Some alg /\ In alg hmacNames /\
    jwt_DecodeSegment lib (Segments.signature seg) = Ok sig /\
    jwt_Verify lib
      {| SigningMethod.Alg := alg; SigningMethod.Family := SigningMethodHMAC |}
      (Segments.signingText seg) sig secret = None /\
    jwt_Validate lib (registered (Segments.claims seg)) now = None /\
    c = Segments.claims seg.

Lemma ParseWithClaims_Ok {C : Type} (lib : Lib)
    (segments : string -> result (Segments.t C))
    (registered : C -> RegisteredClaims.t) (tokenString secret : string)
    (w w' : World.t) (token : Token.t C) :
  run (ParseWithClaims lib segments registered tokenString (keyFunc secret)) w
  = (Ok token, w') ->
  accepted lib segments registered tokenString secret (World.clock w)
    (Token.Claims token) /\
  Token.Valid token = true /\ w' = afterClock w.
Proof.
  unfold ParseWithClaims, accepted.
  destruct (segments tokenString) as [seg|e]; [|cbn; discriminate].
  destruct (Segments.alg seg) as [alg|] eqn:Halg; [|cbn; discriminate].
  destruct (GetSigningMethod alg) as [m|] eqn:Hm; [|cbn; discriminate].
  destruct (jwt_DecodeSegment lib (Segments.signature seg)) as [sig|e] eqn:Hsig;
    [|cbn; discriminate].
  unfold keyFunc. cbn [Token.Method Token.HeaderAlg].
  destruct (SigningMethod.Family m) eqn:Hfam; try (cbn; discriminate).
  destruct (jwt_Verify lib m (Segments.signingText seg) sig secret) eqn:Hver;
    [cbn; discriminate|].
  cbn [bind trigger run]. unfold afterClock.
  destruct (handle TimeNow w) as [now w1] eqn:Hnow.
  assert (Hclock : now = World.clock w) by (cbn in Hnow; congruence).
  subst now.
  destruct (jwt_Validate lib (registered (Segments.claims seg)) (World.clock w))
    eqn:Hval; [cbn; discriminate|].
  cbn. intros [= <- <-]. cbn.
  pose proof (GetSigningMethod_Alg alg m Hm) as Ha.
  pose proof (GetSigningMethod_HMAC alg m Hm Hfam) as Hin.
  assert (Hmeq : m = {| SigningMethod.Alg := alg;
                        SigningMethod.Family := SigningMethodHMAC |})
    by (destruct m; cbn in *; congruence).
  rewrite Hmeq in Hver.
  repeat split. exists seg, alg, sig. repeat split; assumption.
Qed.

Lemma ParseWithClaims_accepted {C : Type} (lib : Lib)
    (segments : string -> result (Segments.t C))
    (registered : C -> RegisteredClaims.t) (tokenString secret : string)
    (w : World.t) (c : C) :
  accepted lib segments registered tokenString secret (World.clock w) c ->
  exists token,
    run (ParseWithClaims lib segments registered tokenString (keyFunc secret)) w
    = (Ok token, afterClock w) /\
    Token.Claims token = c /\ Token.Valid token = true.
Proof.
  intros (seg & alg & sig & Hseg & Halg & Hin & Hsig & Hver & Hval & ->).
  unfold ParseWithClaims.
  rewrite Hseg, Halg, (GetSigningMethod_of_HMAC alg Hin), Hsig.
  unfold keyFunc. cbn [Token.Method SigningMethod.Family].
  rewrite Hver. cbn [bind trigger run]. unfold afterClock.
  destruct (handle TimeNow w) as [now w1] eqn:Hnow.
  assert (Hclock : now = World.clock w) by (cbn in Hnow; congruence).
  subst now. rewrite Hval. cbn [run snd].
  eexists. repeat split.
Qed.

Lemma ValidateRefreshToken_Ok (lib : Lib) (tokenString secret : string)
    (w w' : World.t) (sub : string) :
  run (ValidateRefreshToken lib tokenString secret) w = (Ok sub, w') ->
  (exists c,
     accepted lib (jwt_segmentsRefresh lib) (fun c => c) tokenString secret
       (World.clock w) c /\
     sub = RegisteredClaims.Subject c) /\
  w' = afterClock w.
Proof.
  unfold ValidateRefreshToken. rewrite run_bind.
  destruct (run (ParseWithClaims lib _ _ tokenString (keyFunc secret)) w)
    as [[token|e] w1] eqn:Hp; [|cbn; discriminate].
  apply ParseWithClaims_Ok in Hp. destruct Hp as (Hacc & Hvalid & ->).
  rewrite Hvalid. cbn. intros [= <- <-].
  split; [exists (Token.Claims token); split; [exact Hacc | reflexivity] | reflexivity].
Qed.

(** X9: [ValidateAccessToken] returns claims exactly for an accepted
    token: the segments decode, the header names HS256, HS384 or HS512,
    the signature verifies under the secret given, and the registered
    claims are valid at the time the clock shows; the claims returned are
    the decoded ones, and the call does nothing but read the clock once. *)
Theorem ValidateAccessToken_accepts_exactly (lib : Lib)
    (tokenString secret : string) (w w' : World.t) (c : Claims.t) :
  run (ValidateAccessToken lib tokenString secret) w = (Ok c, w') <->
  accepted lib (jwt_segmentsAccess lib) Claims.Registered tokenString secret
    (World.clock w) c /\
  w' = afterClock w.
Proof.
  unfold ValidateAccessToken. rewrite run_bind. split.
  - destruct (run (ParseWithClaims lib _ _ tokenString (keyFunc secret)) w)
      as [[token|e] w1] eqn:Hp; [|cbn; discriminate].
    apply ParseWithClaims_Ok in Hp. destruct Hp as (Hacc & Hvalid & ->).
    rewrite Hvalid. cbn. intros [= <- <-]. split; [exact Hacc | reflexivity].
  - intros (Hacc & ->).
    destruct (ParseWithClaims_accepted lib _ _ tokenString secret w c Hacc)
      as (token & Hp & Hc & Hvalid).
    rewrite Hp, Hvalid. cbn. now rewrite Hc.
Qed.

Example ValidateAccessToken_sample :
  fst (run (ValidateAccessToken sampleLib Sample.accessTokenLive Sample.accessSecret)
         sampleWorld) = Ok Sample.claimsAccess /\
  isOk (fst (run (ValidateAccessToken sampleLib Sample.accessTokenLive
                    Sample.refreshSecret) sampleWorld)) = false.
Proof. split; vm_compute; reflexivity. Qed.

(** X10: [ValidateRefreshToken] returns a subject exactly for an accepted
    token, and the subject is the [sub] claim of the decoded claims; like
    the access validator it only reads the clock once. *)
Theorem ValidateRefreshToken_accepts_exactly (lib : Lib)
    (tokenString secret : string) (w w' : World.t) (sub : string) :
  run (ValidateRefreshToken lib tokenString secret) w = (Ok sub, w') <->
  (exists c,
     accepted lib (jwt_segmentsRefresh lib) (fun c => c) tokenString secret
       (World.clock w) c /\
     sub = RegisteredClaims.Subject c) /\
  w' = afterClock w.
Proof.
  split; [apply ValidateRefreshToken_Ok|].
  intros ((c & Hacc & ->) & ->).
  unfold ValidateRefreshToken. rewrite run_bind.
  destruct (ParseWithClaims_accepted lib _ _ tokenString secret w c Hacc)
    as (token & Hp & Hc & Hvalid).
  rewrite Hp, Hvalid. cbn. now rewrite Hc.
Qed.

Example ValidateRefreshToken_sample :
  fst (run (ValidateRefreshToken sampleLib Sample.tokenLive Sample.refreshSecret)
         sampleWorld) = Ok Sample.aliceID /\
  isOk (fst (run (ValidateRefreshToken sampleLib Sample.tokenLive
                    Sample.accessSecret) sampleWorld)) = false /\
  isOk (fst (run (ValidateRefreshToken sampleLib Sample.tokenExpired
                    Sample.refreshSecret) sampleWorld)) = false.
Proof. repeat split; vm_compute; reflexivity. Qed.

(** * Minting *)

Lemma GenerateAccessToken_Ok (lib : Lib) (uid name email secret : string)
    (d : Duration) (w w' : World.t) (token : string) :
  run (GenerateAccessToken lib uid name email secret d) w = (Ok token, w') ->
  exists claims,
    jwt_SignedStringAccess lib SigningMethodHS256 claims secret = Ok token /\
    Claims.UserID claims = uid /\ Claims.Username claims = name /\
    Claims.Email claims = email /\
    RegisteredClaims.ExpiresAt (Claims.Registered claims)
    = NewNumericDate (World.clock w + d)%Z /\
    RegisteredClaims.IssuedAt (Claims.Registered claims)
    = NewNumericDate (World.clock w + 1)%Z /\
    RegisteredClaims.NotBefore (Claims.Registered claims)
    = NewNumericDate (World.clock w + 2)%Z /\
    World.clock w' = (World.clock w + 3)%Z.
Proof.
  unfold GenerateAccessToken. cbn -[NewNumericDate bytesOfN].
  intros [= Hs <-]. eexists. split; [exact Hs|].
  cbn -[NewNumericDate Z.add]. repeat split; try (f_equal; lia); lia.
Qed.

Lemma GenerateRefreshToken_Ok (lib : Lib) (uid secret : string)
    (d : Duration) (w w' : World.t) (token : string) :
  run (GenerateRefreshToken lib uid secret d) w = (Ok token, w') ->
  exists claims,
    jwt_SignedStringRefresh lib SigningMethodHS256 claims secret = Ok token /\
    RegisteredClaims.Subject claims = uid /\
    RegisteredClaims.ExpiresAt claims = NewNumericDate (World.clock w + d)%Z /\
    RegisteredClaims.IssuedAt claims = NewNumericDate (World.clock w + 1)%Z /\
    RegisteredClaims.NotBefore claims = None /\
    World.clock w' = (World.clock w + 2)%Z.
Proof.
  unfold GenerateRefreshToken. cbn -[NewNumericDate bytesOfN].
  intros [= Hs <-]. eexists. split; [exact Hs|].
  cbn -[NewNumericDate Z.add]. repeat split; try (f_equal; lia); lia.
Qed.

(** X11: the pair that [generateTokens] returns is signed with HS256, the
    access token under the access secret with the account's id, username
    and e-mail as claims, the refresh token under the refresh secret with
    the account's id as subject and no not-before claim; each expires its
    own configured duration after a reading of the clock taken during the
    call, and no table is touched. *)
Theorem generateTokens_signs_each_with_its_secret (lib : Lib)
    (cfg : JWTConfig.t) (uid : UUID.t) (name email : string) (w w' : World.t)
    (pair : TokenPair.t) :
  run (generateTokens lib cfg uid name email) w = (Ok pair, w') ->
  exists access refresh t1 t2,
    jwt_SignedStringAccess lib SigningMethodHS256 access
      (JWTConfig.AccessSecret cfg) = Ok (TokenPair.AccessToken pair) /\
    jwt_SignedStringRefresh lib SigningMethodHS256 refresh
      (JWTConfig.RefreshSecret cfg) = Ok (TokenPair.RefreshToken pair) /\
    Claims.UserID access = UUIDToString lib uid /\
    Claims.Username access = name /\ Claims.Email access = email /\
    RegisteredClaims.Subject refresh = UUIDToString lib uid /\
    RegisteredClaims.NotBefore refresh = None /\
    RegisteredClaims.ExpiresAt (Claims.Registered access)
    = NewNumericDate (t1 + JWTConfig.AccessExpiration cfg)%Z /\
    RegisteredClaims.ExpiresAt refresh
    = NewNumericDate (t2 + JWTConfig.RefreshExpiration cfg)%Z /\
    (World.clock w <= t1 <= t2)%Z /\ (t2 <= World.clock w')%Z /\
    World.users w' = World.users w /\
    World.refresh_tokens w' = World.refresh_tokens w.
Proof.
  intros H.
  pose proof (generateTokens_frame lib cfg uid name email w) as Hfr.
  rewrite H in Hfr. cbn [snd] in Hfr. destruct Hfr as (Hu & Hr & _).
  unfold generateTokens in H. rewrite run_bind in H.
  destruct (run (GenerateAccessToken lib _ _ _ _ _) w) as [[a|e] w1] eqn:Ha;
    [|cbn in H; discriminate].
  rewrite run_bind in H.
  destruct (run (GenerateRefreshToken lib _ _ _) w1) as [[r|e] w2] eqn:Hr2;
    [|cbn in H; discriminate].
  cbn in H. injection H as <- <-.
  apply GenerateAccessToken_Ok in Ha.
  destruct Ha as (ca & Hsa & Hid & Hn & Hm & Hexp & _ & _ & Hc1).
  apply GenerateRefreshToken_Ok in Hr2.
  destruct Hr2 as (cr & Hsr & Hsub & Hexp2 & _ & Hnbf & Hc2).
  exists ca, cr, (World.clock w), (World.clock w1). cbn.
  repeat split; try assumption; lia.
Qed.

Lemma generateTokens_signs_each_with_its_secret_witness :
  exists access refresh t1 t2,
    jwt_SignedStringAccess sampleLib SigningMethodHS256 access
      (JWTConfig.AccessSecret sampleCfg)
    = Ok (TokenPair.AccessToken (AuthResponse.Tokens aliceLoggedIn)) /\
    jwt_SignedStringRefresh sampleLib SigningMethodHS256 refresh
      (JWTConfig.RefreshSecret sampleCfg)
    = Ok (TokenPair.RefreshToken (AuthResponse.Tokens aliceLoggedIn)) /\
    Claims.UserID access = UUIDToString sampleLib (User.ID alice) /\
    Claims.Username access = "alice" /\ Claims.Email access = "alice@example.com" /\
    RegisteredClaims.Subject refresh = UUIDToString sampleLib (User.ID alice) /\
    RegisteredClaims.NotBefore refresh = None /\
    RegisteredClaims.ExpiresAt (Claims.Registered access)
    = NewNumericDate (t1 + JWTConfig.AccessExpiration sampleCfg)%Z /\
    RegisteredClaims.ExpiresAt refresh
    = NewNumericDate (t2 + JWTConfig.RefreshExpiration sampleCfg)%Z /\
    (World.clock sampleWorld <= t1 <= t2)%Z /\
    (t2 <= World.clock
             (snd (run (generateTokens sampleLib sampleCfg (User.ID alice)
                          "alice" "alice@example.com") sampleWorld)))%Z /\
    World.users
      (snd (run (generateTokens sampleLib sampleCfg (User.ID alice)
                   "alice" "alice@example.com") sampleWorld))
    = World.users sampleWorld /\
    World.refresh_tokens
      (snd (run (generateTokens sampleLib sampleCfg (User.ID alice)
                   "alice" "alice@example.com") sampleWorld))
    = World.refresh_tokens sampleWorld.
Proof.
  apply (generateTokens_signs_each_with_its_secret sampleLib sampleCfg
           (User.ID alice) "alice" "alice@example.com" sampleWorld).
  vm_compute. reflexivity.
Defined.

(** X12: a successful [RefreshToken] has accepted the token under the
    refresh secret, read its subject as the account id and found that
    account; the access token it returns is signed under the access secret
    and carries the id, username and e-mail of the account row as it is
    stored now. *)
Theorem RefreshToken_mints_for_stored_account (lib : Lib) (cfg : JWTConfig.t)
    (t : string) (w w' : World.t) (pair : TokenPair.t) :
  run (RefreshToken lib cfg (refreshInput t)) w = (Ok pair, w') ->
  exists c uid user claims,
    accepted lib (jwt_segmentsRefresh lib) (fun c => c) t
      (JWTConfig.RefreshSecret cfg) (World.clock w) c /\
    pgtype_Scan lib (RegisteredClaims.Subject c) = Ok uid /\
    userByID uid w = Some user /\
    jwt_SignedStringAccess lib SigningMethodHS256 claims
      (JWTConfig.AccessSecret cfg) = Ok (TokenPair.AccessToken pair) /\
    Claims.UserID claims = UUIDToString lib (User.ID user) /\
    Claims.Username claims = User.Username user /\
    Claims.Email claims = User.Email user.
Proof.
  intros H. unfold RefreshToken, refreshInput in H.
  cbn [RefreshTokenInput.RefreshToken] in H.
  destruct (String.eqb t ""); [cbn in H; discriminate|].
  rewrite run_bind in H.
  destruct (run (ValidateRefreshToken lib t (JWTConfig.RefreshSecret cfg)) w)
    as [[sub|e] w1] eqn:Hv; [|cbn in H; discriminate].
  apply ValidateRefreshToken_Ok in Hv.
  destruct Hv as ((c & Hacc & ->) & ->).
  cbn [bind trigger] in H. rewrite run_GetRefreshToken in H.
  destruct (lookedUp _ (afterClock w)) as [row|e].
  2:{ destruct (isErrNoRows e); cbn in H; discriminate. }
  destruct (pgtype_Scan lib (RegisteredClaims.Subject c)) as [uid|e] eqn:Hscan;
    [|cbn in H; discriminate].
  rewrite run_GetUserByID in H.
  destruct (lookedUp _ (afterQuery (afterClock w))) as [user|e] eqn:Hl;
    [|cbn in H; discriminate].
  apply lookedUp_Ok in Hl. destruct Hl as [Hfound _].
  rewrite run_bind in H.
  destruct (run (GenerateAccessToken lib _ _ _ _ _) _) as [[a|e] w2] eqn:Hg;
    [|cbn in H; discriminate].
  cbn in H. injection H as <- <-.
  apply GenerateAccessToken_Ok in Hg.
  destruct Hg as (claims & Hs & Hid & Hn & Hm & _).
  exists c, uid, user, claims. cbn. repeat split; assumption.
Qed.

Definition alicePair : TokenPair.t :=
  {| TokenPair.AccessToken :=
       Sample.headerHS256 ++ ".00000000-0000-0000-0000-000000000064.c2FtcGxl";
     TokenPair.RefreshToken := Sample.tokenLive |}.

Lemma RefreshToken_mints_for_stored_account_witness :
  exists c uid user claims,
    accepted sampleLib (jwt_segmentsRefresh sampleLib) (fun c => c)
      Sample.tokenLive (JWTConfig.RefreshSecret sampleCfg)
      (World.clock sampleWorld) c /\
    pgtype_Scan sampleLib (RegisteredClaims.Subject c) = Ok uid /\
    userByID uid sampleWorld = Some user /\
    jwt_SignedStringAccess sampleLib SigningMethodHS256 claims
      (JWTConfig.AccessSecret sampleCfg) = Ok (TokenPair.AccessToken alicePair) /\
    Claims.UserID claims = UUIDToString sampleLib (User.ID user) /\
    Claims.Username claims = User.Username user /\
    Claims.Email claims = User.Email user.
Proof.
  apply (RefreshToken_mints_for_stored_account sampleLib sampleCfg
           Sample.tokenLive sampleWorld
           (snd (run (RefreshToken sampleLib sampleCfg
                        (refreshInput Sample.tokenLive)) sampleWorld))).
  vm_compute. reflexivity.
Defined.

(** * Passwords longer than bcrypt reads *)

Lemma keyBytes_prefix (a b : string) (n j : nat) :
  j + n <= String.length a ->
  keyBytes (a ++ b) j n = keyBytes a j n.
Proof.
  revert j. induction n as [|n IH]; intros j Hle; [reflexivity|].
  cbn [keyBytes].
  rewrite <- (append_correct1 a b j) by lia.
  destruct (get j a) as [c|] eqn:Hget; [|reflexivity].
  f_equal.
  destruct n as [|n']; [reflexivity|].
  assert (H1 : Nat.ltb (S j) (String.length (a ++ b)) = true).
  { apply Nat.ltb_lt. rewrite length_app. lia. }
  assert (H2 : Nat.ltb (S j) (String.length a) = true).
  { apply Nat.ltb_lt. lia. }
  rewrite H1, H2. apply IH. lia.
Qed.

Lemma keyStream_truncates (p x y : string) :
  72 <= String.length p -> keyStream (p ++ x) = keyStream (p ++ y).
Proof.
  intros H. unfold keyStream.
  rewrite !app_assoc_s.
  rewrite (keyBytes_prefix p (x ++ String Ascii.zero "") 72 0) by lia.
  rewrite (keyBytes_prefix p (y ++ String Ascii.zero "") 72 0) by lia.
  reflexivity.
Qed.

(** X13: bcrypt reads 72 bytes of a password.  When hashing a password
    of exactly 72 bytes succeeds, every password that extends it verifies
    against the stored text. *)
Theorem CheckPassword_ignores_bytes_after_72 (lib : Lib) (p x h : string)
    (w w' : World.t) :
  String.length p = 72 ->
  run (HashPassword lib p) w = (Ok h, w') ->
  CheckPassword lib (p ++ x) h = true.
Proof.
  intros Hlen Hh.
  apply (CheckPassword_same_keyStream lib p (p ++ x) h w w' Hh).
  rewrite <- (app_empty_r p) at 2.
  apply keyStream_truncates. lia.
Qed.

Lemma CheckPassword_ignores_bytes_after_72_witness :
  CheckPassword sampleLib (password72 ++ "anything")
    (match fst (run (HashPassword sampleLib password72) emptyWorld) with
     | Ok h => h
     | Err _ => ""
     end) = true.
Proof.
  apply (CheckPassword_ignores_bytes_after_72 sampleLib password72 "anything" _
           emptyWorld (snd (run (HashPassword sampleLib password72) emptyWorld))).
  - reflexivity.
  - vm_compute. reflexivity.
Defined.

Lemma HashPassword_long_password (lib : Lib) (p : string) :
  (72 < len p)%Z ->
  HashPassword lib p
  = Ret (Err (ErrorfW "falha ao gerar hash: " ErrPasswordTooLong)).
Proof.
  intros H. unfold HashPassword, GenerateFromPassword.
  apply Z.ltb_lt in H. rewrite H. reflexivity.
Qed.

(** X14: validation puts no upper bound on the password, bcrypt does: a
    valid registration whose password is longer than 72 bytes passes both
    look-ups and then fails at the hashing step, before any random byte is
    drawn and before anything is written. *)
Theorem Register_rejects_long_password (lib : Lib) (cfg : JWTConfig.t)
    (input : RegisterInput.t) (w : World.t) :
  validateRegisterInput input = None ->
  (72 < len (RegisterInput.Password input))%Z ->
  nextFault w = None -> nextFault (afterQuery w) = None ->
  userByEmail (RegisterInput.Email input) w = None ->
  userByUsername (RegisterInput.Username input) w = None ->
  run (Register lib cfg input) w
  = (Err (ErrorfW "erro ao criar hash da senha: "
            (ErrorfW "falha ao gerar hash: " ErrPasswordTooLong)),
     afterQuery (afterQuery w)).
Proof.
  intros Hv Hlen Hf Hf2 He Hn. unfold Register. rewrite Hv. cbn [bind trigger].
  rewrite run_GetUserByEmail, (lookedUp_found _ w Hf), He.
  cbn [oneRow isErrNoRows negb].
  rewrite run_GetUserByUsername, (lookedUp_found _ _ Hf2).
  change (userByUsername (RegisterInput.Username input) (afterQuery w))
    with (userByUsername (RegisterInput.Username input) w).
  rewrite Hn. cbn [oneRow isErrNoRows negb].
  rewrite (HashPassword_long_password lib _ Hlen). reflexivity.
Qed.

Definition longPasswordInput : RegisterInput.t :=
  {| RegisterInput.Username := "alice";
     RegisterInput.Email := "alice@example.com";
     RegisterInput.Password := password73 |}.

Lemma Register_rejects_long_password_witness :
  run (Register sampleLib sampleCfg longPasswordInput) emptyWorld
  = (Err (ErrorfW "erro ao criar hash da senha: "
            (ErrorfW "falha ao gerar hash: " ErrPasswordTooLong)),
     afterQuery (afterQuery emptyWorld)).
Proof.
  apply (Register_rejects_long_password sampleLib sampleCfg longPasswordInput
           emptyWorld); vm_compute; reflexivity.
Defined.

(** * Empty input *)

(** X15: [Login], [RefreshToken] and [Logout] refuse their empty input
    as a leaf, a program that sends no request; with non-empty input the
    first thing [Login] does is to look the e-mail up and the first thing
    [Logout] does is to delete the sessions of the token. *)
Theorem empty_input_is_refused_before_any_request (lib : Lib)
    (cfg : JWTConfig.t) :
  (forall input,
     Login lib cfg input = Ret (Err (ErrorfS "email e senha são obrigatórios"))
     <-> (LoginInput.Email input = "" \/ LoginInput.Password input = "")) /\
  (forall input,
     LoginInput.Email input <> "" -> LoginInput.Password input <> "" ->
     exists k, Login lib cfg input = Vis (GetUserByEmail (LoginInput.Email input)) k) /\
  (forall input,
     RefreshToken lib cfg input
     = Ret (Err (ErrorfS "refresh token é obrigatório"))
     <-> RefreshTokenInput.RefreshToken input = "") /\
  (forall t,
     Logout t = Ret (Some (ErrorfS "refresh token é obrigatório")) <-> t = "") /\
  (forall t, t <> "" -> exists k, Logout t = Vis (DeleteRefreshToken t) k).
Proof.
  split; [|split; [|split; [|split]]].
  - intros input. unfold Login. split.
    + destruct (String.eqb_spec (LoginInput.Email input) ""); [auto|].
      destruct (String.eqb_spec (LoginInput.Password input) ""); [auto|].
      cbn. discriminate.
    + intros [H|H]; rewrite H; cbn; [reflexivity|].
      now rewrite orb_true_r.
  - intros input He Hp. unfold Login. apply String.eqb_neq in He, Hp.
    rewrite He, Hp. cbn. eexists. reflexivity.
  - intros input. unfold RefreshToken. split.
    + destruct (String.eqb_spec (RefreshTokenInput.RefreshToken input) "");
        [auto|].
      unfold ValidateRefreshToken, ParseWithClaims.
      repeat (break_match; cbn); discriminate.
    + intros ->. reflexivity.
  - intros t. unfold Logout. split.
    + destruct (String.eqb_spec t ""); [auto | cbn; discriminate].
    + intros ->. reflexivity.
  - intros t Ht. unfold Logout. apply String.eqb_neq in Ht. rewrite Ht. cbn.
    eexists. reflexivity.
Qed.

(** * The message and user services: properties *)

(** ** Identifiers and queries *)

Lemma UUID_eqb_refl (u : UUID.t) : UUID.eqb u u = true.
Proof.
  unfold UUID.eqb. rewrite Bool.eqb_reflx, Nat.eqb_refl. simpl.
  induction (UUID.Bytes u) as [|b bs IH]; simpl; [reflexivity|].
  rewrite IH, andb_true_r. now destruct b.
Qed.

Lemma sameID_refl (u : UUID.t) : UUID.Valid u = true -> sameID u u = true.
Proof. intros H. unfold sameID. now rewrite H, UUID_eqb_refl. Qed.

Lemma between_sym (a b : UUID.t) (m : Message.t) : between a b m = between b a m.
Proof. unfold between. apply orb_comm. Qed.

Lemma joins_sym (a b : UUID.t) (f : Friendship.t) : joins a b f = joins b a f.
Proof. unfold joins. apply orb_comm. Qed.

Lemma query_None {A} (onFault : error -> A) (statement : Chat.t -> A * Chat.t)
    (w : Chat.t) :
  chatFault w = None -> query onFault statement w = statement (chatAfterQuery w).
Proof. intros H. unfold query. now rewrite H. Qed.

Lemma chatAfterQuery_quiet (w : Chat.t) :
  Chat.faults w = [] -> chatAfterQuery w = w.
Proof. intros H. destruct w. simpl in H. subst. reflexivity. Qed.

Lemma chatFault_quiet (w : Chat.t) : Chat.faults w = [] -> chatFault w = None.
Proof. intros H. unfold chatFault. now rewrite H. Qed.

(** ** Machine integers *)

Lemma int32_small (z : Z) :
  (-2147483648 <= z < 2147483648)%Z -> int32 z = z.
Proof. intros H. unfold int32. rewrite Z.mod_small; lia. Qed.

Lemma int32_period (z k : Z) : int32 (z + k * 4294967296) = int32 z.
Proof.
  unfold int32.
  replace (z + k * 4294967296 + 2147483648)%Z
    with (z + 2147483648 + k * 4294967296)%Z by lia.
  now rewrite Z.mod_add by lia.
Qed.

Lemma int32_int64 (z : Z) : int32 (int64 z) = int32 z.
Proof.
  unfold int64.
  pose proof (Z.div_mod (z + 9223372036854775808) 18446744073709551616
                ltac:(lia)) as H.
  set (q := ((z + 9223372036854775808) / 18446744073709551616)%Z) in *.
  replace ((z + 9223372036854775808) mod 18446744073709551616
           - 9223372036854775808)%Z
    with (z + (- q * 4294967296) * 4294967296)%Z by lia.
  apply int32_period.
Qed.

(** ** Sorting keeps the rows *)

(** The time a message was stored. *)
Definition sentAt (m : Message.t) : Time :=
  Timestamp.Time (Message.CreatedAt m).

Lemma insertNewest_In (first : Message.t -> Message.t -> bool)
    (m x : Message.t) (l : list Message.t) :
  In x (insertNewest first m l) <-> x = m \/ In x l.
Proof.
  induction l as [|y l IH]; simpl.
  - intuition congruence.
  - destruct ((Timestamp.Time (Message.CreatedAt y)
               <? Timestamp.Time (Message.CreatedAt m))%Z
              || ((Timestamp.Time (Message.CreatedAt y)
                   =? Timestamp.Time (Message.CreatedAt m))%Z
                  && first m y)); simpl.
    + intuition congruence.
    + rewrite IH. intuition congruence.
Qed.

Lemma newestFirst_In (first : Message.t -> Message.t -> bool)
    (x : Message.t) (l : list Message.t) :
  In x (newestFirst first l) <-> In x l.
Proof.
  induction l as [|y l IH]; simpl; [tauto|].
  rewrite insertNewest_In, IH. intuition congruence.
Qed.

Lemma insertNewest_length (first : Message.t -> Message.t -> bool)
    (m : Message.t) (l : list Message.t) :
  List.length (insertNewest first m l) = S (List.length l).
Proof.
  induction l as [|y l IH]; simpl; [reflexivity|].
  destruct ((Timestamp.Time (Message.CreatedAt y)
             <? Timestamp.Time (Message.CreatedAt m))%Z
            || ((Timestamp.Time (Message.CreatedAt y)
                 =? Timestamp.Time (Message.CreatedAt m))%Z
                && first m y)); simpl; congruence.
Qed.

Lemma newestFirst_length (first : Message.t -> Message.t -> bool)
    (l : list Message.t) :
  List.length (newestFirst first l) = List.length l.
Proof.
  induction l as [|y l IH]; simpl; [reflexivity|].
  now rewrite insertNewest_length, IH.
Qed.

(** Where no two rows carry the same time, the order of equal times
    plays no part. *)
Lemma insertNewest_ties (first first' : Message.t -> Message.t -> bool)
    (m : Message.t) (l : list Message.t) :
  (forall x, In x l -> sentAt x <> sentAt m) ->
  insertNewest first m l = insertNewest first' m l.
Proof.
  induction l as [|y l IH]; intros Hne; simpl; [reflexivity|].
  assert ((Timestamp.Time (Message.CreatedAt y)
           =? Timestamp.Time (Message.CreatedAt m))%Z = false) as ->.
  { apply Z.eqb_neq. apply (Hne y). now left. }
  cbn [andb]. rewrite IH; [reflexivity|].
  intros x Hx. apply Hne. now right.
Qed.

Lemma newestFirst_ties (first first' : Message.t -> Message.t -> bool)
    (l : list Message.t) :
  NoDup (map sentAt l) -> newestFirst first l = newestFirst first' l.
Proof.
  induction l as [|y l IH]; intros Hnd; simpl; [reflexivity|].
  inversion Hnd as [|t ts Hnotin Hnd']; subst.
  rewrite (IH Hnd').
  apply insertNewest_ties. intros x Hx Heq.
  apply newestFirst_In in Hx. apply Hnotin. rewrite <- Heq.
  now apply in_map.
Qed.

(** ** A sample installation of the chat services *)

Module ChatSample.

(** [uuid.Parse] on the 36-character form; hexadecimal digits of either
    case are read. *)
Definition lower (c : ascii) : ascii :=
  let n := nat_of_ascii c in
  if (65 <=? n)%nat && (n <=? 70)%nat then ascii_of_nat (n + 32) else c.

Definition Parse (s : string) : result (list Byte.byte) :=
  match Sample.Scan
          (string_of_list_ascii (map lower (list_ascii_of_string s))) with
  | Ok u => Ok (UUID.Bytes u)
  | Err err => Err err
  end.

(** [json.Marshal] on the Kafka map, whose keys come out sorted, for
    text that JSON copies unchanged; the examples use no other. *)
Definition plain (c : ascii) : bool :=
  let n := nat_of_ascii c in
  (32 <=? n)%nat && (n <=? 126)%nat
  && negb (Nat.eqb n 34 || Nat.eqb n 92 || Nat.eqb n 60 || Nat.eqb n 62
           || Nat.eqb n 38).

Definition quote : string := String (ascii_of_nat 34) EmptyString.

Definition quoted (s : string) : string := quote ++ s ++ quote.

Fixpoint digits (fuel : nat) (n : Z) : string :=
  match fuel with
  | O => EmptyString
  | S fuel' =>
      if (n <? 10)%Z then String (Sample.digitChar n) EmptyString
      else digits fuel' (n / 10) ++ String (Sample.digitChar (n mod 10)) EmptyString
  end.

Definition Marshal (m : KafkaMessage.t) : result string :=
  if forallb plain
       (list_ascii_of_string
          (KafkaMessage.id m ++ KafkaMessage.sender_id m
           ++ KafkaMessage.receiver_id m ++ KafkaMessage.content m))
     && (0 <=? KafkaMessage.timestamp m)%Z
  then
    Ok ("{" ++ quoted "content" ++ ":" ++ quoted (KafkaMessage.content m)
        ++ "," ++ quoted "id" ++ ":" ++ quoted (KafkaMessage.id m)
        ++ "," ++ quoted "receiver_id" ++ ":"
        ++ quoted (KafkaMessage.receiver_id m)
        ++ "," ++ quoted "sender_id" ++ ":" ++ quoted (KafkaMessage.sender_id m)
        ++ "," ++ quoted "timestamp" ++ ":"
        ++ digits 20 (KafkaMessage.timestamp m) ++ "}")
  else Err (LibError "json: text outside the sample").

End ChatSample.

Definition sampleChatLib : ChatLib :=
  {| uuid_Parse := ChatSample.Parse;
     json_Marshal := ChatSample.Marshal |}.

Definition aliceText : string := "00000000-0000-0000-0000-000000000001".
Definition bobText : string := "00000000-0000-0000-0000-00000000000b".
Definition bobTextUpper : string := "00000000-0000-0000-0000-00000000000B".

Definition aliceUUID : UUID.t := User.ID alice.
Definition bobUUID : UUID.t :=
  {| UUID.Bytes := bytesOfN 11; UUID.Valid := true |}.

Definition bob : User.t :=
  {| User.ID := bobUUID;
     User.Username := "bob";
     User.Email := "bob@example.com";
     User.PasswordHash := aliceHash;
     User.CreatedAt :=
       {| Timestamp.Time := Sample.seconds 1690000500; Timestamp.Valid := true |} |}.

(** Alice and bob have accounts; nothing was said yet, at
    2023-11-14T22:15:00Z. *)
Definition chatWorld : Chat.t :=
  {| Chat.users := [alice; bob];
     Chat.messages := [];
     Chat.friendships := [];
     Chat.clock := Sample.seconds 1700000100;
     Chat.entropy := 200;
     Chat.faults := [];
     Chat.published := [];
     Chat.sendFaults := [];
     Chat.stdout := [];
     Chat.tieOrders := [] |}.

(** The world with the given failures scheduled for the next queries. *)
Definition withChatFaults (fs : list (option error)) (w : Chat.t) : Chat.t :=
  {| Chat.users := Chat.users w;
     Chat.messages := Chat.messages w;
     Chat.friendships := Chat.friendships w;
     Chat.clock := Chat.clock w;
     Chat.entropy := Chat.entropy w;
     Chat.faults := fs;
     Chat.published := Chat.published w;
     Chat.sendFaults := Chat.sendFaults w;
     Chat.stdout := Chat.stdout w;
     Chat.tieOrders := Chat.tieOrders w |}.

Definition hello : SendMessageInput.t :=
  {| SendMessageInput.SenderID := aliceText;
     SendMessageInput.ReceiverID := bobText;
     SendMessageInput.Content := "hello" |}.

Definition afterHello : Chat.t :=
  snd (SendMessage sampleLib sampleChatLib true hello chatWorld).

Definition helloResponse : MessageResponse.t :=
  {| MessageResponse.ID := "00000000-0000-0000-0000-0000000000c8";
     MessageResponse.SenderID := aliceText;
     MessageResponse.ReceiverID := bobText;
     MessageResponse.Content := "hello";
     MessageResponse.Status := "sent";
     MessageResponse.CreatedAt := "2023-11-14T22:15:00Z" |}.

Lemma SendMessage_hello :
  SendMessage sampleLib sampleChatLib true hello chatWorld
  = (Ok helloResponse, afterHello).
Proof. vm_compute. reflexivity. Qed.

Definition aliceAsksBob : AddFriendInput.t :=
  {| AddFriendInput.UserID := aliceText; AddFriendInput.FriendID := bobText |}.

Definition afterRequest : Chat.t :=
  snd (AddFriend sampleChatLib aliceAsksBob chatWorld).

Definition bobAccepts : AcceptFriendInput.t :=
  {| AcceptFriendInput.UserID := bobText; AcceptFriendInput.FriendID := aliceText |}.

Definition afterAccept : Chat.t :=
  snd (AcceptFriend sampleChatLib bobAccepts afterRequest).

Definition listing (page perPage : Z) : ListMessagesInput.t :=
  {| ListMessagesInput.UserID := aliceText;
     ListMessagesInput.FriendID := bobText;
     ListMessagesInput.Page := page;
     ListMessagesInput.PerPage := perPage |}.

(** ** Sending a message *)

(** The response the message service renders for a stored message. *)
Definition messageResponseOf (lib : Lib) (m : Message.t) : MessageResponse.t :=
  {| MessageResponse.ID := UUIDToString lib (Message.ID m);
     MessageResponse.SenderID := UUIDToString lib (Message.SenderID m);
     MessageResponse.ReceiverID := UUIDToString lib (Message.ReceiverID m);
     MessageResponse.Content := Message.Content m;
     MessageResponse.Status := Message.Status m;
     MessageResponse.CreatedAt :=
       time_Format_RFC3339 lib (Timestamp.Time (Message.CreatedAt m)) |}.

(** What [SendMessage] hands to the producer for a stored message. *)
Definition kafkaMessageOf (lib : Lib) (input : SendMessageInput.t)
    (m : Message.t) : KafkaMessage.t :=
  {| KafkaMessage.id := UUIDToString lib (Message.ID m);
     KafkaMessage.sender_id := SendMessageInput.SenderID input;
     KafkaMessage.receiver_id := SendMessageInput.ReceiverID input;
     KafkaMessage.content := SendMessageInput.Content input;
     KafkaMessage.timestamp :=
       (Timestamp.Time (Message.CreatedAt m) / second)%Z |}.

(** The tables of both worlds hold the same rows. *)
Definition sameChatTables (w w' : Chat.t) : Prop :=
  Chat.users w' = Chat.users w /\
  Chat.messages w' = Chat.messages w /\
  Chat.friendships w' = Chat.friendships w.

Lemma StringToUUID_Ok (clib : ChatLib) (s : string) (u : UUID.t) :
  StringToUUID clib s = Ok u ->
  exists bytes, uuid_Parse clib s = Ok bytes /\
                u = {| UUID.Bytes := bytes; UUID.Valid := true |}.
Proof.
  unfold StringToUUID. destruct (uuid_Parse clib s) as [b|e]; [|discriminate].
  intros H. injection H as <-. now exists b.
Qed.

Lemma StringToUUID_Valid (clib : ChatLib) (s : string) (u : UUID.t) :
  StringToUUID clib s = Ok u -> UUID.Valid u = true.
Proof.
  intros H. apply StringToUUID_Ok in H. destruct H as (b & _ & ->). reflexivity.
Qed.

Lemma CreateMessage_Ok (arg : CreateMessageParams.t) (w w1 : Chat.t)
    (row : Message.t) :
  CreateMessage arg w = (Ok row, w1) ->
  Chat.messages w1 = (Chat.messages w ++ [row])%list /\
  Chat.users w1 = Chat.users w /\
  Chat.friendships w1 = Chat.friendships w /\
  Chat.published w1 = Chat.published w /\
  Chat.stdout w1 = Chat.stdout w /\
  Chat.sendFaults w1 = Chat.sendFaults w /\
  Chat.faults w1 = tl (Chat.faults w) /\
  Message.SenderID row = CreateMessageParams.SenderID arg /\
  Message.ReceiverID row = CreateMessageParams.ReceiverID arg /\
  Message.Content row = CreateMessageParams.Content arg /\
  Message.Status row = CreateMessageParams.Status arg.
Proof.
  unfold CreateMessage, query. destruct (chatFault w); [discriminate|].
  intros H. injection H as <- <-. cbn. repeat split; reflexivity.
Qed.

Lemma CreateMessage_Err (arg : CreateMessageParams.t) (w w1 : Chat.t)
    (err : error) :
  CreateMessage arg w = (Err err, w1) ->
  w1 = chatAfterQuery w /\ chatFault w = Some err.
Proof.
  unfold CreateMessage, query. destruct (chatFault w); [|discriminate].
  intros H. injection H as <- <-. split; reflexivity.
Qed.

(** X16: [validateSendMessageInput] accepts exactly the inputs whose
    sender and receiver are non-empty and different texts and whose
    content has between 1 and 5000 bytes. *)
Theorem validateSendMessageInput_accepts_exactly (input : SendMessageInput.t) :
  validateSendMessageInput input = None <->
  SendMessageInput.SenderID input <> "" /\
  SendMessageInput.ReceiverID input <> "" /\
  SendMessageInput.SenderID input <> SendMessageInput.ReceiverID input /\
  (1 <= len (SendMessageInput.Content input) <= 5000)%Z.
Proof.
  unfold validateSendMessageInput.
  destruct (String.eqb_spec (SendMessageInput.SenderID input) "") as [Hs|Hs];
    [split; [discriminate | tauto]|].
  destruct (String.eqb_spec (SendMessageInput.ReceiverID input) "") as [Hr|Hr];
    [split; [discriminate | tauto]|].
  destruct (String.eqb_spec (SendMessageInput.SenderID input)
              (SendMessageInput.ReceiverID input)) as [He|He];
    [split; [discriminate | tauto]|].
  destruct (String.eqb_spec (SendMessageInput.Content input) "") as [Hc|Hc].
  - split; [discriminate|]. rewrite Hc. cbn. lia.
  - assert (1 <= len (SendMessageInput.Content input))%Z as Hlen.
    { unfold len. destruct (SendMessageInput.Content input); [congruence|].
      cbn [String.length]. lia. }
    destruct (Z.gtb_spec (len (SendMessageInput.Content input)) 5000).
    + split; [discriminate | lia].
    + split; [intros _; repeat split; try assumption; lia | reflexivity].
Qed.

(** X17: a [SendMessage] that succeeds has appended exactly one row to
    the messages table, with status "sent", the content of the input and
    the parsed identifiers; the response renders that row; the accounts
    and friendships are untouched; and the producer, when there is one,
    was called exactly once, on topic "chat-messages" with the receiver's
    text as key and the serialised message as value. *)
Theorem SendMessage_stores_then_publishes (lib : Lib) (clib : ChatLib)
    (producer : bool) (input : SendMessageInput.t) (w w' : Chat.t)
    (resp : MessageResponse.t) :
  SendMessage lib clib producer input w = (Ok resp, w') ->
  exists (sender receiver : list Byte.byte) (row : Message.t) (bytes : string),
    uuid_Parse clib (SendMessageInput.SenderID input) = Ok sender /\
    uuid_Parse clib (SendMessageInput.ReceiverID input) = Ok receiver /\
    Chat.messages w' = (Chat.messages w ++ [row])%list /\
    Message.SenderID row = {| UUID.Bytes := sender; UUID.Valid := true |} /\
    Message.ReceiverID row = {| UUID.Bytes := receiver; UUID.Valid := true |} /\
    Message.Content row = SendMessageInput.Content input /\
    Message.Status row = "sent" /\
    resp = messageResponseOf lib row /\
    Chat.users w' = Chat.users w /\
    Chat.friendships w' = Chat.friendships w /\
    json_Marshal clib (kafkaMessageOf lib input row) = Ok bytes /\
    Chat.published w' =
      (Chat.published w
       ++ (if producer
           then [{| Published.topic := "chat-messages";
                    Published.key := SendMessageInput.ReceiverID input;
                    Published.value := bytes |}]
           else []))%list.
Proof.
  unfold SendMessage.
  destruct (validateSendMessageInput input); [discriminate|].
  destruct (StringToUUID clib (SendMessageInput.SenderID input))
    as [s|e] eqn:Hs; [|discriminate].
  destruct (StringToUUID clib (SendMessageInput.ReceiverID input))
    as [r|e] eqn:Hr; [|discriminate].
  apply StringToUUID_Ok in Hs. destruct Hs as (sb & Hs & ->).
  apply StringToUUID_Ok in Hr. destruct Hr as (rb & Hr & ->).
  destruct (CreateMessage _ w) as [[row|e] w1] eqn:Hc; [|discriminate].
  apply CreateMessage_Ok in Hc. cbn in Hc.
  destruct Hc as (Hm & Hu & Hf & Hp & Ho & Hsf & Hq & Hsid & Hrid & Hct & Hst).
  fold (kafkaMessageOf lib input row). fold (messageResponseOf lib row).
  destruct (json_Marshal clib (kafkaMessageOf lib input row)) as [bytes|e]
    eqn:Hj; [|discriminate].
  intros H. injection H as <- <-.
  exists sb, rb, row, bytes.
  repeat (split; [assumption || reflexivity|]).
  destruct producer.
  - unfold producerSendMessage.
    destruct (Chat.sendFaults w1) as [|[err|] fs]; cbn;
      repeat split; try assumption; now rewrite Hp.
  - repeat split; try assumption. now rewrite app_nil_r.
Qed.

Lemma SendMessage_stores_then_publishes_witness :
  exists (sender receiver : list Byte.byte) (row : Message.t) (bytes : string),
    uuid_Parse sampleChatLib (SendMessageInput.SenderID hello) = Ok sender /\
    uuid_Parse sampleChatLib (SendMessageInput.ReceiverID hello) = Ok receiver /\
    Chat.messages afterHello = (Chat.messages chatWorld ++ [row])%list /\
    Message.SenderID row = {| UUID.Bytes := sender; UUID.Valid := true |} /\
    Message.ReceiverID row = {| UUID.Bytes := receiver; UUID.Valid := true |} /\
    Message.Content row = SendMessageInput.Content hello /\
    Message.Status row = "sent" /\
    helloResponse = messageResponseOf sampleLib row /\
    Chat.users afterHello = Chat.users chatWorld /\
    Chat.friendships afterHello = Chat.friendships chatWorld /\
    json_Marshal sampleChatLib (kafkaMessageOf sampleLib hello row) = Ok bytes /\
    Chat.published afterHello =
      (Chat.published chatWorld
       ++ [{| Published.topic := "chat-messages";
              Published.key := SendMessageInput.ReceiverID hello;
              Published.value := bytes |}])%list.
Proof.
  apply (SendMessage_stores_then_publishes sampleLib sampleChatLib true hello
           chatWorld afterHello helloResponse).
  exact SendMessage_hello.
Defined.


(** X18: a [SendMessage] that fails has not called the producer and has
    printed nothing.  It has stored nothing either, with one exception:
    when the serialisation for Kafka fails the row is already in the
    table, and the caller is told of an error all the same. *)
Theorem SendMessage_failure_publishes_nothing (lib : Lib) (clib : ChatLib)
    (producer : bool) (input : SendMessageInput.t) (w w' : Chat.t)
    (err : error) :
  SendMessage lib clib producer input w = (Err err, w') ->
  Chat.published w' = Chat.published w /\
  Chat.stdout w' = Chat.stdout w /\
  Chat.users w' = Chat.users w /\
  Chat.friendships w' = Chat.friendships w /\
  (Chat.messages w' = Chat.messages w \/
   exists (cause : error) (row : Message.t),
     err = ErrorfW "erro ao serializar mensagem: " cause /\
     json_Marshal clib (kafkaMessageOf lib input row) = Err cause /\
     Chat.messages w' = (Chat.messages w ++ [row])%list).
Proof.
  unfold SendMessage.
  destruct (validateSendMessageInput input).
  { intros H. injection H as <- <-. tauto. }
  destruct (StringToUUID clib (SendMessageInput.SenderID input)) as [s|e].
  2:{ intros H. injection H as <- <-. tauto. }
  destruct (StringToUUID clib (SendMessageInput.ReceiverID input)) as [r|e].
  2:{ intros H. injection H as <- <-. tauto. }
  destruct (CreateMessage _ w) as [[row|e] w1] eqn:Hc.
  - apply CreateMessage_Ok in Hc.
    destruct Hc as (Hm & Hu & Hf & Hp & Ho & _).
    fold (kafkaMessageOf lib input row).
    destruct (json_Marshal clib (kafkaMessageOf lib input row)) as [bytes|e]
      eqn:Hj; [discriminate|].
    intros H. injection H as <- <-.
    repeat (split; [assumption|]). right. now exists e, row.
  - apply CreateMessage_Err in Hc. destruct Hc as [-> _].
    intros H. injection H as <- <-. cbn. tauto.
Qed.

(** The connection to the database is lost. *)
Definition chatConnectionLost : error := LibError "connection reset by peer".

Definition chatWorldOffline : Chat.t :=
  withChatFaults [Some chatConnectionLost] chatWorld.

Lemma SendMessage_failure_publishes_nothing_witness :
  Chat.published chatWorld = Chat.published chatWorldOffline /\
  Chat.stdout chatWorld = Chat.stdout chatWorldOffline /\
  Chat.users chatWorld = Chat.users chatWorldOffline /\
  Chat.friendships chatWorld
    = Chat.friendships chatWorldOffline /\
  (Chat.messages chatWorld = Chat.messages chatWorldOffline \/
   exists (cause : error) (row : Message.t),
     ErrorfW "erro ao salvar mensagem: " chatConnectionLost
       = ErrorfW "erro ao serializar mensagem: " cause /\
     json_Marshal sampleChatLib (kafkaMessageOf sampleLib hello row) = Err cause /\
     Chat.messages chatWorld
       = (Chat.messages chatWorldOffline ++ [row])%list).
Proof.
  apply (SendMessage_failure_publishes_nothing sampleLib sampleChatLib true
           hello chatWorldOffline chatWorld
           (ErrorfW "erro ao salvar mensagem: " chatConnectionLost)).
  vm_compute. reflexivity.
Defined.


(** ** Listing a conversation *)

(** The messages exchanged by two accounts, newest first, as the next
    query would order them. *)
Definition conversation (a b : UUID.t) (w : Chat.t) : list Message.t :=
  newestFirst (chatTieOrder w) (filter (between a b) (Chat.messages w)).

(** The page size [GetMessagesBetween] settles on. *)
Definition perPageOf (input : ListMessagesInput.t) : Z :=
  if (ListMessagesInput.PerPage input <? 1)%Z
     || (ListMessagesInput.PerPage input >? 100)%Z
  then 50%Z
  else ListMessagesInput.PerPage input.

Definition pageOf (input : ListMessagesInput.t) : Z :=
  if (ListMessagesInput.Page input <? 1)%Z then 1%Z
  else ListMessagesInput.Page input.

(** The same request for another page. *)
Definition onPage (page : Z) (input : ListMessagesInput.t)
    : ListMessagesInput.t :=
  {| ListMessagesInput.UserID := ListMessagesInput.UserID input;
     ListMessagesInput.FriendID := ListMessagesInput.FriendID input;
     ListMessagesInput.Page := page;
     ListMessagesInput.PerPage := ListMessagesInput.PerPage input |}.

(** The rows of a listing, or its error. *)
Definition dataOf {A} (r : result (PaginatedResponse.t A)) : result (list A) :=
  match r with
  | Ok resp => Ok (PaginatedResponse.Data resp)
  | Err err => Err err
  end.

Lemma perPageOf_range (input : ListMessagesInput.t) :
  (1 <= perPageOf input <= 100)%Z.
Proof.
  unfold perPageOf.
  destruct (Z.ltb_spec (ListMessagesInput.PerPage input) 1); cbn; [lia|].
  destruct (Z.gtb_spec (ListMessagesInput.PerPage input) 100); lia.
Qed.

Lemma pageOf_range (input : ListMessagesInput.t) : (1 <= pageOf input)%Z.
Proof.
  unfold pageOf. destruct (Z.ltb_spec (ListMessagesInput.Page input) 1); lia.
Qed.

(** [GetMessagesBetween] once both identifiers are parsed: one query,
    with the limit and the offset computed in machine integers. *)
Lemma GetMessagesBetween_parsed (lib : Lib) (clib : ChatLib)
    (input : ListMessagesInput.t) (a b : UUID.t) (w : Chat.t) :
  StringToUUID clib (ListMessagesInput.UserID input) = Ok a ->
  StringToUUID clib (ListMessagesInput.FriendID input) = Ok b ->
  GetMessagesBetween lib clib input w =
    match chatFault w with
    | Some err =>
        (Err (ErrorfW "erro ao listar mensagens: " err), chatAfterQuery w)
    | None =>
        if (int32 (perPageOf input) <? 0)%Z then
          (Err (ErrorfW "erro ao listar mensagens: "
                  (PgError "ERROR" "2201W" "LIMIT must not be negative")),
           chatAfterQuery w)
        else if (int32 ((pageOf input - 1) * perPageOf input) <? 0)%Z then
          (Err (ErrorfW "erro ao listar mensagens: "
                  (PgError "ERROR" "2201X" "OFFSET must not be negative")),
           chatAfterQuery w)
        else
          let rows :=
            firstn (Z.to_nat (int32 (perPageOf input)))
              (skipn (Z.to_nat (int32 ((pageOf input - 1) * perPageOf input)))
                 (conversation a b w)) in
          (Ok {| PaginatedResponse.Success := true;
                 PaginatedResponse.Data := map (messageResponseOf lib) rows;
                 PaginatedResponse.Meta :=
                   {| PaginationMeta.Page := pageOf input;
                      PaginationMeta.PerPage := perPageOf input;
                      PaginationMeta.Total := Z.of_nat (List.length rows);
                      PaginationMeta.TotalPages := 0 |} |},
           afterOrdering (chatAfterQuery w))
    end.
Proof.
  intros Ha Hb. unfold GetMessagesBetween. rewrite Ha, Hb.
  fold (perPageOf input). fold (pageOf input).
  unfold ListMessagesBetweenUsers, query.
  cbn [ListMessagesBetweenUsersParams.Limit ListMessagesBetweenUsersParams.Offset
       ListMessagesBetweenUsersParams.SenderID
       ListMessagesBetweenUsersParams.ReceiverID].
  rewrite int32_int64.
  destruct (chatFault w); [reflexivity|].
  destruct (int32 (perPageOf input) <? 0)%Z; [reflexivity|].
  destruct (int32 ((pageOf input - 1) * perPageOf input) <? 0)%Z; reflexivity.
Qed.

(** X20: a listing that succeeds reports a page number of at least 1 (the
    requested one when that is at least 1), a page size between 1 and
    100 (the requested one when it is in that range, 50 otherwise), as
    total the number of rows of this page, which never exceeds the page
    size, and 0 total pages; and it leaves the tables and the producer
    alone. *)
Theorem GetMessagesBetween_page_shape (lib : Lib) (clib : ChatLib)
    (input : ListMessagesInput.t) (w w' : Chat.t)
    (resp : PaginatedResponse.t MessageResponse.t) :
  GetMessagesBetween lib clib input w = (Ok resp, w') ->
  let meta := PaginatedResponse.Meta resp in
  PaginatedResponse.Success resp = true /\
  (1 <= PaginationMeta.Page meta)%Z /\
  ((1 <= ListMessagesInput.Page input)%Z ->
   PaginationMeta.Page meta = ListMessagesInput.Page input) /\
  (1 <= PaginationMeta.PerPage meta <= 100)%Z /\
  ((1 <= ListMessagesInput.PerPage input <= 100)%Z ->
   PaginationMeta.PerPage meta = ListMessagesInput.PerPage input) /\
  (~ (1 <= ListMessagesInput.PerPage input <= 100)%Z ->
   PaginationMeta.PerPage meta = 50%Z) /\
  PaginationMeta.Total meta
    = Z.of_nat (List.length (PaginatedResponse.Data resp)) /\
  (PaginationMeta.Total meta <= PaginationMeta.PerPage meta)%Z /\
  PaginationMeta.TotalPages meta = 0%Z /\
  sameChatTables w w' /\
  Chat.published w' = Chat.published w.
Proof.
  intros H.
  destruct (StringToUUID clib (ListMessagesInput.UserID input)) as [a|e] eqn:Ha.
  2:{ unfold GetMessagesBetween in H. rewrite Ha in H. discriminate. }
  destruct (StringToUUID clib (ListMessagesInput.FriendID input)) as [b|e]
    eqn:Hb.
  2:{ unfold GetMessagesBetween in H. rewrite Ha, Hb in H. discriminate. }
  rewrite (GetMessagesBetween_parsed lib clib input a b w Ha Hb) in H.
  pose proof (perPageOf_range input) as Hpp.
  pose proof (pageOf_range input) as Hp.
  destruct (chatFault w); [discriminate|].
  destruct (int32 (perPageOf input) <? 0)%Z; [discriminate|].
  destruct (int32 ((pageOf input - 1) * perPageOf input) <? 0)%Z;
    [discriminate|].
  cbv zeta in H. injection H as <- <-. cbn.
  rewrite length_map.
  repeat split; try lia.
  - intros Hge. unfold pageOf.
    destruct (Z.ltb_spec (ListMessagesInput.Page input) 1); lia.
  - intros Hr. unfold perPageOf.
    destruct (Z.ltb_spec (ListMessagesInput.PerPage input) 1); cbn; [lia|].
    destruct (Z.gtb_spec (ListMessagesInput.PerPage input) 100); lia.
  - intros Hr. unfold perPageOf.
    destruct (Z.ltb_spec (ListMessagesInput.PerPage input) 1); cbn;
      [reflexivity|].
    destruct (Z.gtb_spec (ListMessagesInput.PerPage input) 100); lia.
  - rewrite int32_small by lia.
    match goal with
    | |- (Z.of_nat (List.length (firstn ?n ?l)) <= _)%Z =>
        pose proof (firstn_le_length n l)
    end. lia.
Qed.

(** The first page of the conversation of alice and bob after the first
    message. *)
Definition firstPage : PaginatedResponse.t MessageResponse.t :=
  {| PaginatedResponse.Success := true;
     PaginatedResponse.Data := [helloResponse];
     PaginatedResponse.Meta :=
       {| PaginationMeta.Page := 1;
          PaginationMeta.PerPage := 50;
          PaginationMeta.Total := 1;
          PaginationMeta.TotalPages := 0 |} |}.

Lemma GetMessagesBetween_page_shape_witness :
  let meta := PaginatedResponse.Meta firstPage in
  PaginatedResponse.Success firstPage = true /\
  (1 <= PaginationMeta.Page meta)%Z /\
  ((1 <= ListMessagesInput.Page (listing 0 500))%Z ->
   PaginationMeta.Page meta = ListMessagesInput.Page (listing 0 500)) /\
  (1 <= PaginationMeta.PerPage meta <= 100)%Z /\
  ((1 <= ListMessagesInput.PerPage (listing 0 500) <= 100)%Z ->
   PaginationMeta.PerPage meta = ListMessagesInput.PerPage (listing 0 500)) /\
  (~ (1 <= ListMessagesInput.PerPage (listing 0 500) <= 100)%Z ->
   PaginationMeta.PerPage meta = 50%Z) /\
  PaginationMeta.Total meta
    = Z.of_nat (List.length (PaginatedResponse.Data firstPage)) /\
  (PaginationMeta.Total meta <= PaginationMeta.PerPage meta)%Z /\
  PaginationMeta.TotalPages meta = 0%Z /\
  sameChatTables afterHello afterHello /\
  Chat.published afterHello = Chat.published afterHello.
Proof.
  apply (GetMessagesBetween_page_shape sampleLib sampleChatLib (listing 0 500)
           afterHello afterHello firstPage).
  vm_compute. reflexivity.
Defined.



Lemma firstn_more {A} (n k : nat) (l : list A) :
  firstn (n + k) l = (firstn n l ++ firstn k (skipn n l))%list.
Proof.
  revert l. induction n as [|n IH]; intros l; [reflexivity|].
  destruct l as [|x l]; simpl; [now rewrite firstn_nil|].
  now rewrite IH.
Qed.

Lemma conversation_ties (a b : UUID.t) (w w' : Chat.t) :
  Chat.messages w' = Chat.messages w ->
  NoDup (map sentAt (filter (between a b) (Chat.messages w))) ->
  conversation a b w' = conversation a b w.
Proof.
  intros Hm Hnd. unfold conversation. rewrite Hm.
  now apply newestFirst_ties.
Qed.

(** The rows of the pages [pages] of a request, asked one after the
    other: each query meets the world the one before has left, and
    settles the order of equal times for itself.  A page that fails
    gives no row. *)
Fixpoint rowsOfPages (lib : Lib) (clib : ChatLib) (input : ListMessagesInput.t)
    (w : Chat.t) (pages : list nat) : list MessageResponse.t :=
  match pages with
  | [] => []
  | page :: rest =>
      let (listed, w1) :=
        GetMessagesBetween lib clib (onPage (Z.of_nat page) input) w in
      (match listed with
       | Ok resp => PaginatedResponse.Data resp
       | Err _ => []
       end ++ rowsOfPages lib clib input w1 rest)%list
  end.

(** Pages [k + 1] to [k + n], asked in turn, are the [n] pages' worth of
    rows that follow the first [k] pages' worth. *)
Lemma rowsOfPages_from (lib : Lib) (clib : ChatLib)
    (input : ListMessagesInput.t) (a b : UUID.t) (w0 : Chat.t) (n : nat) :
  StringToUUID clib (ListMessagesInput.UserID input) = Ok a ->
  StringToUUID clib (ListMessagesInput.FriendID input) = Ok b ->
  NoDup (map sentAt (filter (between a b) (Chat.messages w0))) ->
  (1 <= ListMessagesInput.PerPage input <= 100)%Z ->
  forall (k : nat) (w : Chat.t),
    Chat.messages w = Chat.messages w0 ->
    Chat.faults w = [] ->
    (Z.of_nat (k + n) * ListMessagesInput.PerPage input < 2147483648)%Z ->
    rowsOfPages lib clib input w (seq (S k) n)
    = map (messageResponseOf lib)
        (firstn (n * Z.to_nat (ListMessagesInput.PerPage input))
           (skipn (k * Z.to_nat (ListMessagesInput.PerPage input))
              (conversation a b w0))).
Proof.
  intros Ha Hb Hnd Hpp.
  induction n as [|n IH]; intros k w Hm Hq Hn; [reflexivity|].
  cbn [seq rowsOfPages].
  rewrite (GetMessagesBetween_parsed lib clib (onPage (Z.of_nat (S k)) input)
             a b w Ha Hb).
  rewrite (chatFault_quiet w Hq).
  assert (perPageOf (onPage (Z.of_nat (S k)) input)
          = ListMessagesInput.PerPage input) as ->.
  { unfold perPageOf, onPage. cbn.
    destruct (Z.ltb_spec (ListMessagesInput.PerPage input) 1); cbn; [lia|].
    destruct (Z.gtb_spec (ListMessagesInput.PerPage input) 100); lia. }
  assert (pageOf (onPage (Z.of_nat (S k)) input) = Z.of_nat (S k)) as ->.
  { unfold pageOf, onPage. cbn [ListMessagesInput.Page].
    destruct (Z.ltb_spec (Z.of_nat (S k)) 1); lia. }
  rewrite !int32_small by nia.
  destruct (Z.ltb_spec (ListMessagesInput.PerPage input) 0); [lia|].
  destruct (Z.ltb_spec ((Z.of_nat (S k) - 1) * ListMessagesInput.PerPage input) 0);
    [nia|].
  cbv zeta. cbn [PaginatedResponse.Data].
  rewrite (IH (S k) (afterOrdering (chatAfterQuery w)));
    [| exact Hm | cbn; now rewrite Hq | lia].
  rewrite (conversation_ties a b w0 w Hm Hnd).
  rewrite <- map_app. f_equal.
  set (p := Z.to_nat (ListMessagesInput.PerPage input)).
  replace (Z.to_nat ((Z.of_nat (S k) - 1) * ListMessagesInput.PerPage input))
    with (k * p)%nat by (subst p; nia).
  replace (S n * p)%nat with (p + n * p)%nat by lia.
  rewrite firstn_more, skipn_skipn.
  replace (p + k * p)%nat with (S k * p)%nat by lia.
  reflexivity.
Qed.

(** X22: pages neither overlap nor skip, provided no two messages of the
    conversation carry the same time.  With a page size between 1 and
    100 and as long as the offset fits 31 bits, pages 1 to [n] asked one
    after the other are the [n * PerPage] newest messages of the
    conversation in order, however each query orders equal times.
    (Among messages of equal time [ORDER BY created_at] fixes no order,
    and a page may then repeat or miss a row.) *)
Theorem GetMessagesBetween_pages_tile_conversation (lib : Lib) (clib : ChatLib)
    (input : ListMessagesInput.t) (a b : UUID.t) (w : Chat.t) (n : nat) :
  StringToUUID clib (ListMessagesInput.UserID input) = Ok a ->
  StringToUUID clib (ListMessagesInput.FriendID input) = Ok b ->
  Chat.faults w = [] ->
  NoDup (map sentAt (filter (between a b) (Chat.messages w))) ->
  (1 <= ListMessagesInput.PerPage input <= 100)%Z ->
  (Z.of_nat n * ListMessagesInput.PerPage input < 2147483648)%Z ->
  rowsOfPages lib clib input w (seq 1 n)
  = map (messageResponseOf lib)
      (firstn (n * Z.to_nat (ListMessagesInput.PerPage input))
         (conversation a b w)).
Proof.
  intros Ha Hb Hq Hnd Hpp Hn.
  pose proof (rowsOfPages_from lib clib input a b w n Ha Hb Hnd Hpp 0%nat w
                eq_refl Hq) as Hpages.
  cbn [Nat.add Nat.mul skipn] in Hpages.
  apply Hpages. exact Hn.
Qed.

(** The world at another time. *)
Definition withChatClock (t : Time) (w : Chat.t) : Chat.t :=
  {| Chat.users := Chat.users w;
     Chat.messages := Chat.messages w;
     Chat.friendships := Chat.friendships w;
     Chat.clock := t;
     Chat.entropy := Chat.entropy w;
     Chat.faults := Chat.faults w;
     Chat.published := Chat.published w;
     Chat.sendFaults := Chat.sendFaults w;
     Chat.stdout := Chat.stdout w;
     Chat.tieOrders := Chat.tieOrders w |}.

Definition reply : SendMessageInput.t :=
  {| SendMessageInput.SenderID := bobText;
     SendMessageInput.ReceiverID := aliceText;
     SendMessageInput.Content := "hello, alice" |}.

(** Bob has answered a minute later. *)
Definition afterReply : Chat.t :=
  snd (SendMessage sampleLib sampleChatLib true reply
         (withChatClock (Sample.seconds 1700000160) afterHello)).

Lemma GetMessagesBetween_pages_tile_conversation_witness :
  rowsOfPages sampleLib sampleChatLib (listing 1 1) afterReply (seq 1 2)
  = map (messageResponseOf sampleLib)
      (firstn (2 * Z.to_nat (ListMessagesInput.PerPage (listing 1 1)))
         (conversation aliceUUID bobUUID afterReply)).
Proof.
  apply (GetMessagesBetween_pages_tile_conversation sampleLib sampleChatLib
           (listing 1 1) aliceUUID bobUUID afterReply 2);
    try (vm_compute; reflexivity).
  - vm_compute. repeat constructor; cbn; intuition discriminate.
  - vm_compute. split; discriminate.
Defined.

(** X23: the offset is cut to 32 bits, so the page number counts modulo
    2^32: page [p + 4294967296] holds the rows of page [p], or fails as
    page [p] does. *)
Theorem GetMessagesBetween_page_wraps (lib : Lib) (clib : ChatLib)
    (input : ListMessagesInput.t) (w : Chat.t) :
  (1 <= ListMessagesInput.Page input)%Z ->
  dataOf (fst (GetMessagesBetween lib clib
                 (onPage (ListMessagesInput.Page input + 4294967296) input) w))
  = dataOf (fst (GetMessagesBetween lib clib input w)).
Proof.
  intros Hp. unfold GetMessagesBetween, onPage.
  cbn [ListMessagesInput.UserID ListMessagesInput.FriendID
       ListMessagesInput.Page ListMessagesInput.PerPage].
  destruct (StringToUUID clib (ListMessagesInput.UserID input)) as [a|e];
    [|reflexivity].
  destruct (StringToUUID clib (ListMessagesInput.FriendID input)) as [b|e];
    [|reflexivity].
  fold (perPageOf input).
  destruct (Z.ltb_spec (ListMessagesInput.Page input + 4294967296) 1); [lia|].
  destruct (Z.ltb_spec (ListMessagesInput.Page input) 1); [lia|].
  rewrite !int32_int64.
  replace ((ListMessagesInput.Page input + 4294967296 - 1) * perPageOf input)%Z
    with ((ListMessagesInput.Page input - 1) * perPageOf input
          + perPageOf input * 4294967296)%Z by lia.
  rewrite int32_period.
  destruct (ListMessagesBetweenUsers _ w) as [[rows|e] w1]; reflexivity.
Qed.

Lemma GetMessagesBetween_page_wraps_witness :
  dataOf (fst (GetMessagesBetween sampleLib sampleChatLib
                 (onPage (ListMessagesInput.Page (listing 1 50) + 4294967296)
                    (listing 1 50)) afterHello))
  = dataOf (fst (GetMessagesBetween sampleLib sampleChatLib (listing 1 50)
                   afterHello)).
Proof.
  apply (GetMessagesBetween_page_wraps sampleLib sampleChatLib (listing 1 50)
           afterHello).
  vm_compute. discriminate.
Defined.

(** ** Marking a message *)







(** ** Sending, then listing *)

(** X25: a message that was sent is in the conversation of both parties.
    After a [SendMessage] that succeeded, and if the two had exchanged
    fewer messages than one page holds, the first page either of them
    asks for the other contains the response [SendMessage] returned. *)
Theorem sent_message_is_listed (lib : Lib) (clib : ChatLib) (producer : bool)
    (input : SendMessageInput.t) (w w1 : Chat.t) (resp : MessageResponse.t)
    (a b : UUID.t) (page perPage : Z) :
  SendMessage lib clib producer input w = (Ok resp, w1) ->
  StringToUUID clib (SendMessageInput.SenderID input) = Ok a ->
  StringToUUID clib (SendMessageInput.ReceiverID input) = Ok b ->
  chatFault w1 = None ->
  (page <= 1)%Z ->
  (1 <= perPage <= 100)%Z ->
  (Z.of_nat (List.length (conversation a b w)) < perPage)%Z ->
  forall user friend : string,
    (user = SendMessageInput.SenderID input /\
     friend = SendMessageInput.ReceiverID input) \/
    (user = SendMessageInput.ReceiverID input /\
     friend = SendMessageInput.SenderID input) ->
    exists listing,
      fst (GetMessagesBetween lib clib
             {| ListMessagesInput.UserID := user;
                ListMessagesInput.FriendID := friend;
                ListMessagesInput.Page := page;
                ListMessagesInput.PerPage := perPage |} w1) = Ok listing /\
      In resp (PaginatedResponse.Data listing).
Proof.
  intros Hsend Ha Hb Hq Hpage Hpp Hlen user friend Hdir.
  unfold SendMessage in Hsend.
  destruct (validateSendMessageInput input); [discriminate|].
  rewrite Ha, Hb in Hsend.
  destruct (CreateMessage _ w) as [[row|e] w0] eqn:Hc; [|discriminate].
  apply CreateMessage_Ok in Hc. cbn in Hc.
  destruct Hc as (Hm & _ & _ & _ & _ & _ & _ & Hsid & Hrid & _ & _).
  fold (messageResponseOf lib row) in Hsend.
  destruct (json_Marshal clib _) as [bytes|e]; [|discriminate].
  injection Hsend as <- <-.
  assert (Chat.messages
            (if producer
             then
               let (sent, w2) :=
                 producerSendMessage "chat-messages"
                   (SendMessageInput.ReceiverID input) bytes w0 in
               match sent with
               | Some err =>
                   Printf ("WARN: Erro ao enviar para Kafka: "
                           ++ Error err ++ newline) w2
               | None => w2
               end
             else w0) = (Chat.messages w ++ [row])%list) as Hm1.
  { destruct producer; [|exact Hm]. unfold producerSendMessage.
    destruct (Chat.sendFaults w0) as [|[e|] fs]; exact Hm. }
  set (w1 := if producer then _ else w0) in *.
  assert (between a b row = true) as Hrow.
  { unfold between. rewrite Hsid, Hrid.
    rewrite (sameID_refl a (StringToUUID_Valid clib _ a Ha)).
    now rewrite (sameID_refl b (StringToUUID_Valid clib _ b Hb)). }
  assert (forall x y, (x = a /\ y = b) \/ (x = b /\ y = a) ->
            In row (conversation x y w1) /\
            (List.length (conversation x y w1) <= Z.to_nat perPage)%nat)
    as Hconv.
  { intros x y Hxy. unfold conversation in *. rewrite Hm1.
    rewrite newestFirst_length in *.
    assert (filter (between x y) (Chat.messages w ++ [row])
            = filter (between a b) (Chat.messages w ++ [row])) as ->.
    { apply filter_ext. intros m.
      destruct Hxy as [[-> ->]|[-> ->]]; [reflexivity | apply between_sym]. }
    rewrite filter_app. cbn [filter]. rewrite Hrow. split.
    - apply newestFirst_In, in_or_app. right. now left.
    - rewrite List.length_app. cbn [List.length]. lia. }
  assert (exists x y, StringToUUID clib user = Ok x /\
                      StringToUUID clib friend = Ok y /\
                      ((x = a /\ y = b) \/ (x = b /\ y = a)))
    as (x & y & Hx & Hy & Hxy).
  { destruct Hdir as [[-> ->]|[-> ->]]; [exists a, b | exists b, a]; tauto. }
  destruct (Hconv x y Hxy) as [Hin Hfit].
  rewrite (GetMessagesBetween_parsed lib clib
             {| ListMessagesInput.UserID := user;
                ListMessagesInput.FriendID := friend;
                ListMessagesInput.Page := page;
                ListMessagesInput.PerPage := perPage |} x y w1 Hx Hy), Hq.
  assert (perPageOf {| ListMessagesInput.UserID := user;
                       ListMessagesInput.FriendID := friend;
                       ListMessagesInput.Page := page;
                       ListMessagesInput.PerPage := perPage |} = perPage) as ->.
  { unfold perPageOf. cbn.
    destruct (Z.ltb_spec perPage 1); cbn; [lia|].
    destruct (Z.gtb_spec perPage 100); lia. }
  assert ((pageOf {| ListMessagesInput.UserID := user;
                     ListMessagesInput.FriendID := friend;
                     ListMessagesInput.Page := page;
                     ListMessagesInput.PerPage := perPage |} - 1) * perPage
          = 0)%Z as ->.
  { unfold pageOf. cbn.
    destruct (Z.ltb_spec page 1); [reflexivity|].
    replace page with 1%Z by lia. reflexivity. }
  rewrite (int32_small perPage), (int32_small 0) by lia.
  destruct (Z.ltb_spec perPage 0); [lia|].
  cbn [Z.ltb Z.compare Z.to_nat skipn fst].
  eexists. split; [reflexivity|]. cbn [PaginatedResponse.Data].
  apply in_map. rewrite firstn_all2 by exact Hfit. exact Hin.
Qed.

Lemma sent_message_is_listed_witness :
  exists listing,
    fst (GetMessagesBetween sampleLib sampleChatLib
           {| ListMessagesInput.UserID := bobText;
              ListMessagesInput.FriendID := aliceText;
              ListMessagesInput.Page := 1;
              ListMessagesInput.PerPage := 50 |} afterHello) = Ok listing /\
    In helloResponse (PaginatedResponse.Data listing).
Proof.
  apply (sent_message_is_listed sampleLib sampleChatLib true hello chatWorld
           afterHello helloResponse aliceUUID bobUUID 1 50);
    try (vm_compute; reflexivity).
  - vm_compute. discriminate.
  - vm_compute. split; discriminate.
  - right. split; reflexivity.
Defined.

(** ** Friendships *)

Lemma GetFriendship_quiet (arg : GetFriendshipParams.t) (w : Chat.t) :
  chatFault w = None ->
  GetFriendship arg w
  = (oneRow (find (joins (GetFriendshipParams.UserID arg)
                     (GetFriendshipParams.FriendID arg))
               (Chat.friendships w)), chatAfterQuery w).
Proof. intros H. unfold GetFriendship. now rewrite (query_None _ _ w H). Qed.

Lemma CreateFriendship_quiet (arg : CreateFriendshipParams.t) (w : Chat.t) :
  chatFault w = None ->
  exists row w1,
    CreateFriendship arg w = (Ok row, w1) /\
    Chat.friendships w1 = (Chat.friendships w ++ [row])%list /\
    Chat.users w1 = Chat.users w /\
    Chat.messages w1 = Chat.messages w /\
    Chat.faults w1 = tl (Chat.faults w) /\
    UUID.Valid (Friendship.ID row) = true /\
    Friendship.UserID row = CreateFriendshipParams.UserID arg /\
    Friendship.FriendID row = CreateFriendshipParams.FriendID arg /\
    Friendship.Status row = CreateFriendshipParams.Status arg.
Proof.
  intros H. unfold CreateFriendship. rewrite (query_None _ _ w H).
  do 2 eexists. split; [reflexivity|]. cbn. repeat split; reflexivity.
Qed.

Lemma UpdateFriendshipStatus_quiet (arg : UpdateFriendshipStatusParams.t)
    (w : Chat.t) :
  chatFault w = None ->
  exists w1,
    UpdateFriendshipStatus arg w = (None, w1) /\
    Chat.friendships w1
      = map (setFriendshipStatus (UpdateFriendshipStatusParams.ID arg)
               (UpdateFriendshipStatusParams.Status arg)) (Chat.friendships w) /\
    Chat.users w1 = Chat.users w /\
    Chat.messages w1 = Chat.messages w /\
    Chat.faults w1 = tl (Chat.faults w).
Proof.
  intros H. unfold UpdateFriendshipStatus. rewrite (query_None _ _ w H).
  eexists. split; [reflexivity|]. cbn. repeat split; reflexivity.
Qed.



Lemma find_pointwise {A} (p q : A -> bool) (l : list A) :
  (forall x, p x = q x) -> find p l = find q l.
Proof.
  intros H. induction l as [|x l IH]; [reflexivity|].
  cbn. now rewrite H, IH.
Qed.

Lemma find_app_found {A} (p : A -> bool) (l : list A) (x : A) :
  p x = true -> exists y, find p (l ++ [x])%list = Some y.
Proof.
  intros H. induction l as [|z l IH]; cbn.
  - rewrite H. now exists x.
  - destruct (p z); [now exists z | exact IH].
Qed.

Lemma find_app_last {A} (p : A -> bool) (l : list A) (x : A) :
  find p l = None -> p x = true -> find p (l ++ [x])%list = Some x.
Proof.
  intros Hl Hx. induction l as [|z l IH]; cbn in *.
  - now rewrite Hx.
  - destruct (p z); [discriminate | auto].
Qed.

(** A request of friendship that goes through: what [AddFriend] has
    checked and written. *)
Lemma AddFriend_None (clib : ChatLib) (input : AddFriendInput.t)
    (w : Chat.t) :
  Chat.faults w = [] ->
  fst (AddFriend clib input w) = None ->
  exists (u f : UUID.t) (row : Friendship.t),
    AddFriendInput.UserID input <> AddFriendInput.FriendID input /\
    StringToUUID clib (AddFriendInput.UserID input) = Ok u /\
    StringToUUID clib (AddFriendInput.FriendID input) = Ok f /\
    find (joins u f) (Chat.friendships w) = None /\
    Chat.friendships (snd (AddFriend clib input w))
      = (Chat.friendships w ++ [row])%list /\
    Chat.users (snd (AddFriend clib input w)) = Chat.users w /\
    Chat.messages (snd (AddFriend clib input w)) = Chat.messages w /\
    Chat.faults (snd (AddFriend clib input w)) = [] /\
    UUID.Valid (Friendship.ID row) = true /\
    Friendship.UserID row = u /\
    Friendship.FriendID row = f /\
    Friendship.Status row = "pending".
Proof.
  intros Hq. unfold AddFriend.
  destruct (String.eqb_spec (AddFriendInput.UserID input)
              (AddFriendInput.FriendID input)) as [He|He]; [discriminate|].
  destruct (StringToUUID clib (AddFriendInput.UserID input)) as [u|e];
    [|discriminate].
  destruct (StringToUUID clib (AddFriendInput.FriendID input)) as [f|e];
    [|discriminate].
  rewrite (GetFriendship_quiet _ w (chatFault_quiet w Hq)).
  rewrite (chatAfterQuery_quiet w Hq).
  cbn [GetFriendshipParams.UserID GetFriendshipParams.FriendID].
  destruct (find (joins u f) (Chat.friendships w)) as [r|] eqn:Hfind;
    [discriminate|].
  cbn [oneRow isErrNoRows negb].
  destruct (CreateFriendship_quiet
              {| CreateFriendshipParams.UserID := u;
                 CreateFriendshipParams.FriendID := f;
                 CreateFriendshipParams.Status := "pending" |} w
              (chatFault_quiet w Hq))
    as (row & w1 & -> & Hfr & Hu & Hm & Hq1 & Hv & Hru & Hrf & Hrs).
  rewrite Hq in Hq1. cbn in *. intros _.
  exists u, f, row. repeat split; assumption.
Qed.

(** X26: one request per pair.  After a request of friendship from one
    account to another went through, a further [AddFriend] between the
    two, in either direction, is refused as already existing and adds no
    row. *)
Theorem AddFriend_again_is_refused (clib : ChatLib) (input : AddFriendInput.t)
    (w : Chat.t) :
  Chat.faults w = [] ->
  fst (AddFriend clib input w) = None ->
  let w1 := snd (AddFriend clib input w) in
  forall again : AddFriendInput.t,
    (again = input \/
     again = {| AddFriendInput.UserID := AddFriendInput.FriendID input;
                AddFriendInput.FriendID := AddFriendInput.UserID input |}) ->
    fst (AddFriend clib again w1)
      = Some (ErrorfS "solicitação de amizade já existe") /\
    Chat.friendships (snd (AddFriend clib again w1)) = Chat.friendships w1.
Proof.
  intros Hq Hok w1 again Hagain.
  destruct (AddFriend_None clib input w Hq Hok)
    as (u & f & row & Hne & Hu & Hf & _ & Hfr & _ & _ & Hq1 & _ & Hru & Hrf & _).
  fold w1 in Hfr, Hq1.
  assert (joins u f row = true) as Hrow.
  { unfold joins. rewrite Hru, Hrf.
    rewrite (sameID_refl u (StringToUUID_Valid clib _ u Hu)).
    now rewrite (sameID_refl f (StringToUUID_Valid clib _ f Hf)). }
  assert (exists x y,
            AddFriendInput.UserID again <> AddFriendInput.FriendID again /\
            StringToUUID clib (AddFriendInput.UserID again) = Ok x /\
            StringToUUID clib (AddFriendInput.FriendID again) = Ok y /\
            joins x y row = true) as (x & y & Hne' & Hx & Hy & Hxy).
  { destruct Hagain as [->| ->].
    - exists u, f. tauto.
    - exists f, u. cbn. rewrite joins_sym. repeat split; [congruence|..]; assumption. }
  unfold AddFriend.
  destruct (String.eqb_spec (AddFriendInput.UserID again)
              (AddFriendInput.FriendID again)) as [He|_]; [contradiction|].
  rewrite Hx, Hy.
  rewrite (GetFriendship_quiet _ w1 (chatFault_quiet w1 Hq1)).
  rewrite (chatAfterQuery_quiet w1 Hq1).
  cbn [GetFriendshipParams.UserID GetFriendshipParams.FriendID].
  rewrite Hfr.
  destruct (find_app_found (joins x y) (Chat.friendships w) row Hxy)
    as (found & ->).
  cbn. split; [reflexivity | exact Hfr].
Qed.

Lemma AddFriend_again_is_refused_witness :
  fst (AddFriend sampleChatLib
         {| AddFriendInput.UserID := bobText;
            AddFriendInput.FriendID := aliceText |} afterRequest)
    = Some (ErrorfS "solicitação de amizade já existe") /\
  Chat.friendships
    (snd (AddFriend sampleChatLib
            {| AddFriendInput.UserID := bobText;
               AddFriendInput.FriendID := aliceText |} afterRequest))
  = Chat.friendships afterRequest.
Proof.
  apply (AddFriend_again_is_refused sampleChatLib aliceAsksBob chatWorld);
    try (vm_compute; reflexivity).
  right. reflexivity.
Defined.

(** X27: the check against befriending oneself compares the two texts,
    not the accounts.  Two different spellings of one identifier pass it:
    when no such row exists and the database raises no objection,
    [AddFriend] succeeds and stores a pending friendship of the account
    with itself. *)
Theorem AddFriend_self_under_two_spellings (clib : ChatLib)
    (input : AddFriendInput.t) (bytes : list Byte.byte) (w : Chat.t) :
  AddFriendInput.UserID input <> AddFriendInput.FriendID input ->
  uuid_Parse clib (AddFriendInput.UserID input) = Ok bytes ->
  uuid_Parse clib (AddFriendInput.FriendID input) = Ok bytes ->
  Chat.faults w = [] ->
  let self := {| UUID.Bytes := bytes; UUID.Valid := true |} in
  find (joins self self) (Chat.friendships w) = None ->
  fst (AddFriend clib input w) = None /\
  exists row,
    Chat.friendships (snd (AddFriend clib input w))
      = (Chat.friendships w ++ [row])%list /\
    Friendship.UserID row = self /\
    Friendship.FriendID row = self /\
    Friendship.Status row = "pending".
Proof.
  intros Hne Hu Hf Hq self Hnone. unfold AddFriend.
  destruct (String.eqb_spec (AddFriendInput.UserID input)
              (AddFriendInput.FriendID input)) as [He|_]; [contradiction|].
  unfold StringToUUID. rewrite Hu, Hf. fold self.
  rewrite (GetFriendship_quiet _ w (chatFault_quiet w Hq)).
  rewrite (chatAfterQuery_quiet w Hq).
  cbn [GetFriendshipParams.UserID GetFriendshipParams.FriendID].
  rewrite Hnone. cbn [oneRow isErrNoRows negb].
  destruct (CreateFriendship_quiet
              {| CreateFriendshipParams.UserID := self;
                 CreateFriendshipParams.FriendID := self;
                 CreateFriendshipParams.Status := "pending" |} w
              (chatFault_quiet w Hq))
    as (row & w1 & -> & Hfr & _ & _ & _ & _ & Hru & Hrf & Hrs).
  cbn in *. split; [reflexivity|]. exists row. tauto.
Qed.

Lemma AddFriend_self_under_two_spellings_witness :
  fst (AddFriend sampleChatLib
         {| AddFriendInput.UserID := bobText;
            AddFriendInput.FriendID := bobTextUpper |} chatWorld) = None /\
  exists row,
    Chat.friendships
      (snd (AddFriend sampleChatLib
              {| AddFriendInput.UserID := bobText;
                 AddFriendInput.FriendID := bobTextUpper |} chatWorld))
      = (Chat.friendships chatWorld ++ [row])%list /\
    Friendship.UserID row = bobUUID /\
    Friendship.FriendID row = bobUUID /\
    Friendship.Status row = "pending".
Proof.
  apply (AddFriend_self_under_two_spellings sampleChatLib
           {| AddFriendInput.UserID := bobText;
              AddFriendInput.FriendID := bobTextUpper |}
           (bytesOfN 11) chatWorld);
    try (vm_compute; reflexivity).
  vm_compute. discriminate.
Defined.

(** X28: [AcceptFriend] looks the request up in both directions, so the
    account that asked can accept in place of the one that was asked.
    After a request from [UserID] to [FriendID] went through,
    [AcceptFriend] succeeds with either of the two as [UserID], and the
    stored request is then accepted. *)
Theorem AcceptFriend_by_either_party (clib : ChatLib) (input : AddFriendInput.t)
    (w : Chat.t) :
  Chat.faults w = [] ->
  fst (AddFriend clib input w) = None ->
  let w1 := snd (AddFriend clib input w) in
  forall accept : AcceptFriendInput.t,
    (accept = {| AcceptFriendInput.UserID := AddFriendInput.UserID input;
                 AcceptFriendInput.FriendID := AddFriendInput.FriendID input |}
     \/
     accept = {| AcceptFriendInput.UserID := AddFriendInput.FriendID input;
                 AcceptFriendInput.FriendID := AddFriendInput.UserID input |}) ->
    fst (AcceptFriend clib accept w1) = None /\
    exists u f row,
      StringToUUID clib (AddFriendInput.UserID input) = Ok u /\
      StringToUUID clib (AddFriendInput.FriendID input) = Ok f /\
      In row (Chat.friendships (snd (AcceptFriend clib accept w1))) /\
      Friendship.UserID row = u /\
      Friendship.FriendID row = f /\
      Friendship.Status row = "accepted".
Proof.
  intros Hq Hok w1 accept Haccept.
  destruct (AddFriend_None clib input w Hq Hok)
    as (u & f & row & Hne & Hu & Hf & Hnone & Hfr & _ & _ & Hq1 & Hv & Hru
        & Hrf & Hrs).
  fold w1 in Hfr, Hq1.
  assert (joins u f row = true) as Hrow.
  { unfold joins. rewrite Hru, Hrf.
    rewrite (sameID_refl u (StringToUUID_Valid clib _ u Hu)).
    now rewrite (sameID_refl f (StringToUUID_Valid clib _ f Hf)). }
  assert (exists x y,
            StringToUUID clib (AcceptFriendInput.UserID accept) = Ok x /\
            StringToUUID clib (AcceptFriendInput.FriendID accept) = Ok y /\
            find (joins y x) (Chat.friendships w1) = Some row)
    as (x & y & Hx & Hy & Hfind).
  { destruct Haccept as [->| ->]; cbn.
    - exists u, f. repeat split; try assumption. rewrite Hfr.
      apply find_app_last; [|now rewrite joins_sym].
      rewrite (find_pointwise (joins f u) (joins u f))
        by (intros r; apply joins_sym).
      exact Hnone.
    - exists f, u. repeat split; try assumption. rewrite Hfr.
      now apply find_app_last. }
  unfold AcceptFriend. rewrite Hx, Hy.
  rewrite (GetFriendship_quiet _ w1 (chatFault_quiet w1 Hq1)).
  rewrite (chatAfterQuery_quiet w1 Hq1).
  cbn [GetFriendshipParams.UserID GetFriendshipParams.FriendID].
  rewrite Hfind. cbn [oneRow]. rewrite Hrs. cbn [String.eqb Ascii.eqb Bool.eqb].
  destruct (UpdateFriendshipStatus_quiet
              {| UpdateFriendshipStatusParams.ID := Friendship.ID row;
                 UpdateFriendshipStatusParams.Status := "accepted" |} w1
              (chatFault_quiet w1 Hq1))
    as (w2 & -> & Hfr2 & _).
  cbn in *. split; [reflexivity|].
  exists u, f, (setFriendshipStatus (Friendship.ID row) "accepted" row).
  repeat split; try assumption.
  - rewrite Hfr2, Hfr. apply in_map, in_or_app. right. now left.
  - unfold setFriendshipStatus.
    now destruct (sameID (Friendship.ID row) (Friendship.ID row)).
  - unfold setFriendshipStatus.
    now destruct (sameID (Friendship.ID row) (Friendship.ID row)).
  - unfold setFriendshipStatus. now rewrite (sameID_refl _ Hv).
Qed.

Lemma AcceptFriend_by_either_party_witness :
  fst (AcceptFriend sampleChatLib
         {| AcceptFriendInput.UserID := aliceText;
            AcceptFriendInput.FriendID := bobText |} afterRequest) = None /\
  exists u f row,
    StringToUUID sampleChatLib (AddFriendInput.UserID aliceAsksBob) = Ok u /\
    StringToUUID sampleChatLib (AddFriendInput.FriendID aliceAsksBob) = Ok f /\
    In row (Chat.friendships
              (snd (AcceptFriend sampleChatLib
                      {| AcceptFriendInput.UserID := aliceText;
                         AcceptFriendInput.FriendID := bobText |} afterRequest))) /\
    Friendship.UserID row = u /\
    Friendship.FriendID row = f /\
    Friendship.Status row = "accepted".
Proof.
  apply (AcceptFriend_by_either_party sampleChatLib aliceAsksBob chatWorld);
    try (vm_compute; reflexivity).
  left. reflexivity.
Defined.



(** X30: [ListFriends] lists the accounts joined to the caller by an
    accepted friendship, whichever of the two asked, and no other: a
    request still pending shows on neither side.  It changes no table. *)
Theorem ListFriends_lists_accepted_friends (lib : Lib) (clib : ChatLib)
    (userID : string) (w w' : Chat.t) (resps : list UserResponse.t) :
  ListFriends lib clib userID w = (Ok resps, w') ->
  exists id,
    StringToUUID clib userID = Ok id /\
    sameChatTables w w' /\
    forall r, In r resps <->
      exists u f,
        In u (Chat.users w) /\ In f (Chat.friendships w) /\
        r = userResponseOf lib u /\
        Friendship.Status f = "accepted" /\
        ((sameID (User.ID u) (Friendship.FriendID f) = true /\
          sameID (Friendship.UserID f) id = true) \/
         (sameID (User.ID u) (Friendship.UserID f) = true /\
          sameID (Friendship.FriendID f) id = true)).
Proof.
  unfold ListFriends.
  destruct (StringToUUID clib userID) as [id|e]; [|discriminate].
  unfold ListUserFriends, query.
  destruct (chatFault w); [discriminate|].
  intros H. injection H as <- <-.
  exists id. split; [reflexivity|]. split; [cbn; repeat split; reflexivity|].
  intros r. fold (userResponseOf lib). rewrite in_map_iff. cbn.
  split.
  - intros (u & <- & Hu). apply filter_In in Hu. destruct Hu as [Hu Hex].
    apply existsb_exists in Hex. destruct Hex as (f & Hf & Hthrough).
    unfold friendThrough in Hthrough.
    apply andb_true_iff in Hthrough. destruct Hthrough as [Hst Hside].
    apply String.eqb_eq in Hst. apply orb_true_iff in Hside.
    rewrite !andb_true_iff in Hside.
    exists u, f. tauto.
  - intros (u & f & Hu & Hf & -> & Hst & Hside).
    exists u. split; [reflexivity|]. apply filter_In. split; [exact Hu|].
    apply existsb_exists. exists f. split; [exact Hf|].
    unfold friendThrough. rewrite Hst. cbn [String.eqb Ascii.eqb Bool.eqb andb].
    apply orb_true_iff. rewrite !andb_true_iff. exact Hside.
Qed.

Lemma ListFriends_lists_accepted_friends_witness :
  exists id,
    StringToUUID sampleChatLib aliceText = Ok id /\
    sameChatTables afterAccept afterAccept /\
    forall r, In r [userResponseOf sampleLib bob] <->
      exists u f,
        In u (Chat.users afterAccept) /\ In f (Chat.friendships afterAccept) /\
        r = userResponseOf sampleLib u /\
        Friendship.Status f = "accepted" /\
        ((sameID (User.ID u) (Friendship.FriendID f) = true /\
          sameID (Friendship.UserID f) id = true) \/
         (sameID (User.ID u) (Friendship.UserID f) = true /\
          sameID (Friendship.FriendID f) id = true)).
Proof.
  apply (ListFriends_lists_accepted_friends sampleLib sampleChatLib aliceText
           afterAccept afterAccept [userResponseOf sampleLib bob]).
  vm_compute. reflexivity.
Defined.
